(** * PMS (PublicMusicService): a shallow embedding of cmd/pms/main.go

    The program is a single-endpoint HTTP relay written in Go: [GET /song]
    validates a song id, asks an upstream music service for the URLs of
    that song and relays the answer; [GET /health] reports that the
    service is up.  This file embeds the functions of main.go that decide
    this behaviour -- [getEnvOrDefault], [init], [main], the health
    handler, [getSongURL] and [corsMiddleware] -- together with the parts
    of the Go standard library (strconv, unicode/utf8, unicode/utf16,
    encoding/json, net/url, time, net/http, os), of gin and of godotenv
    that they call, and proves the properties of the relay against that
    embedding.

    Conventions.
    - A Go [string] and a Go [[]byte] are both byte sequences: Rocq's
      [string], whose characters are the 8-bit [ascii].
    - Go's [int] and [int64] are 64 bits wide; they are carried as [Z] and
      the range checks and wrap-arounds of the library are written out.
    - A Go [float64] is an IEEE 754 binary64 value: [spec_float] with
      precision 53 and maximal exponent 1024.
    - A Go map is a [gmap]; a map that the library only ever walks in
      sorted key order is an association list sorted by key.
    - A function that returns [(T, error)] returns a [result].
    - What a function reads from outside the program (the environment,
      the [.env] file, the clock, the upstream service, the outcome of
      binding the listener) is an argument; what it does to the outside
      (the response, the URLs passed to [http.Get], log lines, exit) is
      in its result.

    Left out: the matching of request paths by the router (a route is
    given the requests for its path), the logger and the recovery
    middleware, the log lines that the handler writes on its error paths,
    gin's own debug output, and the spelling of the JSON text that
    [Marshal] writes (digits of a float, escapes in a string): a response
    body is the JSON document, not its bytes. *)

From Stdlib Require Import ZArith Ascii String List Bool Lia.
From Stdlib Require Import Floats.SpecFloat.
From stdpp Require Import base option list strings gmap.

Set Warnings "-register-all".

Local Open Scope string_scope.
Local Open Scope Z_scope.

(** ** Results of fallible calls *)

Inductive result (E A : Type) : Type :=
| Ok (a : A)
| Err (e : E).
Arguments Ok {E A} a.
Arguments Err {E A} e.

Definition bind {E A B : Type} (r : result E A) (k : A -> result E B) : result E B :=
  match r with
  | Ok a => k a
  | Err e => Err e
  end.

Notation "'do' x <- r ; k" := (bind r (fun x => k))
  (at level 10, x name, r at level 100, k at level 200).

Definition is_ok {E A : Type} (r : result E A) : bool :=
  match r with Ok _ => true | Err _ => false end.

(** ** Bytes *)

(** The numeric value of a byte. *)
Definition byte (c : ascii) : Z := Z.of_N (N_of_ascii c).

(** The byte with a given value (taken modulo 256, as a Go conversion
    [byte(x)] does). *)
Definition chr (v : Z) : ascii := ascii_of_N (Z.to_N (v mod 256)).

Definition str1 (c : ascii) : string := String c EmptyString.

(** The double quote character, and a helper that lets test inputs be
    written with apostrophes in place of double quotes. *)
Definition dquote : ascii := chr 34.

Fixpoint dq (s : string) : string :=
  match s with
  | EmptyString => EmptyString
  | String c rest => String (if (byte c =? 39) then dquote else c) (dq rest)
  end.

Definition is_digit (c : ascii) : bool := (48 <=? byte c) && (byte c <=? 57).

Definition is_upper (c : ascii) : bool := (65 <=? byte c) && (byte c <=? 90).

Definition is_lower (c : ascii) : bool := (97 <=? byte c) && (byte c <=? 122).

Definition slen (s : string) : Z := Z.of_nat (String.length s).

(** ** package strconv *)

Module Strconv.

(** Go's [int] on the platforms the service is built for. *)
Definition intSize : Z := 64.

Definition maxUint64 : Z := 2 ^ 64 - 1.

Inductive NumError : Type := ErrSyntax | ErrRange.

(** The digit loop of [ParseUint(s, 10, bitSize)]: base 10 given
    explicitly, so underscores are not accepted.  [maxVal] is
    [1<<bitSize - 1] and [n] the value accumulated so far. *)
Fixpoint parseUintLoop (maxVal : Z) (s : string) (n : Z) : result NumError Z :=
  match s with
  | EmptyString => Ok n
  | String c rest =>
      if negb (is_digit c) then Err ErrSyntax
      else
        let d := byte c - 48 in
        (* cutoff is maxUint64/10 + 1: n*10 would overflow 64 bits *)
        if n >=? maxUint64 / 10 + 1 then Err ErrRange
        else
          let n1 := n * 10 + d in
          (* n1 < n*10 (wrap-around) or n1 > maxVal *)
          if (n1 >? maxUint64) || (n1 >? maxVal) then Err ErrRange
          else parseUintLoop maxVal rest n1
  end.

Definition ParseUint (s : string) (bitSize : Z) : result NumError Z :=
  match s with
  | EmptyString => Err ErrSyntax
  | _ =>
      let bitSize := if bitSize =? 0 then intSize else bitSize in
      parseUintLoop (2 ^ bitSize - 1) s 0
  end.

(** [ParseInt(s, 10, bitSize)].  A range error of [ParseUint] is kept
    (the clamped value it returns with the error is not part of the
    result here: every caller in this program discards it). *)
Definition ParseInt (s : string) (bitSize : Z) : result NumError Z :=
  match s with
  | EmptyString => Err ErrSyntax
  | String c rest =>
      let neg := byte c =? 45 in
      let s' := if (byte c =? 43) || (byte c =? 45) then rest else s in
      do un <- ParseUint s' bitSize;
      let bitSize := if bitSize =? 0 then intSize else bitSize in
      let cutoff := 2 ^ (bitSize - 1) in
      if negb neg && (un >=? cutoff) then Err ErrRange
      else if neg && (un >? cutoff) then Err ErrRange
      else Ok (if neg then - un else un)
  end.

(** The fast path of [Atoi]: no overflow check, the string is short. *)
Fixpoint atoiFast (s : string) (n : Z) : result NumError Z :=
  match s with
  | EmptyString => Ok n
  | String c rest =>
      let ch := (byte c - 48) mod 256 in
      if ch >? 9 then Err ErrSyntax else atoiFast rest (n * 10 + ch)
  end.

Definition Atoi (s : string) : result NumError Z :=
  let sLen := slen s in
  if (0 <? sLen) && (sLen <? 19) then
    match s with
    | EmptyString => Err ErrSyntax
    | String c rest =>
        let signed := (byte c =? 45) || (byte c =? 43) in
        let s' := if signed then rest else s in
        if signed && (slen s' <? 1) then Err ErrSyntax
        else
          do n <- atoiFast s' 0;
          Ok (if byte c =? 45 then - n else n)
    end
  else ParseInt s 0.

(** Decimal digits of [u], most significant first, prepended to [acc].
    (The library fills a 65-byte buffer from its end; twenty digits
    suffice for 64 bits.) *)
Fixpoint formatBits (fuel : nat) (u : Z) (acc : string) : string :=
  match fuel with
  | O => acc
  | S fuel' =>
      let acc' := String (chr (48 + u mod 10)) acc in
      if u <? 10 then acc' else formatBits fuel' (u / 10) acc'
  end.

(** [FormatInt(i, 10)]. *)
Definition FormatInt (i : Z) : string :=
  if i <? 0 then String (chr 45) (formatBits 20 (- i) EmptyString)
  else formatBits 20 i EmptyString.

Definition Itoa (i : Z) : string := FormatInt i.

(** A [float64]: IEEE 754 binary64. *)
Definition float64 : Type := spec_float.

(** A run of decimal digits: the value accumulated onto [acc], how many
    digits were read, and the rest of the text. *)
Fixpoint readDigits (s : string) (acc : Z) (cnt : Z) : Z * Z * string :=
  match s with
  | EmptyString => (acc, cnt, s)
  | String c rest =>
      if is_digit c then readDigits rest (acc * 10 + (byte c - 48)) (cnt + 1)
      else (acc, cnt, s)
  end.

Definition readSign (s : string) : bool * string :=
  match s with
  | String c rest =>
      if byte c =? 43 then (false, rest)
      else if byte c =? 45 then (true, rest)
      else (false, s)
  | EmptyString => (false, s)
  end.

(** [readFloat] for a decimal literal: sign, decimal mantissa and decimal
    exponent, so that the literal denotes [mantissa * 10 ^ exponent].
    (The hexadecimal, infinity and NaN spellings that [ParseFloat] also
    reads never reach it from the JSON decoder.) *)
Definition readFloat (s : string) : option (bool * Z * Z) :=
  let '(neg, s1) := readSign s in
  let '(m1, n1, s2) := readDigits s1 0 0 in
  let '(m2, n2, s3) :=
    match s2 with
    | String c rest => if byte c =? 46 then readDigits rest m1 0 else (m1, 0, s2)
    | EmptyString => (m1, 0, s2)
    end in
  if n1 + n2 =? 0 then None
  else
    match s3 with
    | EmptyString => Some (neg, m2, - n2)
    | String c rest =>
        if (byte c =? 101) || (byte c =? 69) then
          let '(eneg, r1) := readSign rest in
          let '(e, ne, r2) := readDigits r1 0 0 in
          if ne =? 0 then None
          else
            match r2 with
            | EmptyString => Some (neg, m2, (if eneg then - e else e) - n2)
            | _ => None
            end
        else None
    end.

(** [ParseFloat(s, 64)]: the binary64 value nearest to the literal, ties
    to even; a literal that rounds to an infinity is a range error, one
    that rounds to zero is not. *)
Definition ParseFloat (s : string) : result NumError float64 :=
  match readFloat s with
  | None => Err ErrSyntax
  | Some (neg, m, e) =>
      let f :=
        match m with
        | Zpos p =>
            if 0 <=? e then binary_round 53 1024 neg (p * Z.to_pos (10 ^ e)) 0
            else SFdiv 53 1024 (S754_finite neg p 0)
                   (S754_finite false (Z.to_pos (10 ^ (- e))) 0)
        | _ => S754_zero neg
        end in
      match f with
      | S754_infinity _ => Err ErrRange
      | _ => Ok f
      end
  end.

End Strconv.


(** ** package unicode/utf8 *)

Module Utf8.

Definition is_cont (lo hi : Z) (c : ascii) : bool := (lo <=? byte c) && (byte c <=? hi).

(** [DecodeRune] on the front of [s], as far as the caller below needs it:
    [Some n] when [s] starts with a well-formed encoding of [n] bytes,
    [None] when it does not (the library then returns [RuneError] with
    width 1).  The accepted second-byte ranges are those of the library's
    [acceptRanges] table. *)
Definition decodeSize (s : string) : option nat :=
  match s with
  | EmptyString => None
  | String c0 rest =>
      let b0 := byte c0 in
      if b0 <? 128 then Some 1%nat
      else if (194 <=? b0) && (b0 <=? 223) then
        match rest with
        | String c1 _ => if is_cont 128 191 c1 then Some 2%nat else None
        | _ => None
        end
      else if (224 <=? b0) && (b0 <=? 239) then
        match rest with
        | String c1 (String c2 _) =>
            let lo := if b0 =? 224 then 160 else 128 in
            let hi := if b0 =? 237 then 159 else 191 in
            if is_cont lo hi c1 && is_cont 128 191 c2 then Some 3%nat else None
        | _ => None
        end
      else if (240 <=? b0) && (b0 <=? 244) then
        match rest with
        | String c1 (String c2 (String c3 _)) =>
            let lo := if b0 =? 240 then 144 else 128 in
            let hi := if b0 =? 244 then 143 else 191 in
            if is_cont lo hi c1 && is_cont 128 191 c2 && is_cont 128 191 c3
            then Some 4%nat else None
        | _ => None
        end
      else None
  end.

(** U+FFFD, [unicode.ReplacementChar]. *)
Definition RuneError : Z := 65533.

(** [EncodeRune]: the UTF-8 bytes of a rune; surrogates and values past
    U+10FFFF are written as U+FFFD. *)
Definition EncodeRune (r : Z) : string :=
  let r := if (r <? 0) || (r >? 1114111) || ((55296 <=? r) && (r <=? 57343))
           then RuneError else r in
  if r <? 128 then str1 (chr r)
  else if r <? 2048 then
    String (chr (192 + r / 64)) (str1 (chr (128 + r mod 64)))
  else if r <? 65536 then
    String (chr (224 + r / 4096))
      (String (chr (128 + (r / 64) mod 64)) (str1 (chr (128 + r mod 64))))
  else
    String (chr (240 + r / 262144))
      (String (chr (128 + (r / 4096) mod 64))
         (String (chr (128 + (r / 64) mod 64)) (str1 (chr (128 + r mod 64))))).

End Utf8.

(** ** package unicode/utf16 *)

Module Utf16.

Definition IsSurrogate (r : Z) : bool := (55296 <=? r) && (r <? 57344).

(** [DecodeRune]: the rune of a surrogate pair, U+FFFD for anything else. *)
Definition DecodeRune (r1 r2 : Z) : Z :=
  if (55296 <=? r1) && (r1 <? 56320) && (56320 <=? r2) && (r2 <? 57344)
  then (r1 - 55296) * 1024 + (r2 - 56320) + 65536
  else Utf8.RuneError.

End Utf16.

(** ** package encoding/json: the scanner *)

Module Json.

(** A JSON text as the decoder sees it: a number is kept as its literal
    (it is converted only once the Go type of its destination is known),
    a string and an object key are unquoted, the members of an object are
    in the order of the text, repetitions included. *)
Inductive value : Type :=
| Null
| Bool (b : bool)
| Number (lit : string)
| Str (s : string)
| Array (elems : list value)
| Object (members : list (string * value)).

Definition hexval (c : ascii) : option Z :=
  if is_digit c then Some (byte c - 48)
  else if (97 <=? byte c) && (byte c <=? 102) then Some (byte c - 97 + 10)
  else if (65 <=? byte c) && (byte c <=? 70) then Some (byte c - 65 + 10)
  else None.

(** [getu4]: the code unit of a leading [\uXXXX], or -1. *)
Definition getu4 (s : string) : Z :=
  match s with
  | String b (String u (String h1 (String h2 (String h3 (String h4 _))))) =>
      if (byte b =? 92) && (byte u =? 117) then
        match hexval h1, hexval h2, hexval h3, hexval h4 with
        | Some x1, Some x2, Some x3, Some x4 => ((x1 * 16 + x2) * 16 + x3) * 16 + x4
        | _, _, _, _ => -1
        end
      else -1
  | _ => -1
  end.

Definition prepend (p : string) (o : option string) : option string :=
  match o with
  | Some s => Some (p +:+ s)
  | None => None
  end.

(** [unquoteBytes] on the text between the quotes: escapes are replaced,
    a surrogate pair of [\u] escapes becomes one rune, a lone surrogate
    and every byte that is not well-formed UTF-8 become U+FFFD. *)
Fixpoint unquote (s : string) : option string :=
  match s with
  | EmptyString => Some EmptyString
  | String c rest =>
      if byte c =? 92 then
        match rest with
        | EmptyString => None
        | String e rest2 =>
            if byte e =? 117 then
              match rest2 with
              | String _ (String _ (String _ (String _ rest6))) =>
                  let rr := getu4 s in
                  if rr <? 0 then None
                  else if Utf16.IsSurrogate rr then
                    let dec := Utf16.DecodeRune rr (getu4 rest6) in
                    if negb (dec =? Utf8.RuneError) then
                      match rest6 with
                      | String _ (String _ (String _ (String _ (String _ (String _ rest12))))) =>
                          prepend (Utf8.EncodeRune dec) (unquote rest12)
                      | _ => None
                      end
                    else prepend (Utf8.EncodeRune Utf8.RuneError) (unquote rest6)
                  else prepend (Utf8.EncodeRune rr) (unquote rest6)
              | _ => None
              end
            else
              let b := byte e in
              if (b =? 34) || (b =? 92) || (b =? 47) || (b =? 39)
              then prepend (str1 e) (unquote rest2)
              else if b =? 98 then prepend (str1 (chr 8)) (unquote rest2)
              else if b =? 102 then prepend (str1 (chr 12)) (unquote rest2)
              else if b =? 110 then prepend (str1 (chr 10)) (unquote rest2)
              else if b =? 114 then prepend (str1 (chr 13)) (unquote rest2)
              else if b =? 116 then prepend (str1 (chr 9)) (unquote rest2)
              else None
        end
      else if (byte c =? 34) || (byte c <? 32) then None
      else if byte c <? 128 then prepend (str1 c) (unquote rest)
      else
        match Utf8.decodeSize s, rest with
        | Some 2%nat, String c1 r =>
            prepend (String c (str1 c1)) (unquote r)
        | Some 3%nat, String c1 (String c2 r) =>
            prepend (String c (String c1 (str1 c2))) (unquote r)
        | Some 4%nat, String c1 (String c2 (String c3 r)) =>
            prepend (String c (String c1 (String c2 (str1 c3)))) (unquote r)
        | _, _ => prepend (Utf8.EncodeRune Utf8.RuneError) (unquote rest)
        end
  end.

(** The scanner is the library's byte-at-a-time state machine.  Its
    states carry here what the decoder later reads back from the same
    bytes: the text of the token under way and, in the parse stack, the
    parts of the enclosing arrays and objects that are already complete
    (last one first). *)
Inductive frame : Type :=
| parseObjectKey (done : list (string * value)) (key : option string)
| parseObjectValue (done : list (string * value)) (key : string)
| parseArrayValue (done : list value).

Inductive state : Type :=
| stateBeginValue
| stateBeginValueOrEmpty
| stateBeginStringOrEmpty
| stateBeginString
| stateEndValue
| stateEndTop (v : value)
| stateInString (raw : string)
| stateInStringEsc (raw : string)
| stateInStringEscU (expect : nat) (raw : string)
| stateNeg (lit : string)
| state1 (lit : string)
| state0 (lit : string)
| stateDot (lit : string)
| stateDot0 (lit : string)
| stateE (lit : string)
| stateESign (lit : string)
| stateE0 (lit : string)
| stateLiteral (rest : string) (v : value)
| stateError.

Record scanner : Type := mkScanner { step : state; parseState : list frame }.

Definition maxNestingDepth : Z := 10000.

Definition error : scanner := mkScanner stateError [].

Definition isSpace (c : ascii) : bool :=
  (byte c =? 32) || (byte c =? 9) || (byte c =? 13) || (byte c =? 10).

Definition snoc (s : string) (c : ascii) : string := s +:+ str1 c.

Definition pushParseState (f : frame) (ps : list frame) (next : state) : scanner :=
  if Z.of_nat (length (f :: ps)) <=? maxNestingDepth then mkScanner next (f :: ps) else error.

(** A value is complete: it goes to the enclosing array or object
    ([popParseState] sets [stateEndTop] when there is none). *)
Definition complete (v : value) (ps : list frame) : scanner :=
  match ps with
  | [] => mkScanner (stateEndTop v) []
  | parseArrayValue done :: ps' => mkScanner stateEndValue (parseArrayValue (v :: done) :: ps')
  | parseObjectKey done _ :: ps' =>
      match v with
      | Str k => mkScanner stateEndValue (parseObjectKey done (Some k) :: ps')
      | _ => error
      end
  | parseObjectValue done k :: ps' =>
      mkScanner stateEndValue (parseObjectValue ((k, v) :: done) k :: ps')
  end.

(** [stateEndValue] and [stateEndTop]: the byte after a complete value. *)
Definition endValue (sc : scanner) (c : ascii) : scanner :=
  match step sc with
  | stateEndTop v => if isSpace c then sc else error
  | stateEndValue =>
      if isSpace c then sc
      else
        match parseState sc with
        | parseObjectKey done (Some k) :: ps' =>
            if byte c =? 58 then mkScanner stateBeginValue (parseObjectValue done k :: ps')
            else error
        | parseObjectValue done _ :: ps' =>
            if byte c =? 44 then mkScanner stateBeginString (parseObjectKey done None :: ps')
            else if byte c =? 125 then complete (Object (rev done)) ps'
            else error
        | parseArrayValue done :: ps' =>
            if byte c =? 44 then mkScanner stateBeginValue (parseState sc)
            else if byte c =? 93 then complete (Array (rev done)) ps'
            else error
        | _ => error
        end
  | _ => error
  end.

Definition beginString (ps : list frame) (c : ascii) : scanner :=
  if isSpace c then mkScanner stateBeginString ps
  else if byte c =? 34 then mkScanner (stateInString EmptyString) ps
  else error.

Definition beginValue (ps : list frame) (c : ascii) : scanner :=
  let b := byte c in
  if isSpace c then mkScanner stateBeginValue ps
  else if b =? 123 then pushParseState (parseObjectKey [] None) ps stateBeginStringOrEmpty
  else if b =? 91 then pushParseState (parseArrayValue []) ps stateBeginValueOrEmpty
  else if b =? 34 then mkScanner (stateInString EmptyString) ps
  else if b =? 45 then mkScanner (stateNeg (str1 c)) ps
  else if b =? 48 then mkScanner (state0 (str1 c)) ps
  else if b =? 116 then mkScanner (stateLiteral "rue" (Bool true)) ps
  else if b =? 102 then mkScanner (stateLiteral "alse" (Bool false)) ps
  else if b =? 110 then mkScanner (stateLiteral "ull" Null) ps
  else if (49 <=? b) && (b <=? 57) then mkScanner (state1 (str1 c)) ps
  else error.

(** [state0]: after the integer part of a number. *)
Definition after0 (lit : string) (ps : list frame) (c : ascii) : scanner :=
  if byte c =? 46 then mkScanner (stateDot (snoc lit c)) ps
  else if (byte c =? 101) || (byte c =? 69) then mkScanner (stateE (snoc lit c)) ps
  else endValue (complete (Number lit) ps) c.

Definition afterESign (lit : string) (ps : list frame) (c : ascii) : scanner :=
  if is_digit c then mkScanner (stateE0 (snoc lit c)) ps else error.

(** One byte through the scanner. *)
Definition scanStep (sc : scanner) (c : ascii) : scanner :=
  let ps := parseState sc in
  match step sc with
  | stateBeginValue => beginValue ps c
  | stateBeginValueOrEmpty =>
      if isSpace c then sc
      else if byte c =? 93 then endValue (mkScanner stateEndValue ps) c
      else beginValue ps c
  | stateBeginStringOrEmpty =>
      if isSpace c then sc
      else if byte c =? 125 then
        match ps with
        | parseObjectKey done _ :: ps' =>
            endValue (mkScanner stateEndValue (parseObjectValue done EmptyString :: ps')) c
        | _ => error
        end
      else beginString ps c
  | stateBeginString => beginString ps c
  | stateEndValue => endValue sc c
  | stateEndTop _ => endValue sc c
  | stateInString raw =>
      if byte c =? 34 then
        match unquote raw with
        | Some s => complete (Str s) ps
        | None => error
        end
      else if byte c =? 92 then mkScanner (stateInStringEsc (snoc raw c)) ps
      else if byte c <? 32 then error
      else mkScanner (stateInString (snoc raw c)) ps
  | stateInStringEsc raw =>
      let b := byte c in
      if (b =? 98) || (b =? 102) || (b =? 110) || (b =? 114) || (b =? 116)
         || (b =? 92) || (b =? 47) || (b =? 34)
      then mkScanner (stateInString (snoc raw c)) ps
      else if b =? 117 then mkScanner (stateInStringEscU 4 (snoc raw c)) ps
      else error
  | stateInStringEscU n raw =>
      match hexval c, n with
      | Some _, S O => mkScanner (stateInString (snoc raw c)) ps
      | Some _, S n' => mkScanner (stateInStringEscU n' (snoc raw c)) ps
      | _, _ => error
      end
  | stateNeg lit =>
      if byte c =? 48 then mkScanner (state0 (snoc lit c)) ps
      else if (49 <=? byte c) && (byte c <=? 57) then mkScanner (state1 (snoc lit c)) ps
      else error
  | state1 lit =>
      if is_digit c then mkScanner (state1 (snoc lit c)) ps else after0 lit ps c
  | state0 lit => after0 lit ps c
  | stateDot lit =>
      if is_digit c then mkScanner (stateDot0 (snoc lit c)) ps else error
  | stateDot0 lit =>
      if is_digit c then mkScanner (stateDot0 (snoc lit c)) ps
      else if (byte c =? 101) || (byte c =? 69) then mkScanner (stateE (snoc lit c)) ps
      else endValue (complete (Number lit) ps) c
  | stateE lit =>
      if (byte c =? 43) || (byte c =? 45) then mkScanner (stateESign (snoc lit c)) ps
      else afterESign lit ps c
  | stateESign lit => afterESign lit ps c
  | stateE0 lit =>
      if is_digit c then mkScanner (stateE0 (snoc lit c)) ps
      else endValue (complete (Number lit) ps) c
  | stateLiteral rest v =>
      match rest with
      | String c' rest' =>
          if Ascii.eqb c c' then
            match rest' with
            | EmptyString => complete v ps
            | _ => mkScanner (stateLiteral rest' v) ps
            end
          else error
      | EmptyString => error
      end
  | stateError => error
  end.

Fixpoint scan (sc : scanner) (data : string) : scanner :=
  match data with
  | EmptyString => sc
  | String c rest => scan (scanStep sc c) rest
  end.

(** [checkValid] followed by the decoder's walk over the same bytes: the
    value of a well-formed text, [None] on a syntax error.  At the end of
    the input the scanner is fed a space, which ends a number. *)
Definition parse (data : string) : option value :=
  let sc := scan (mkScanner stateBeginValue []) data in
  match step sc with
  | stateEndTop v => Some v
  | _ =>
      match step (scanStep sc (chr 32)) with
      | stateEndTop v => Some v
      | _ => None
      end
  end.

(** ** package encoding/json: Go values *)

(** What [Unmarshal] stores in an [interface{}]: [nil], [bool], [float64],
    [string], [[]interface{}] or [map[string]interface{}].  The map is kept
    as an association list sorted by key without repetition, which is the
    order [Marshal] writes it in. *)
Inductive any : Type :=
| ANil
| ABool (b : bool)
| AFloat (f : Strconv.float64)
| AString (s : string)
| ASlice (elems : list any)
| AMap (entries : list (string * any)).

(** [m[k] = v] on such a map. *)
Fixpoint mapSet {A : Type} (k : string) (v : A) (m : list (string * A)) : list (string * A) :=
  match m with
  | [] => [(k, v)]
  | (k', v') :: m' =>
      match String.compare k k' with
      | Eq => (k, v) :: m'
      | Lt => (k, v) :: m
      | Gt => (k', v') :: mapSet k v m'
      end
  end.

(** A slice: [SliceNil] is the nil slice; [Slice b n] has length [n] and
    [b] holds what its backing array has been given so far, the elements
    past the length included (they show again when the slice is
    re-extended in place).  Past [b] the backing array is zero. *)
Inductive slice (A : Type) : Type :=
| SliceNil
| Slice (backing : list A) (len : nat).
Arguments SliceNil {A}.
Arguments Slice {A} backing len.

Definition backing {A : Type} (s : slice A) : list A :=
  match s with
  | SliceNil => []
  | Slice b _ => b
  end.

Definition elements {A : Type} (s : slice A) : list A :=
  match s with
  | SliceNil => []
  | Slice b n => take n b
  end.

(** The JSON text that [Marshal] writes, up to the spelling of its tokens:
    an integer and a float are carried as their values, a string as its
    bytes. *)
Inductive doc : Type :=
| DNull
| DBool (b : bool)
| DInt (n : Z)
| DFloat (f : Strconv.float64)
| DString (s : string)
| DArray (elems : list doc)
| DObject (members : list (string * doc)).

(** ** package encoding/json: Unmarshal *)

Inductive DecodeError : Type :=
| SyntaxError
| UnmarshalTypeError.

(** Decoding is in place: each function takes the JSON value and the
    current content of the destination and returns its new content.
    [null] leaves an [int], [string], [bool], [float64] or struct as it
    is.  The library records the first type error and goes on; since the
    error is what [Unmarshal] returns in the end, stopping at it gives the
    same result. *)
Definition decodeInt (j : value) (old : Z) : result DecodeError Z :=
  match j with
  | Null => Ok old
  | Number lit =>
      match Strconv.ParseInt lit 64 with
      | Ok n => Ok n
      | Err _ => Err UnmarshalTypeError
      end
  | _ => Err UnmarshalTypeError
  end.

Definition decodeFloat64 (j : value) (old : Strconv.float64) : result DecodeError Strconv.float64 :=
  match j with
  | Null => Ok old
  | Number lit =>
      match Strconv.ParseFloat lit with
      | Ok f => Ok f
      | Err _ => Err UnmarshalTypeError
      end
  | _ => Err UnmarshalTypeError
  end.

Definition decodeString (j : value) (old : string) : result DecodeError string :=
  match j with
  | Null => Ok old
  | Str s => Ok s
  | _ => Err UnmarshalTypeError
  end.

Definition decodeBool (j : value) (old : bool) : result DecodeError bool :=
  match j with
  | Null => Ok old
  | Bool b => Ok b
  | _ => Err UnmarshalTypeError
  end.

(** [valueInterface]: a fresh value for an [interface{}] destination. *)
Fixpoint valueInterface (j : value) : result DecodeError any :=
  match j with
  | Null => Ok ANil
  | Bool b => Ok (ABool b)
  | Number lit =>
      match Strconv.ParseFloat lit with
      | Ok f => Ok (AFloat f)
      | Err _ => Err UnmarshalTypeError
      end
  | Str s => Ok (AString s)
  | Array elems =>
      do l <- (fix arrayInterface (js : list value) : result DecodeError (list any) :=
                 match js with
                 | [] => Ok []
                 | x :: js' =>
                     do a <- valueInterface x;
                     do l' <- arrayInterface js';
                     Ok (a :: l')
                 end) elems;
      Ok (ASlice l)
  | Object members =>
      do m <- (fix objectInterface (ms : list (string * value)) (acc : list (string * any))
                 : result DecodeError (list (string * any)) :=
                 match ms with
                 | [] => Ok acc
                 | (k, x) :: ms' =>
                     do a <- valueInterface x;
                     objectInterface ms' (mapSet k a acc)
                 end) members [];
      Ok (AMap m)
  end.

(** An [interface{}] destination (it never holds a pointer here) is
    overwritten, also by [null]. *)
Definition decodeInterface (j : value) (old : any) : result DecodeError any :=
  valueInterface j.

(** [foldName]: the case folding under which an object key is matched
    with a field name when no field has exactly that name.  ASCII letters
    go to upper case; U+017F and U+212A fold to [S] and [K].  Every other
    rune outside ASCII folds to a rune outside ASCII and is left in place
    here: it cannot take part in a match with an ASCII field name. *)
Fixpoint foldName (s : string) : string :=
  match s with
  | EmptyString => EmptyString
  | String c rest =>
      if is_lower c then String (chr (byte c - 32)) (foldName rest)
      else
        match rest with
        | String c1 rest1 =>
            if (byte c =? 197) && (byte c1 =? 191) then String (chr 83) (foldName rest1)
            else
              match rest1 with
              | String c2 rest2 =>
                  if (byte c =? 226) && (byte c1 =? 132) && (byte c2 =? 170)
                  then String (chr 75) (foldName rest2)
                  else String c (foldName rest)
              | EmptyString => String c (foldName rest)
              end
        | EmptyString => String c (foldName rest)
        end
  end.

(** The field an object key goes to: the one with exactly that name, else
    the first whose name is equal under folding, else none (the member is
    skipped). *)
Definition findField {F : Type} (fields : list (string * F)) (key : string) : option F :=
  match find (fun p => String.eqb (fst p) key) fields with
  | Some p => Some (snd p)
  | None =>
      match find (fun p => String.eqb (foldName (fst p)) (foldName key)) fields with
      | Some p => Some (snd p)
      | None => None
      end
  end.

(** [d.object] into a struct whose fields are set by [store]. *)
Fixpoint decodeMembers {F T : Type} (fields : list (string * F))
    (store : F -> value -> T -> result DecodeError T)
    (members : list (string * value)) (old : T) : result DecodeError T :=
  match members with
  | [] => Ok old
  | (k, x) :: members' =>
      do cur <- match findField fields k with
                | Some f => store f x old
                | None => Ok old
                end;
      decodeMembers fields store members' cur
  end.

Definition decodeStruct {F T : Type} (fields : list (string * F))
    (store : F -> value -> T -> result DecodeError T)
    (j : value) (old : T) : result DecodeError T :=
  match j with
  | Null => Ok old
  | Object members => decodeMembers fields store members old
  | _ => Err UnmarshalTypeError
  end.

(** [d.array] into a slice: element [i] of the text is decoded into
    element [i] of the backing array as it is (zero when the array has to
    grow), then the slice is cut to the number of elements read.  An
    empty array gives a fresh empty slice, [null] the nil slice. *)
Fixpoint decodeElems {T : Type} (zero : T) (elem : value -> T -> result DecodeError T)
    (js : list value) (b : list T) : result DecodeError (list T) :=
  match js with
  | [] => Ok b
  | x :: js' =>
      do e <- elem x (hd zero b);
      do r <- decodeElems zero elem js' (tl b);
      Ok (e :: r)
  end.

Definition decodeSlice {T : Type} (zero : T) (elem : value -> T -> result DecodeError T)
    (j : value) (old : slice T) : result DecodeError (slice T) :=
  match j with
  | Null => Ok SliceNil
  | Array [] => Ok (Slice [] 0)
  | Array js =>
      do b <- decodeElems zero elem js (backing old);
      Ok (Slice b (length js))
  | _ => Err UnmarshalTypeError
  end.

(** ** package encoding/json: Marshal *)

Fixpoint marshalInterface (a : any) : doc :=
  match a with
  | ANil => DNull
  | ABool b => DBool b
  | AFloat f => DFloat f
  | AString s => DString s
  | ASlice elems => DArray (map marshalInterface elems)
  | AMap entries => DObject (map (fun p => (fst p, marshalInterface (snd p))) entries)
  end.

(** A nil slice is written as [null], any other as an array. *)
Definition marshalSlice {T : Type} (elem : T -> doc) (s : slice T) : doc :=
  match s with
  | SliceNil => DNull
  | Slice _ _ => DArray (map elem (elements s))
  end.

(** ** Comparing what was received with what is written *)

(** [sameValue x d]: the text [d] that is written carries the value of
    the text [x] that was received: an integer, a string or a boolean as
    it is, a number as the [float64] it is read as, and a value of any
    kind as [Unmarshal] stores it in an [interface{}] and [Marshal]
    writes it back. *)
Inductive sameValue : value -> doc -> Prop :=
| same_int (lit : string) (n : Z) :
    Strconv.ParseInt lit 64 = Ok n -> sameValue (Number lit) (DInt n)
| same_float (lit : string) (f : Strconv.float64) :
    Strconv.ParseFloat lit = Ok f -> sameValue (Number lit) (DFloat f)
| same_string (s : string) : sameValue (Str s) (DString s)
| same_bool (b : bool) : sameValue (Bool b) (DBool b)
| same_interface (x : value) (a : any) :
    valueInterface x = Ok a -> sameValue x (marshalInterface a).

Definition docNames (d : doc) : list string :=
  match d with
  | DObject members => map fst members
  | _ => []
  end.

(** The written text has the field names and shapes of the received one:
    the same kind of value at every place, arrays of the same length,
    objects with the same member names in the same order. *)
Fixpoint sameShape (j : value) (d : doc) : bool :=
  match j, d with
  | Null, DNull => true
  | Bool _, DBool _ => true
  | Number _, DInt _ => true
  | Number _, DFloat _ => true
  | Str _, DString _ => true
  | Array js, DArray ds =>
      (fix elems (js : list value) (ds : list doc) : bool :=
         match js, ds with
         | [], [] => true
         | x :: js', y :: ds' => sameShape x y && elems js' ds'
         | _, _ => false
         end) js ds
  | Object ms, DObject ds =>
      (fix members (ms : list (string * value)) (ds : list (string * doc)) : bool :=
         match ms, ds with
         | [], [] => true
         | (k, x) :: ms', (k', y) :: ds' => String.eqb k k' && sameShape x y && members ms' ds'
         | _, _ => false
         end) ms ds
  | _, _ => false
  end.

(** The member of an object with a given name. *)
Definition member (name : string) (d : doc) : option doc :=
  match d with
  | DObject members =>
      match find (fun p => String.eqb (fst p) name) members with
      | Some p => Some (snd p)
      | None => None
      end
  | _ => None
  end.

End Json.

(** ** The types of main.go *)

(** The element type of [SongURLResponse.Data] (an anonymous struct in
    the source).  [Type_] is the field [Type]. *)
Module Entry.

Record t : Type := mk {
  ID : Z;
  URL : string;
  Br : Z;
  Size : Z;
  MD5 : string;
  Code : Z;
  Expi : Z;
  Type_ : string;
  Gain : Strconv.float64;
  Peak : Strconv.float64;
  Fee : Z;
  Uf : Json.any;
  Payed : Z;
  Flag : Z;
  CanExtend : bool;
  FreeTrialInfo : Json.any;
  Level : string
}.

Definition zero : t :=
  mk 0 EmptyString 0 0 EmptyString 0 0 EmptyString (S754_zero false) (S754_zero false)
    0 Json.ANil 0 0 false Json.ANil EmptyString.

Inductive field : Type :=
| fID
| fURL
| fBr
| fSize
| fMD5
| fCode
| fExpi
| fType_
| fGain
| fPeak
| fFee
| fUf
| fPayed
| fFlag
| fCanExtend
| fFreeTrialInfo
| fLevel.

(** The [json] tags, in the order of the declaration. *)
Definition fields : list (string * field) :=
  [("id", fID);
   ("url", fURL);
   ("br", fBr);
   ("size", fSize);
   ("md5", fMD5);
   ("code", fCode);
   ("expi", fExpi);
   ("type", fType_);
   ("gain", fGain);
   ("peak", fPeak);
   ("fee", fFee);
   ("uf", fUf);
   ("payed", fPayed);
   ("flag", fFlag);
   ("canExtend", fCanExtend);
   ("freeTrialInfo", fFreeTrialInfo);
   ("level", fLevel)].

(** Decode [j] into one field of [e]. *)
Definition store (f : field) (j : Json.value) (e : t) : result Json.DecodeError t :=
  match f with
  | fID =>
      do x <- Json.decodeInt j (ID e);
      Ok (mk x (URL e) (Br e) (Size e) (MD5 e) (Code e)
              (Expi e) (Type_ e) (Gain e) (Peak e) (Fee e) (Uf e)
              (Payed e) (Flag e) (CanExtend e) (FreeTrialInfo e) (Level e))
  | fURL =>
      do x <- Json.decodeString j (URL e);
      Ok (mk (ID e) x (Br e) (Size e) (MD5 e) (Code e)
              (Expi e) (Type_ e) (Gain e) (Peak e) (Fee e) (Uf e)
              (Payed e) (Flag e) (CanExtend e) (FreeTrialInfo e) (Level e))
  | fBr =>
      do x <- Json.decodeInt j (Br e);
      Ok (mk (ID e) (URL e) x (Size e) (MD5 e) (Code e)
              (Expi e) (Type_ e) (Gain e) (Peak e) (Fee e) (Uf e)
              (Payed e) (Flag e) (CanExtend e) (FreeTrialInfo e) (Level e))
  | fSize =>
      do x <- Json.decodeInt j (Size e);
      Ok (mk (ID e) (URL e) (Br e) x (MD5 e) (Code e)
              (Expi e) (Type_ e) (Gain e) (Peak e) (Fee e) (Uf e)
              (Payed e) (Flag e) (CanExtend e) (FreeTrialInfo e) (Level e))
  | fMD5 =>
      do x <- Json.decodeString j (MD5 e);
      Ok (mk (ID e) (URL e) (Br e) (Size e) x (Code e)
              (Expi e) (Type_ e) (Gain e) (Peak e) (Fee e) (Uf e)
              (Payed e) (Flag e) (CanExtend e) (FreeTrialInfo e) (Level e))
  | fCode =>
      do x <- Json.decodeInt j (Code e);
      Ok (mk (ID e) (URL e) (Br e) (Size e) (MD5 e) x
              (Expi e) (Type_ e) (Gain e) (Peak e) (Fee e) (Uf e)
              (Payed e) (Flag e) (CanExtend e) (FreeTrialInfo e) (Level e))
  | fExpi =>
      do x <- Json.decodeInt j (Expi e);
      Ok (mk (ID e) (URL e) (Br e) (Size e) (MD5 e) (Code e)
              x (Type_ e) (Gain e) (Peak e) (Fee e) (Uf e)
              (Payed e) (Flag e) (CanExtend e) (FreeTrialInfo e) (Level e))
  | fType_ =>
      do x <- Json.decodeString j (Type_ e);
      Ok (mk (ID e) (URL e) (Br e) (Size e) (MD5 e) (Code e)
              (Expi e) x (Gain e) (Peak e) (Fee e) (Uf e)
              (Payed e) (Flag e) (CanExtend e) (FreeTrialInfo e) (Level e))
  | fGain =>
      do x <- Json.decodeFloat64 j (Gain e);
      Ok (mk (ID e) (URL e) (Br e) (Size e) (MD5 e) (Code e)
              (Expi e) (Type_ e) x (Peak e) (Fee e) (Uf e)
              (Payed e) (Flag e) (CanExtend e) (FreeTrialInfo e) (Level e))
  | fPeak =>
      do x <- Json.decodeFloat64 j (Peak e);
      Ok (mk (ID e) (URL e) (Br e) (Size e) (MD5 e) (Code e)
              (Expi e) (Type_ e) (Gain e) x (Fee e) (Uf e)
              (Payed e) (Flag e) (CanExtend e) (FreeTrialInfo e) (Level e))
  | fFee =>
      do x <- Json.decodeInt j (Fee e);
      Ok (mk (ID e) (URL e) (Br e) (Size e) (MD5 e) (Code e)
              (Expi e) (Type_ e) (Gain e) (Peak e) x (Uf e)
              (Payed e) (Flag e) (CanExtend e) (FreeTrialInfo e) (Level e))
  | fUf =>
      do x <- Json.decodeInterface j (Uf e);
      Ok (mk (ID e) (URL e) (Br e) (Size e) (MD5 e) (Code e)
              (Expi e) (Type_ e) (Gain e) (Peak e) (Fee e) x
              (Payed e) (Flag e) (CanExtend e) (FreeTrialInfo e) (Level e))
  | fPayed =>
      do x <- Json.decodeInt j (Payed e);
      Ok (mk (ID e) (URL e) (Br e) (Size e) (MD5 e) (Code e)
              (Expi e) (Type_ e) (Gain e) (Peak e) (Fee e) (Uf e)
              x (Flag e) (CanExtend e) (FreeTrialInfo e) (Level e))
  | fFlag =>
      do x <- Json.decodeInt j (Flag e);
      Ok (mk (ID e) (URL e) (Br e) (Size e) (MD5 e) (Code e)
              (Expi e) (Type_ e) (Gain e) (Peak e) (Fee e) (Uf e)
              (Payed e) x (CanExtend e) (FreeTrialInfo e) (Level e))
  | fCanExtend =>
      do x <- Json.decodeBool j (CanExtend e);
      Ok (mk (ID e) (URL e) (Br e) (Size e) (MD5 e) (Code e)
              (Expi e) (Type_ e) (Gain e) (Peak e) (Fee e) (Uf e)
              (Payed e) (Flag e) x (FreeTrialInfo e) (Level e))
  | fFreeTrialInfo =>
      do x <- Json.decodeInterface j (FreeTrialInfo e);
      Ok (mk (ID e) (URL e) (Br e) (Size e) (MD5 e) (Code e)
              (Expi e) (Type_ e) (Gain e) (Peak e) (Fee e) (Uf e)
              (Payed e) (Flag e) (CanExtend e) x (Level e))
  | fLevel =>
      do x <- Json.decodeString j (Level e);
      Ok (mk (ID e) (URL e) (Br e) (Size e) (MD5 e) (Code e)
              (Expi e) (Type_ e) (Gain e) (Peak e) (Fee e) (Uf e)
              (Payed e) (Flag e) (CanExtend e) (FreeTrialInfo e) x)
  end.

Definition decode (j : Json.value) (e : t) : result Json.DecodeError t :=
  Json.decodeStruct fields store j e.

Definition marshal (e : t) : Json.doc :=
  Json.DObject
    [("id", Json.DInt (ID e));
     ("url", Json.DString (URL e));
     ("br", Json.DInt (Br e));
     ("size", Json.DInt (Size e));
     ("md5", Json.DString (MD5 e));
     ("code", Json.DInt (Code e));
     ("expi", Json.DInt (Expi e));
     ("type", Json.DString (Type_ e));
     ("gain", Json.DFloat (Gain e));
     ("peak", Json.DFloat (Peak e));
     ("fee", Json.DInt (Fee e));
     ("uf", Json.marshalInterface (Uf e));
     ("payed", Json.DInt (Payed e));
     ("flag", Json.DInt (Flag e));
     ("canExtend", Json.DBool (CanExtend e));
     ("freeTrialInfo", Json.marshalInterface (FreeTrialInfo e));
     ("level", Json.DString (Level e))].

End Entry.

Module SongURLResponse.

Record t : Type := mk {
  Code : Z;
  Data : Json.slice Entry.t
}.

Definition zero : t := mk 0 Json.SliceNil.

Inductive field : Type :=
| fCode
| fData.

Definition fields : list (string * field) := [("code", fCode); ("data", fData)].

Definition store (f : field) (j : Json.value) (r : t) : result Json.DecodeError t :=
  match f with
  | fCode =>
      do x <- Json.decodeInt j (Code r);
      Ok (mk x (Data r))
  | fData =>
      do x <- Json.decodeSlice Entry.zero Entry.decode j (Data r);
      Ok (mk (Code r) x)
  end.

Definition decode (j : Json.value) (r : t) : result Json.DecodeError t :=
  Json.decodeStruct fields store j r.

Definition marshal (r : t) : Json.doc :=
  Json.DObject
    [("code", Json.DInt (Code r));
     ("data", Json.marshalSlice Entry.marshal (Data r))].

(** [var songResp SongURLResponse; err := json.Unmarshal(body, &songResp)]:
    the text is checked as a whole first, then decoded into the zero
    value. *)
Definition Unmarshal (body : string) : result Json.DecodeError t :=
  match Json.parse body with
  | None => Err Json.SyntaxError
  | Some j => decode j zero
  end.

End SongURLResponse.

Module ErrorResponse.

Record t : Type := mk {
  Code : Z;
  Message : string
}.

Definition marshal (e : t) : Json.doc :=
  Json.DObject [("code", Json.DInt (Code e)); ("message", Json.DString (Message e))].

End ErrorResponse.

(** ** package net/url *)

Module Url.

(** [url.Values] is [map[string][]string]. *)
Abbreviation Values := (gmap string (list string)).

Definition upperhex (n : Z) : ascii :=
  if n <? 10 then chr (48 + n) else chr (65 + (n - 10)).

Definition is_alnum (c : ascii) : bool := is_lower c || is_upper c || is_digit c.

(** [shouldEscape(c, encodeQueryComponent)]: everything but the
    unreserved characters. *)
Definition shouldEscape (c : ascii) : bool :=
  if is_alnum c then false
  else if (byte c =? 45) || (byte c =? 95) || (byte c =? 46) || (byte c =? 126) then false
  else true.

Fixpoint QueryEscape (s : string) : string :=
  match s with
  | EmptyString => EmptyString
  | String c rest =>
      if byte c =? 32 then String (chr 43) (QueryEscape rest)
      else if shouldEscape c then
        String (chr 37)
          (String (upperhex (byte c / 16)) (String (upperhex (byte c mod 16)) (QueryEscape rest)))
      else String c (QueryEscape rest)
  end.

Definition unhex (c : ascii) : option Z :=
  if is_digit c then Some (byte c - 48)
  else if (97 <=? byte c) && (byte c <=? 102) then Some (byte c - 97 + 10)
  else if (65 <=? byte c) && (byte c <=? 70) then Some (byte c - 65 + 10)
  else None.

(** [QueryUnescape]: [%XX] is a byte, [+] a space; a [%] that is not
    followed by two hexadecimal digits is an [EscapeError]. *)
Fixpoint QueryUnescape (s : string) : result unit string :=
  match s with
  | EmptyString => Ok EmptyString
  | String c rest =>
      if byte c =? 37 then
        match rest with
        | String h1 (String h2 rest2) =>
            match unhex h1, unhex h2 with
            | Some x1, Some x2 =>
                do r <- QueryUnescape rest2;
                Ok (String (chr (x1 * 16 + x2)) r)
            | _, _ => Err tt
            end
        | _ => Err tt
        end
      else
        do r <- QueryUnescape rest;
        Ok (String (if byte c =? 43 then chr 32 else c) r)
  end.

(** [v.Add(key, value)]: append to the values of the key. *)
Definition Add (key value : string) (v : Values) : Values :=
  <[key := (default [] (v !! key) ++ [value])%list]> v.

Fixpoint insertSorted (k : string) (l : list string) : list string :=
  match l with
  | [] => [k]
  | k' :: l' => if String.leb k k' then k :: l else k' :: insertSorted k l'
  end.

(** [slices.Sorted(maps.Keys(v))]: the keys in byte order. *)
Definition sortedKeys (v : Values) : list string :=
  foldr insertSorted [] (map fst (map_to_list v)).

(** [v.Encode()]: [key=value] pairs, escaped, joined by [&], by sorted
    key. *)
Definition Encode (v : Values) : string :=
  foldl
    (fun buf k =>
       foldl
         (fun buf x =>
            (if 0 <? slen buf then buf +:+ "&" else buf)
            +:+ QueryEscape k +:+ "=" +:+ QueryEscape x)
         buf (default [] (v !! k)))
    EmptyString (sortedKeys v).

End Url.

(** ** package time *)

Module Time.

(** A reading of the wall clock: seconds since the Unix epoch and the
    nanoseconds within that second. *)
Record t : Type := mk { sec : Z; nsec : Z }.

Definition wrap64 (z : Z) : Z := (z + 2 ^ 63) mod 2 ^ 64 - 2 ^ 63.

Definition Unix (x : t) : Z := sec x.

(** [UnixNano]: computed in [int64]. *)
Definition UnixNano (x : t) : Z := wrap64 (sec x * 1000000000 + nsec x).

(** [x] is not later than [y]. *)
Definition le (x y : t) : Prop := sec x < sec y \/ (sec x = sec y /\ nsec x <= nsec y).

(** [x] is earlier than [y]. *)
Definition lt (x y : t) : Prop := sec x < sec y \/ (sec x = sec y /\ nsec x < nsec y).

End Time.

(** ** package net/http *)

Module Http.

Definition StatusOK : Z := 200.
Definition StatusBadRequest : Z := 400.
Definition StatusInternalServerError : Z := 500.

(** What [http.Get] hands back when the exchange succeeds.  [Body] is what
    [io.ReadAll(resp.Body)] then returns: the bytes, or a read error. *)
Record Response : Type := mkResponse {
  StatusCode : Z;
  Body : result unit string
}.

End Http.

(** ** package os and godotenv *)

Module Os.

(** The process environment. *)
Abbreviation Env := (gmap string string).

(** [os.Getenv]: the value, empty when the variable is not set. *)
Definition Getenv (env : Env) (key : string) : string := default EmptyString (env !! key).

End Os.

Module Godotenv.

(** [godotenv.Load()]: [file] is the content of [.env] as the library
    parses it, [None] when the file cannot be opened or parsed (the call
    then returns an error and sets nothing).  A variable of the file is
    set only if the environment does not have it yet. *)
Definition Load (file : option Os.Env) (env : Os.Env) : Os.Env * bool :=
  match file with
  | Some vars => (env ∪ vars, true)
  | None => (env, false)
  end.

End Godotenv.

(** ** gin *)

Module Gin.

(** The request as the handlers read it: the parsed query string
    ([c.Request.URL.Query()], a [url.Values]). *)
Record Context : Type := mkContext { queryCache : Url.Values }.

(** [c.GetQuery]: the first value of the key.  (A parsed query gives every
    key it has at least one value.) *)
Definition GetQuery (c : Context) (key : string) : string * bool :=
  match queryCache c !! key with
  | Some (v :: _) => (v, true)
  | _ => (EmptyString, false)
  end.

Definition Query (c : Context) (key : string) : string := fst (GetQuery c key).

Definition DefaultQuery (c : Context) (key defaultValue : string) : string :=
  let '(value, ok) := GetQuery c key in
  if ok then value else defaultValue.

(** What [c.JSON(code, obj)] writes: the status and the JSON text of
    [obj]. *)
Record Response : Type := JSON { status : Z; body : Json.doc }.

(** [gin.H] is [map[string]any]; [Marshal] writes a map by sorted key. *)
Definition H (entries : list (string * Json.doc)) : Json.doc :=
  Json.DObject (foldl (fun acc p => Json.mapSet (fst p) (snd p) acc) [] entries).

End Gin.

(** ** main.go *)

Record Config : Type := mkConfig {
  Port : string;
  Cookie : string;
  RealIP : string;
  Level : string;
  NeteaseMusicAPI : string
}.

Definition getEnvOrDefault (env : Os.Env) (key defaultValue : string) : string :=
  let value := Os.Getenv env key in
  if negb (String.eqb value EmptyString) then value else defaultValue.

(** What the process does that can be seen from outside. *)
Inductive event : Type :=
| Log (line : string)
| Listen (addr : string)
| Exit (code : Z).

(** [init] leaves the process either terminated by [log.Fatal] or with
    the package variable [config] set. *)
Inductive initResult : Type :=
| Fatal
| Loaded (config : Config).

(** The struct literal of [init]: the lookups happen in the environment
    as [godotenv.Load] has left it. *)
Definition loadConfig (env : Os.Env) : Config :=
  {| Port := getEnvOrDefault env "PORT" "8080";
     Cookie := getEnvOrDefault env "NETEASE_COOKIE" "";
     RealIP := getEnvOrDefault env "REAL_IP" "116.25.146.177";
     Level := getEnvOrDefault env "LEVEL" "exhigh";
     NeteaseMusicAPI := getEnvOrDefault env "NETEASE_MUSIC_API" "https://example.com" |}.

(** The check that follows the literal. *)
Definition checkConfig (config : Config) : list event * initResult :=
  if String.eqb (Cookie config) EmptyString then
    ([Log "NETEASE_COOKIE is required in environment variables or .env file"; Exit 1], Fatal)
  else ([], Loaded config).

Definition init (dotenv : option Os.Env) (env : Os.Env) : list event * initResult :=
  let '(env', loaded) := Godotenv.Load dotenv env in
  let warning :=
    if loaded then []
    else [Log "Warning: .env file not found, using environment variables"] in
  let '(events, r) := checkConfig (loadConfig env') in
  ((warning ++ events)%list, r).

(** The handler of [GET /health]; [now] is what [time.Now()] returns
    during the call. *)
Definition health (now : Time.t) : Gin.Response :=
  Gin.JSON Http.StatusOK
    (Gin.H [("status", Json.DString "ok");
            ("service", Json.DString "PublicMusicService");
            ("version", Json.DString "1.0.0");
            ("timestamp", Json.DInt (Time.Unix now))]).

(** What a call of the handler meets: the clock and the upstream service
    ([get url] is the outcome of [http.Get(url)]). *)
Record World : Type := mkWorld {
  now : Time.t;
  get : string -> result unit Http.Response
}.

(** What a call of the handler does: the response it writes and the
    URLs it has called [http.Get] on, in order.  ([http.Get] follows
    redirects on its own; the requests it then sends are its business
    and are not listed.) *)
Record Outcome : Type := mkOutcome {
  response : Gin.Response;
  requests : list string
}.

Definition fail (status code : Z) (message : string) (requests : list string) : Outcome :=
  mkOutcome (Gin.JSON status (ErrorResponse.marshal (ErrorResponse.mk code message))) requests.

(** The query parameters of the upstream request. *)
Definition buildParams (config : Config) (songID : Z) (level realIP : string) (timestamp : Z)
    : Url.Values :=
  Url.Add "realIP" realIP
    (Url.Add "cookie" (Cookie config)
       (Url.Add "timestamp" (Strconv.FormatInt timestamp)
          (Url.Add "level" level
             (Url.Add "id" (Strconv.Itoa songID) ∅)))).

Definition getSongURL (config : Config) (w : World) (c : Gin.Context) : Outcome :=
  let idStr := Gin.Query c "id" in
  if String.eqb idStr EmptyString then
    fail Http.StatusBadRequest 400 "Missing required parameter: id" []
  else
    match Strconv.Atoi idStr with
    | Err _ => fail Http.StatusBadRequest 400 "Invalid song id format" []
    | Ok songID =>
        let level := Gin.DefaultQuery c "level" (Level config) in
        let realIP := Gin.DefaultQuery c "realip" (RealIP config) in
        let timestamp := Z.quot (Time.UnixNano (now w)) 1000000 in
        let apiURL := NeteaseMusicAPI config +:+ "/song/url/v1" in
        let params := buildParams config songID level realIP timestamp in
        let fullURL := apiURL +:+ "?" +:+ Url.Encode params in
        match get w fullURL with
        | Err _ =>
            fail Http.StatusInternalServerError 500 "Failed to request music service" [fullURL]
        | Ok resp =>
            match Http.Body resp with
            | Err _ =>
                fail Http.StatusInternalServerError 500
                  "Failed to read response from music service" [fullURL]
            | Ok body =>
                match SongURLResponse.Unmarshal body with
                | Err _ =>
                    fail Http.StatusInternalServerError 500
                      "Failed to parse response from music service" [fullURL]
                | Ok songResp =>
                    if negb (SongURLResponse.Code songResp =? 200) then
                      fail Http.StatusBadRequest (SongURLResponse.Code songResp)
                        "Music service returned error" [fullURL]
                    else
                      mkOutcome
                        (Gin.JSON Http.StatusOK (SongURLResponse.marshal songResp))
                        [fullURL]
                end
            end
        end
    end.

(** What becomes of the process. *)
Inductive process : Type :=
| Exited (code : Z)
| Serving (addr : string) (config : Config).

(** [main], once [init] has set [config]: the three log lines, then
    [r.Run]; [bind addr] is [None] when the listener is bound and the
    error text when it is not. *)
Definition main (config : Config) (bind : string -> option string) : list event * process :=
  let addr := ":" +:+ Port config in
  let lines :=
    [Log ("PublicMusicService (PMS) starting on port " +:+ Port config);
     Log ("Netease Music API: " +:+ NeteaseMusicAPI config);
     Log ("Default Level: " +:+ Level config)] in
  match bind addr with
  | None => ((lines ++ [Listen addr])%list, Serving addr config)
  | Some err =>
      ((lines ++ [Log ("Failed to start server:" +:+ err); Exit 1])%list, Exited 1)
  end.

(** The program: the runtime runs [init], then [main] unless the process
    has exited. *)
Definition run (dotenv : option Os.Env) (env : Os.Env) (bind : string -> option string)
    : list event * process :=
  let '(events, r) := init dotenv env in
  match r with
  | Fatal => (events, Exited 1)
  | Loaded config =>
      let '(events', p) := main config bind in
      ((events ++ events')%list, p)
  end.

(** A request reaches a handler only in a process that is serving. *)
Definition serveSong (p : process) (w : World) (c : Gin.Context) : option Outcome :=
  match p with
  | Serving _ config => Some (getSongURL config w c)
  | Exited _ => None
  end.

Definition serveHealth (p : process) (now : Time.t) : option Gin.Response :=
  match p with
  | Serving _ _ => Some (health now)
  | Exited _ => None
  end.

(** The same world, except that every reply of the upstream service
    carries the HTTP status [s]. *)
Definition withStatus (s : Z) (w : World) : World :=
  mkWorld (now w)
    (fun url =>
       match get w url with
       | Ok resp => Ok (Http.mkResponse s (Http.Body resp))
       | Err e => Err e
       end).

(** ** Sample inputs *)

Definition sampleEntry : Entry.t :=
  Entry.mk 1 "http://m/1.mp3" 320000 0 EmptyString 200 0 EmptyString
    (S754_zero false) (S754_zero false) 0 Json.ANil 0 0 false Json.ANil "exhigh".

Definition sampleConfig : Config :=
  mkConfig "8080" "MUSIC_U=abc; os=pc" "116.25.146.177" "exhigh" "https://example.com".

Definition sampleBody : string :=
  dq ("{'code':200,'data':[{'id':1,'url':'http://m/1.mp3',"
      +:+ "'br':320000,'code':200,'level':'exhigh'}]}").

Definition sampleWorld (statusCode : Z) (body : string) : World :=
  mkWorld (Time.mk 1700000000 123456789)
    (fun _ => Ok (Http.mkResponse statusCode (Ok body))).

Definition sampleContext (q : list (string * list string)) : Gin.Context :=
  Gin.mkContext (list_to_map q).

(** The URL that [sampleContext [("id", ["42"])]] makes the handler
    request under [sampleConfig] and the clock of [sampleWorld]. *)
Definition sampleURL : string :=
  "https://example.com/song/url/v1?cookie=MUSIC_U%3Dabc%3B+os%3Dpc&id=42"
  +:+ "&level=exhigh&realIP=116.25.146.177&timestamp=1700000000123".


(** ** package net/url: reading a query back *)

Module UrlQuery.

(** [strings.Cut(s, sep)] for a separator of one byte: the text before
    the first [sep], the text after it, and whether there is one. *)
Fixpoint Cut (sep : ascii) (s : string) : string * string * bool :=
  match s with
  | EmptyString => (EmptyString, EmptyString, false)
  | String c rest =>
      if Ascii.eqb c sep then (EmptyString, rest, true)
      else
        let '(before, after, found) := Cut sep rest in
        (String c before, after, found)
  end.

Fixpoint Contains (sep : ascii) (s : string) : bool :=
  match s with
  | EmptyString => false
  | String c rest => Ascii.eqb c sep || Contains sep rest
  end.

(** The pieces that the loop of [parseQuery] takes off the query one
    after the other with [Cut(query, "&")], until the query is empty;
    [cur] is the piece under way. *)
Fixpoint piecesFrom (cur : string) (s : string) : list string :=
  match s with
  | EmptyString => [cur]
  | String c rest =>
      if byte c =? 38 then
        cur :: match rest with
               | EmptyString => []
               | _ => piecesFrom EmptyString rest
               end
      else piecesFrom (cur +:+ str1 c) rest
  end.

Definition pieces (query : string) : list string :=
  match query with
  | EmptyString => []
  | _ => piecesFrom EmptyString query
  end.

(** One turn of the loop: a piece with a semicolon or with a bad escape
    is an error and is skipped, an empty piece is skipped, any other is
    cut at its first [=], unescaped and added.  The map comes with a flag
    that says whether an error has been met. *)
Definition parsePiece (acc : Url.Values * bool) (piece : string) : Url.Values * bool :=
  let '(m, err) := acc in
  if Contains (chr 59) piece then (m, true)
  else if String.eqb piece EmptyString then (m, err)
  else
    let '(key, value, _) := Cut (chr 61) piece in
    match Url.QueryUnescape key with
    | Err _ => (m, true)
    | Ok key1 =>
        match Url.QueryUnescape value with
        | Err _ => (m, true)
        | Ok value1 => (Url.Add key1 value1 m, err)
        end
    end.

(** [strings.Count(s, sep)] for a separator of one byte. *)
Fixpoint Count (sep : ascii) (s : string) : Z :=
  match s with
  | EmptyString => 0
  | String c rest => (if Ascii.eqb c sep then 1 else 0) + Count sep rest
  end.

(** The most parameters that a query may have (the default of the
    [urlmaxqueryparams] setting, which the program does not change). *)
Definition defaultMaxParams : Z := 10000.

(** [url.ParseQuery]: the values read, and whether an error was met.  A
    query with more parameters than the limit, counted as its [&] plus
    one, is refused before anything is read: the result is the empty map
    and an error. *)
Definition ParseQuery (query : string) : Url.Values * bool :=
  if defaultMaxParams <? Count (chr 38) query + 1 then (∅, true)
  else foldl parsePiece (∅, false) (pieces query).

End UrlQuery.

(** [c.Request.URL.Query()], from which gin fills the query cache of a
    context at the first [c.Query]: what [ParseQuery] reads in the raw
    query of the request, its error dropped. *)
Definition initQueryCache (rawQuery : string) : Gin.Context :=
  Gin.mkContext (UrlQuery.ParseQuery rawQuery).1.

(** ** gin: a handler chain at work on a response *)

Module Chain.

(** What is written to the body of a response: a JSON text, or plain
    text. *)
Inductive Chunk : Type :=
| JSONText (d : Json.doc)
| PlainText (s : string).

(** What a chain of handlers works on for one request: the method of the
    request, and the response under way.  [Header] is the header of the
    response as it goes out: it can be changed until the status line is
    written ([Written]), not after.  [Body] is what the handlers have
    written to the body so far (net/http sends none of it in reply to a
    HEAD request), [Upstream] the URLs that handlers have called
    [http.Get] on. *)
Record Exchange : Type := mkExchange {
  Method : string;
  Header : gmap string (list string);
  Status : Z;
  Written : bool;
  Body : list Chunk;
  Aborted : bool;
  Upstream : list string
}.

(** The exchange that a chain starts from: status 200, nothing set. *)
Definition start (method : string) : Exchange :=
  mkExchange method ∅ 200 false [] false [].

(** [c.Header(key, value)] for a value that is not empty (and a key in
    canonical form, as all keys here are): the header takes this one
    value. *)
Definition SetHeader (key value : string) (x : Exchange) : Exchange :=
  if Written x then x
  else mkExchange (Method x) (<[key := [value]]> (Header x)) (Status x) (Written x)
         (Body x) (Aborted x) (Upstream x).

(** [c.Status(code)]: ignored once the status line is out. *)
Definition SetStatus (code : Z) (x : Exchange) : Exchange :=
  if Written x then x
  else mkExchange (Method x) (Header x) code (Written x) (Body x) (Aborted x) (Upstream x).

Definition WriteHeaderNow (x : Exchange) : Exchange :=
  mkExchange (Method x) (Header x) (Status x) true (Body x) (Aborted x) (Upstream x).

(** [c.AbortWithStatus(code)]: the status is set and written, and the
    handlers that follow do not run. *)
Definition AbortWithStatus (code : Z) (x : Exchange) : Exchange :=
  let y := WriteHeaderNow (SetStatus code x) in
  mkExchange (Method y) (Header y) (Status y) (Written y) (Body y) true (Upstream y).

Definition bodyAllowedForStatus (status : Z) : bool :=
  negb (((100 <=? status) && (status <=? 199)) || (status =? 204) || (status =? 304)).

(** [c.JSON(code, obj)] where [doc] is the JSON text of [obj]: the status
    is set, the content type is set unless the header has one, and the
    text is written if the status allows a body. *)
Definition WriteJSON (r : Gin.Response) (x : Exchange) : Exchange :=
  let x1 := SetStatus (Gin.status r) x in
  let x2 :=
    match Header x1 !! "Content-Type" with
    | Some (_ :: _) => x1
    | _ => SetHeader "Content-Type" "application/json; charset=utf-8" x1
    end in
  let x3 := WriteHeaderNow x2 in
  if bodyAllowedForStatus (Gin.status r)
  then mkExchange (Method x3) (Header x3) (Status x3) (Written x3)
         (Body x3 ++ [JSONText (Gin.body r)])%list (Aborted x3) (Upstream x3)
  else x3.

Definition default404Body : string := "404 page not found".

(** [serveError(c, code, defaultMessage)]: the status is set to [code],
    the chain [handlers] runs, and unless it has written the response
    the default message is written as plain text (if the status is still
    [code]) or the status line alone (if a handler has changed it). *)
Definition serveError (code : Z) (defaultMessage : string)
    (handlers : Exchange -> Exchange) (x : Exchange) : Exchange :=
  let x0 := mkExchange (Method x) (Header x) code (Written x) (Body x) (Aborted x)
              (Upstream x) in
  let y := handlers x0 in
  if Written y then y
  else if Status y =? code then
    mkExchange (Method y) (<["Content-Type" := ["text/plain"]]> (Header y)) (Status y) true
      (Body y ++ [PlainText defaultMessage])%list (Aborted y) (Upstream y)
  else WriteHeaderNow y.

(** [engine.handleHTTPRequest] for a request whose path is that of a
    route registered for [method] alone: a request with that method runs
    the chain of the route, and the status line is written if the chain
    has not done so; a request with any other method has no route and is
    served the 404 of the engine behind the chain [noRoute] (the engine
    does not answer 405 unless told to, and it is not). *)
Definition handleHTTPRequest (method : string) (handlers noRoute : Exchange -> Exchange)
    (x : Exchange) : Exchange :=
  if String.eqb (Method x) method then WriteHeaderNow (handlers x)
  else serveError 404 default404Body noRoute x.

End Chain.

(** ** The rest of main.go: the middleware and the routes *)

(** [corsMiddleware]: [next] is what [c.Next()] runs, the handlers that
    follow in the chain. *)
Definition corsMiddleware (next : Chain.Exchange -> Chain.Exchange) (x : Chain.Exchange)
    : Chain.Exchange :=
  let x1 := Chain.SetHeader "Access-Control-Allow-Origin" "*" x in
  let x2 := Chain.SetHeader "Access-Control-Allow-Credentials" "true" x1 in
  let x3 :=
    Chain.SetHeader "Access-Control-Allow-Headers"
      ("Content-Type, Content-Length, Accept-Encoding, X-CSRF-Token, Authorization, "
       +:+ "accept, origin, Cache-Control, X-Requested-With") x2 in
  let x4 := Chain.SetHeader "Access-Control-Allow-Methods" "POST, OPTIONS, GET, PUT, DELETE" x3 in
  if String.eqb (Chain.Method x4) "OPTIONS" then Chain.AbortWithStatus 204 x4
  else next x4.

(** The two handlers as members of a chain. *)
Definition healthHandler (now : Time.t) (x : Chain.Exchange) : Chain.Exchange :=
  Chain.WriteJSON (health now) x.

Definition songHandler (config : Config) (w : World) (c : Gin.Context) (x : Chain.Exchange)
    : Chain.Exchange :=
  let o := getSongURL config w c in
  let x1 :=
    Chain.mkExchange (Chain.Method x) (Chain.Header x) (Chain.Status x) (Chain.Written x)
      (Chain.Body x) (Chain.Aborted x) (Chain.Upstream x ++ requests o)%list in
  Chain.WriteJSON (response o) x1.

(** The chain that the engine runs when no route matches: the
    middleware that [main] has installed with [r.Use], and no handler
    after it. *)
Definition noRoute : Chain.Exchange -> Chain.Exchange :=
  corsMiddleware (fun x => x).

(** What [main] registers with [r.GET]: each of the two paths has a
    route for the method GET and for no other, with [corsMiddleware]
    before the handler.  [healthRoute] is what the engine does with a
    request for [/health], [songRoute] with a request for [/song].  (The
    logger and the recovery, which stand before the middleware in every
    chain, leave a response as it is as long as no handler panics, and
    none here does.) *)
Definition healthRoute (now : Time.t) : Chain.Exchange -> Chain.Exchange :=
  Chain.handleHTTPRequest "GET" (corsMiddleware (healthHandler now)) noRoute.

Definition songRoute (config : Config) (w : World) (c : Gin.Context)
    : Chain.Exchange -> Chain.Exchange :=
  Chain.handleHTTPRequest "GET" (corsMiddleware (songHandler config w c)) noRoute.

(** ** Tactics *)

(** Case analysis on a name that is one of a list of literals. *)
Ltac declared_cases H :=
  repeat (apply elem_of_cons in H as [->|H]); [..|apply elem_of_nil in H; destruct H].

(** Inversion of [Entry.store f x e = Ok e'] for a given field. *)
Ltac store_inv H :=
  cbn [Entry.store] in H;
  match type of H with
  | context [bind ?d _] =>
      let E := fresh "E" in destruct d eqn:E; cbn [bind] in H; [|discriminate]
  end;
  injection H as <-.

(** * Properties *)

(** ** strconv on sample inputs *)

Example atoi_plain : Strconv.Atoi "1974443814" = Ok 1974443814.
Proof. reflexivity. Qed.

Example atoi_plus_zeros : Strconv.Atoi "+007" = Ok 7.
Proof. reflexivity. Qed.

Example atoi_letters : Strconv.Atoi "12a" = Err Strconv.ErrSyntax.
Proof. reflexivity. Qed.

Example atoi_sign_only : Strconv.Atoi "-" = Err Strconv.ErrSyntax.
Proof. reflexivity. Qed.

Example atoi_max : Strconv.Atoi "9223372036854775807" = Ok (2 ^ 63 - 1).
Proof. reflexivity. Qed.

Example atoi_overflow : Strconv.Atoi "9223372036854775808" = Err Strconv.ErrRange.
Proof. reflexivity. Qed.

Example atoi_min : Strconv.Atoi "-9223372036854775808" = Ok (- 2 ^ 63).
Proof. reflexivity. Qed.

Example itoa_min : Strconv.Itoa (- 2 ^ 63) = "-9223372036854775808".
Proof. reflexivity. Qed.

Example itoa_zero : Strconv.Itoa 0 = "0".
Proof. reflexivity. Qed.

Example parsefloat_tenth :
  Strconv.ParseFloat "0.1" = Ok (S754_finite false 7205759403792794 (-56)).
Proof. vm_compute. reflexivity. Qed.

Example parsefloat_exp :
  Strconv.ParseFloat "-1.5e0" = Strconv.ParseFloat "-15E-1"
  /\ Strconv.ParseFloat "100" = Strconv.ParseFloat "1e2".
Proof. vm_compute. split; reflexivity. Qed.

Example parsefloat_overflow : Strconv.ParseFloat "1e400" = Err Strconv.ErrRange.
Proof. vm_compute. reflexivity. Qed.

Example parsefloat_underflow : Strconv.ParseFloat "2e-324" = Ok (S754_zero false).
Proof. vm_compute. reflexivity. Qed.

Example parsefloat_minus_zero : Strconv.ParseFloat "-0" = Ok (S754_zero true).
Proof. vm_compute. reflexivity. Qed.

(** ** strconv: what is written is read back *)

Lemma byte_chr (v : Z) : 0 <= v < 256 -> byte (chr v) = v.
Proof.
  intros H. unfold byte, chr. rewrite Z.mod_small by exact H.
  rewrite N_ascii_embedding; [lia|].
  apply N2Z.inj_lt. rewrite Z2N.id by lia. lia.
Qed.

Lemma digit_char (m : Z) :
  0 <= m < 10 -> is_digit (chr (48 + m)) = true /\ byte (chr (48 + m)) = 48 + m.
Proof.
  intros H. unfold is_digit. rewrite byte_chr by lia. split; [|reflexivity].
  apply andb_true_intro. split; apply Z.leb_le; lia.
Qed.

(** The first character that [formatBits] writes is a digit. *)
Lemma formatBits_head (fuel : nat) (u : Z) (acc : string) :
  (0 < fuel)%nat -> 0 <= u ->
  exists c rest, Strconv.formatBits fuel u acc = String c rest /\ is_digit c = true.
Proof.
  revert u acc. induction fuel as [|fuel IH]; intros u acc Hf Hu; [lia|].
  cbn [Strconv.formatBits].
  assert (Hm : 0 <= u mod 10 < 10) by (apply Z.mod_pos_bound; lia).
  destruct (u <? 10) eqn:E.
  - eexists _, _. split; [reflexivity|]. apply digit_char. exact Hm.
  - destruct fuel as [|fuel'].
    + cbn [Strconv.formatBits]. eexists _, _. split; [reflexivity|]. apply digit_char. exact Hm.
    + apply IH; [lia|]. apply Z.div_pos; lia.
Qed.

Lemma atoiFast_formatBits (fuel : nat) (u : Z) (acc : string) :
  0 <= u < 10 ^ Z.of_nat (S fuel) ->
  exists k, 1 <= k /\ slen (Strconv.formatBits (S fuel) u acc) = k + slen acc /\
    forall a,
      Strconv.atoiFast (Strconv.formatBits (S fuel) u acc) a
      = Strconv.atoiFast acc (a * 10 ^ k + u).
Proof.
  revert u acc. induction fuel as [|fuel IH]; intros u acc Hu.
  - change (10 ^ Z.of_nat 1) with 10 in Hu.
    cbn [Strconv.formatBits].
    destruct (u <? 10) eqn:E; [|apply Z.ltb_ge in E; lia].
    assert (Hm : 0 <= u mod 10 < 10) by (apply Z.mod_pos_bound; lia).
    destruct (digit_char _ Hm) as [Hd Hb].
    exists 1. split; [lia|]. split.
    + unfold slen. cbn [String.length]. lia.
    + intros a. cbn [Strconv.atoiFast]. rewrite Hb.
      rewrite (Z.mod_small u 10) by lia.
      replace (48 + u - 48) with u by lia. rewrite Z.mod_small by lia.
      destruct (u >? 9) eqn:E2; [apply Z.gtb_lt in E2; lia|]. f_equal; lia.
  - remember (S fuel) as f eqn:Hf.
    cbn [Strconv.formatBits].
    assert (Hm : 0 <= u mod 10 < 10) by (apply Z.mod_pos_bound; lia).
    destruct (digit_char _ Hm) as [Hd Hb].
    destruct (u <? 10) eqn:E.
    + apply Z.ltb_lt in E. exists 1. split; [lia|]. split.
      * unfold slen. cbn [String.length]. lia.
      * intros a. cbn [Strconv.atoiFast]. rewrite Hb.
        rewrite (Z.mod_small u 10) by lia.
        replace (48 + u - 48) with u by lia. rewrite Z.mod_small by lia.
        destruct (u >? 9) eqn:E2; [apply Z.gtb_lt in E2; lia|]. f_equal; lia.
    + apply Z.ltb_ge in E. subst f.
      destruct (IH (u / 10) (String (chr (48 + u mod 10)) acc)) as (k & Hk & Hlen & Hval).
      { split; [apply Z.div_pos; lia|]. apply Z.div_lt_upper_bound; [lia|].
        rewrite (Nat2Z.inj_succ (S fuel)), Z.pow_succ_r in Hu by lia. lia. }
      exists (k + 1). split; [lia|]. split.
      * rewrite Hlen. unfold slen. cbn [String.length]. lia.
      * intros a. rewrite Hval. cbn [Strconv.atoiFast]. rewrite Hb.
        replace (48 + u mod 10 - 48) with (u mod 10) by lia.
        rewrite (Z.mod_small (u mod 10)) by lia.
        destruct (u mod 10 >? 9) eqn:E2; [apply Z.gtb_lt in E2; lia|]. f_equal.
        rewrite Z.pow_add_r by lia. pose proof (Z.div_mod u 10). lia.
Qed.

Lemma parseUintLoop_digit (maxVal : Z) (m a : Z) (rest : string) :
  0 <= m < 10 -> 0 <= a -> a * 10 + m <= 2 ^ 63 -> 2 ^ 63 <= maxVal ->
  Strconv.parseUintLoop maxVal (String (chr (48 + m)) rest) a
  = Strconv.parseUintLoop maxVal rest (a * 10 + m).
Proof.
  intros Hm Ha Hb Hmax. destruct (digit_char _ Hm) as [Hd Hbyte].
  cbn [Strconv.parseUintLoop]. rewrite Hd, Hbyte. cbn [negb].
  unfold Strconv.maxUint64.
  destruct (a >=? (2 ^ 64 - 1) / 10 + 1) eqn:E1.
  { apply Z.geb_le in E1. change ((2 ^ 64 - 1) / 10 + 1) with 1844674407370955162 in E1.
    change (2 ^ 63) with 9223372036854775808 in Hb. lia. }
  replace (48 + m - 48) with m by lia.
  destruct (a * 10 + m >? 2 ^ 64 - 1) eqn:E2.
  { apply Z.gtb_lt in E2. change (2 ^ 64 - 1) with 18446744073709551615 in E2.
    change (2 ^ 63) with 9223372036854775808 in Hb. lia. }
  destruct (a * 10 + m >? maxVal) eqn:E3.
  { apply Z.gtb_lt in E3. lia. }
  reflexivity.
Qed.

Lemma parseUintLoop_formatBits (maxVal : Z) (fuel : nat) (u : Z) (acc : string) :
  0 <= u < 10 ^ Z.of_nat (S fuel) -> 2 ^ 63 <= maxVal ->
  exists k, 1 <= k /\
    forall a, 0 <= a -> a * 10 ^ k + u <= 2 ^ 63 ->
      Strconv.parseUintLoop maxVal (Strconv.formatBits (S fuel) u acc) a
      = Strconv.parseUintLoop maxVal acc (a * 10 ^ k + u).
Proof.
  intros Hu Hmax. revert u acc Hu. induction fuel as [|fuel IH]; intros u acc Hu.
  - change (10 ^ Z.of_nat 1) with 10 in Hu.
    cbn [Strconv.formatBits].
    destruct (u <? 10) eqn:E; [|apply Z.ltb_ge in E; lia].
    exists 1. split; [lia|]. intros a Ha Hb.
    rewrite (Z.mod_small u 10) by lia. change (10 ^ 1) with 10 in *.
    apply parseUintLoop_digit; lia.
  - remember (S fuel) as f eqn:Hf.
    cbn [Strconv.formatBits].
    assert (Hm : 0 <= u mod 10 < 10) by (apply Z.mod_pos_bound; lia).
    destruct (u <? 10) eqn:E.
    + apply Z.ltb_lt in E. exists 1. split; [lia|]. intros a Ha Hb.
      rewrite (Z.mod_small u 10) by lia. change (10 ^ 1) with 10 in *.
      apply parseUintLoop_digit; lia.
    + apply Z.ltb_ge in E. subst f.
      destruct (IH (u / 10) (String (chr (48 + u mod 10)) acc)) as (k & Hk & Hval).
      { split; [apply Z.div_pos; lia|]. apply Z.div_lt_upper_bound; [lia|].
        rewrite (Nat2Z.inj_succ (S fuel)), Z.pow_succ_r in Hu by lia. lia. }
      exists (k + 1). split; [lia|]. intros a Ha Hb.
      assert (Hp : 0 < 10 ^ k) by (apply Z.pow_pos_nonneg; lia).
      rewrite Z.pow_add_r in Hb by lia. change (10 ^ 1) with 10 in Hb.
      pose proof (Z.div_mod u 10 ltac:(lia)) as Hdm.
      assert (Hq : 0 <= u / 10) by (apply Z.div_pos; lia).
      rewrite Hval by nia.
      rewrite parseUintLoop_digit by nia.
      f_equal. rewrite Z.pow_add_r by lia. change (10 ^ 1) with 10. lia.
Qed.

Lemma slen_nonneg (s : string) : 0 <= slen s.
Proof. unfold slen. lia. Qed.

(** What [Itoa] writes is read back by [Atoi] as the same integer. *)
Lemma Atoi_Itoa (n : Z) : - 2 ^ 63 <= n < 2 ^ 63 -> Strconv.Atoi (Strconv.Itoa n) = Ok n.
Proof.
  intros Hn. unfold Strconv.Itoa, Strconv.FormatInt.
  assert (H20 : 2 ^ 63 < 10 ^ Z.of_nat 20) by (vm_compute; reflexivity).
  destruct (n <? 0) eqn:E.
  - apply Z.ltb_lt in E.
    assert (Hu : 0 <= - n < 10 ^ Z.of_nat 20) by lia.
    destruct (atoiFast_formatBits 19 (- n) EmptyString Hu) as (k & Hk & Hlen & Hfast).
    destruct (parseUintLoop_formatBits (2 ^ 64 - 1) 19 (- n) EmptyString Hu
                ltac:(vm_compute; congruence))
      as (k' & Hk' & Hslow).
    destruct (formatBits_head 20 (- n) EmptyString ltac:(lia) ltac:(lia)) as (c & rest & Hs & Hc).
    set (ds := Strconv.formatBits 20 (- n) EmptyString) in *.
    unfold Strconv.Atoi.
    change (byte (chr 45)) with 45.
    destruct ((0 <? slen (String (chr 45) ds)) && (slen (String (chr 45) ds) <? 19)) eqn:Ep.
    + change ((45 =? 45) || (45 =? 43)) with true. cbv iota.
      assert (Hl : (slen ds <? 1) = false).
      { apply Z.ltb_ge. rewrite Hlen. pose proof (slen_nonneg EmptyString). lia. }
      rewrite Hl. cbn [andb]. rewrite Hfast. cbn [Strconv.atoiFast bind].
      change (45 =? 45) with true. cbv iota. f_equal. lia.
    + unfold Strconv.ParseInt. change (byte (chr 45)) with 45.
      change ((45 =? 43) || (45 =? 45)) with true. cbv iota.
      unfold Strconv.ParseUint. rewrite Hs. rewrite <- Hs.
      change (if 0 =? 0 then Strconv.intSize else 0) with 64.
      rewrite Hslow by lia. cbn [Strconv.parseUintLoop bind].
      change (45 =? 45) with true. cbn [negb andb].
      replace (0 * 10 ^ k' + - n) with (- n) by lia.
      destruct (- n >? 2 ^ (64 - 1)) eqn:E2.
      { apply Z.gtb_lt in E2. change (2 ^ (64 - 1)) with (2 ^ 63) in E2. lia. }
      f_equal. lia.
  - apply Z.ltb_ge in E.
    assert (Hu : 0 <= n < 10 ^ Z.of_nat 20) by lia.
    destruct (atoiFast_formatBits 19 n EmptyString Hu) as (k & Hk & Hlen & Hfast).
    destruct (parseUintLoop_formatBits (2 ^ 64 - 1) 19 n EmptyString Hu
                ltac:(vm_compute; congruence))
      as (k' & Hk' & Hslow).
    destruct (formatBits_head 20 n EmptyString ltac:(lia) ltac:(lia)) as (c & rest & Hs & Hc).
    set (ds := Strconv.formatBits 20 n EmptyString) in *.
    assert (Hsign : (byte c =? 45) = false /\ (byte c =? 43) = false).
    { unfold is_digit in Hc. apply andb_true_iff in Hc as [H1 H2].
      apply Z.leb_le in H1. split; apply Z.eqb_neq; lia. }
    destruct Hsign as [H45 H43].
    unfold Strconv.Atoi.
    destruct ((0 <? slen ds) && (slen ds <? 19)) eqn:Ep.
    + rewrite Hs. rewrite H45, H43. cbn [orb andb]. rewrite <- Hs.
      rewrite Hfast. cbn [Strconv.atoiFast bind]. f_equal; lia.
    + unfold Strconv.ParseInt. rewrite Hs. rewrite H45, H43. cbn [orb]. cbv iota.
      unfold Strconv.ParseUint.
      change (if 0 =? 0 then Strconv.intSize else 0) with 64.
      rewrite <- Hs. rewrite Hslow by lia. cbn [Strconv.parseUintLoop bind negb andb].
      replace (0 * 10 ^ k' + n) with n by lia.
      destruct (n >=? 2 ^ (64 - 1)) eqn:E2.
      { apply Z.geb_le in E2. change (2 ^ (64 - 1)) with (2 ^ 63) in E2. lia. }
      reflexivity.
Qed.

Lemma atoiFast_bounds (s : string) (a m : Z) :
  Strconv.atoiFast s a = Ok m -> 0 <= a ->
  a * 10 ^ slen s <= m < (a + 1) * 10 ^ slen s.
Proof.
  revert a. induction s as [|c rest IH]; intros a H Ha.
  - cbn in H. injection H as <-. change (slen EmptyString) with 0. lia.
  - cbn [Strconv.atoiFast] in H.
    pose proof (Z.mod_pos_bound (byte c - 48) 256 ltac:(lia)) as Hch.
    destruct ((byte c - 48) mod 256 >? 9) eqn:E; [discriminate|].
    assert (Hle : (byte c - 48) mod 256 <= 9).
    { destruct (Z.gtb_spec ((byte c - 48) mod 256) 9); [discriminate|lia]. }
    apply IH in H; [|lia].
    assert (Hs : slen (String c rest) = slen rest + 1) by (unfold slen; cbn [String.length]; lia).
    rewrite Hs, Z.pow_add_r by (pose proof (slen_nonneg rest); lia).
    change (10 ^ 1) with 10.
    assert (Hp : 0 < 10 ^ slen rest) by (apply Z.pow_pos_nonneg; [lia|apply slen_nonneg]).
    nia.
Qed.

Lemma parseUintLoop_nonneg (maxVal : Z) (s : string) (a m : Z) :
  Strconv.parseUintLoop maxVal s a = Ok m -> 0 <= a -> 0 <= m.
Proof.
  revert a. induction s as [|c rest IH]; intros a H Ha.
  - cbn in H. injection H as <-. exact Ha.
  - cbn [Strconv.parseUintLoop] in H.
    destruct (is_digit c) eqn:Ed; [|discriminate]. cbn [negb] in H.
    destruct (a >=? _); [discriminate|].
    destruct (_ || _); [discriminate|].
    apply IH in H; [exact H|].
    unfold is_digit in Ed. apply andb_true_iff in Ed as [H1 _]. apply Z.leb_le in H1. lia.
Qed.

(** [Atoi] returns an [int]. *)
Lemma Atoi_range (s : string) (n : Z) : Strconv.Atoi s = Ok n -> - 2 ^ 63 <= n < 2 ^ 63.
Proof.
  unfold Strconv.Atoi.
  destruct ((0 <? slen s) && (slen s <? 19)) eqn:Ep.
  - apply andb_true_iff in Ep as [_ Hl]. apply Z.ltb_lt in Hl.
    destruct s as [|c rest]; [discriminate|].
    assert (Hs : slen (String c rest) = slen rest + 1) by (unfold slen; cbn [String.length]; lia).
    pose proof (slen_nonneg rest) as Hr.
    destruct ((byte c =? 45) || (byte c =? 43)) eqn:Esign.
    + destruct (_ && _); [discriminate|].
      destruct (Strconv.atoiFast rest 0) as [m|] eqn:Em; [|discriminate].
      cbn [bind]. intros H. injection H as <-.
      apply atoiFast_bounds in Em; [|lia].
      assert (Hp : 10 ^ slen rest <= 10 ^ 17) by (apply Z.pow_le_mono_r; lia).
      change (10 ^ 17) with 100000000000000000 in Hp.
      change (2 ^ 63) with 9223372036854775808.
      destruct (byte c =? 45); lia.
    + cbn [andb].
      destruct (Strconv.atoiFast (String c rest) 0) as [m|] eqn:Em; [|discriminate].
      cbn [bind]. intros H. injection H as <-.
      apply atoiFast_bounds in Em; [|lia].
      assert (Hp : 10 ^ slen (String c rest) <= 10 ^ 18) by (apply Z.pow_le_mono_r; lia).
      change (10 ^ 18) with 1000000000000000000 in Hp.
      change (2 ^ 63) with 9223372036854775808.
      apply orb_false_iff in Esign as [-> _]. lia.
  - unfold Strconv.ParseInt. destruct s as [|c rest]; [discriminate|].
    destruct (Strconv.ParseUint _ 0) as [un|] eqn:Eu; [|discriminate].
    cbn [bind]. change (if 0 =? 0 then Strconv.intSize else 0) with 64.
    change (2 ^ (64 - 1)) with (2 ^ 63).
    assert (Hun : 0 <= un).
    { unfold Strconv.ParseUint in Eu.
      destruct (if (byte c =? 43) || (byte c =? 45) then rest else String c rest);
        [discriminate|].
      apply parseUintLoop_nonneg in Eu; [exact Eu|lia]. }
    destruct (byte c =? 45); cbn [negb andb].
    + destruct (Z.gtb_spec un (2 ^ 63)) as [Hc|Hc]; [discriminate|].
      intros Hr. injection Hr as <-. lia.
    + destruct (Z.geb_spec un (2 ^ 63)) as [Hc|Hc]; [discriminate|].
      intros Hr. injection Hr as <-. lia.
Qed.

(** ** The JSON scanner on sample inputs *)

Example parse_object :
  Json.parse (dq "{'code':200, 'data':[{'id':1,'url':null,'gain':-1.5e0}] }")
  = Some (Json.Object
            [("code", Json.Number "200");
             ("data", Json.Array
                        [Json.Object [("id", Json.Number "1"); ("url", Json.Null);
                                      ("gain", Json.Number "-1.5e0")]])]).
Proof. vm_compute. reflexivity. Qed.

Example parse_null : Json.parse " null " = Some Json.Null.
Proof. vm_compute. reflexivity. Qed.

Example parse_number_top : Json.parse "12" = Some (Json.Number "12").
Proof. vm_compute. reflexivity. Qed.

Example parse_empty : Json.parse "" = None.
Proof. vm_compute. reflexivity. Qed.

Example parse_html : Json.parse "<html>502 Bad Gateway</html>" = None.
Proof. vm_compute. reflexivity. Qed.

Example parse_trailing_comma : Json.parse (dq "{'code':200,}") = None.
Proof. vm_compute. reflexivity. Qed.

Example parse_leading_zero : Json.parse "01" = None.
Proof. vm_compute. reflexivity. Qed.

Example parse_truncated : Json.parse (dq "{'code':200") = None.
Proof. vm_compute. reflexivity. Qed.

Example parse_trailing_text : Json.parse (dq "{'code':200} x") = None.
Proof. vm_compute. reflexivity. Qed.

Example parse_empty_containers :
  Json.parse (dq "[{}, [ ], 'aé\n', true]")
  = Some (Json.Array [Json.Object []; Json.Array [];
                      Json.Str (String "a" (String (chr 195) (String (chr 169) (str1 (chr 10)))));
                      Json.Bool true]).
Proof. vm_compute. reflexivity. Qed.

Example parse_surrogates :
  Json.parse (dq "'😀\ud83dx'")
  = Some (Json.Str (String (chr 240) (String (chr 159) (String (chr 152) (String (chr 128)
            (String (chr 239) (String (chr 191) (String (chr 189) "x")))))))).
Proof. vm_compute. reflexivity. Qed.

(** ** Unmarshal on sample bodies *)

Example unmarshal_sample :
  SongURLResponse.Unmarshal sampleBody
  = Ok (SongURLResponse.mk 200 (Json.Slice [sampleEntry] 1)).
Proof. vm_compute. reflexivity. Qed.

Example unmarshal_folded_keys :
  SongURLResponse.Unmarshal (dq "{'CODE':200,'Data':[]}")
  = Ok (SongURLResponse.mk 200 (Json.Slice [] 0)).
Proof. vm_compute. reflexivity. Qed.

Example unmarshal_string_code :
  SongURLResponse.Unmarshal (dq "{'code':'200'}") = Err Json.UnmarshalTypeError.
Proof. vm_compute. reflexivity. Qed.

Example unmarshal_fraction_code :
  SongURLResponse.Unmarshal (dq "{'code':200.0}") = Err Json.UnmarshalTypeError.
Proof. vm_compute. reflexivity. Qed.

Example unmarshal_array :
  SongURLResponse.Unmarshal "[]" = Err Json.UnmarshalTypeError.
Proof. vm_compute. reflexivity. Qed.

Example unmarshal_data_object :
  SongURLResponse.Unmarshal (dq "{'code':200,'data':{}}") = Err Json.UnmarshalTypeError.
Proof. vm_compute. reflexivity. Qed.

Example unmarshal_html :
  SongURLResponse.Unmarshal "<html>" = Err Json.SyntaxError.
Proof. vm_compute. reflexivity. Qed.

Example unmarshal_repeated_data :
  SongURLResponse.Unmarshal (dq "{'data':[{'id':1,'br':5},{'id':7}],'data':[{'id':2}],'code':200}")
  = Ok (SongURLResponse.mk 200
          (Json.Slice
             [Entry.mk 2 "" 5 0 "" 0 0 "" (S754_zero false) (S754_zero false) 0 Json.ANil 0 0
                false Json.ANil "";
              Entry.mk 7 "" 0 0 "" 0 0 "" (S754_zero false) (S754_zero false) 0 Json.ANil 0 0
                false Json.ANil ""] 1)).
Proof. vm_compute. reflexivity. Qed.

Example unmarshal_interface :
  SongURLResponse.Unmarshal (dq "{'code':200,'data':[{'uf':{'b':[1,'x'],'a':null,'b':true}}]}")
  = Ok (SongURLResponse.mk 200
          (Json.Slice
             [Entry.mk 0 "" 0 0 "" 0 0 "" (S754_zero false) (S754_zero false) 0
                (Json.AMap [("a", Json.ANil); ("b", Json.ABool true)]) 0 0 false Json.ANil ""] 1)).
Proof. vm_compute. reflexivity. Qed.

(** ** Unmarshal: which bodies are decode failures *)

(** A top-level value that is neither an object nor [null] conflicts with
    the struct. *)
Lemma decode_top_level_conflict (j : Json.value) (r : SongURLResponse.t) :
  match j with
  | Json.Null | Json.Object _ => True
  | _ => SongURLResponse.decode j r = Err Json.UnmarshalTypeError
  end.
Proof. destruct j; try exact I; reflexivity. Qed.

(** [null] and the empty object leave the destination as it is. *)
Lemma decode_nothing (r : SongURLResponse.t) :
  SongURLResponse.decode Json.Null r = Ok r
  /\ SongURLResponse.decode (Json.Object []) r = Ok r.
Proof. split; reflexivity. Qed.

(** An [int] field conflicts with everything but a number and [null],
    and with a number that [ParseInt] does not read as an [int64]. *)
Lemma decodeInt_conflict (j : Json.value) (old : Z) :
  match j with
  | Json.Null => Json.decodeInt j old = Ok old
  | Json.Number lit =>
      is_ok (Json.decodeInt j old) = is_ok (Strconv.ParseInt lit 64)
  | _ => Json.decodeInt j old = Err Json.UnmarshalTypeError
  end.
Proof.
  destruct j; try reflexivity. cbn [Json.decodeInt].
  destruct (Strconv.ParseInt lit 64); reflexivity.
Qed.

(** A member whose name resolves to no field is skipped, wherever it
    stands in the object. *)
Lemma decodeMembers_unknown {F T : Type} (fields : list (string * F))
    (store : F -> Json.value -> T -> result Json.DecodeError T)
    (before after : list (string * Json.value)) (k : string) (x : Json.value) (old : T) :
  Json.findField fields k = None ->
  Json.decodeMembers fields store (before ++ (k, x) :: after)%list old
  = Json.decodeMembers fields store (before ++ after)%list old.
Proof.
  intros Hk. revert old. induction before as [|[k' x'] before IH]; intros old.
  - cbn [app Json.decodeMembers]. rewrite Hk. reflexivity.
  - cbn [app Json.decodeMembers].
    destruct (match Json.findField fields k' with
              | Some f => store f x' old
              | None => Ok old
              end) as [cur|e]; cbn [bind]; [apply IH|reflexivity].
Qed.

Example time_is_not_declared : Json.findField Entry.fields "time" = None.
Proof. vm_compute. reflexivity. Qed.

(** ** Unmarshal: how member names are matched *)

Lemma find_unique {A : Type} (g : A -> string) (l : list A) (p : A) (v : string) :
  NoDup (map g l) -> In p l -> g p = v ->
  find (fun q => String.eqb (g q) v) l = Some p.
Proof.
  intros Hn Hin Hg. induction l as [|q l IH]; [destruct Hin|].
  cbn [map] in Hn. apply NoDup_cons in Hn as [Hq Hn]. cbn [find].
  destruct Hin as [->|Hin].
  - rewrite Hg, String.eqb_refl. reflexivity.
  - destruct (String.eqb (g q) v) eqn:E; [|exact (IH Hn Hin)].
    apply String.eqb_eq in E. exfalso. apply Hq. rewrite E, <- Hg.
    apply list_elem_of_In, in_map, Hin.
Qed.

(** Where no two fields have the same folded name, a key goes to the
    field whose folded name is that of the key. *)
Lemma findField_folded {F : Type} (fields : list (string * F)) (key : string) :
  NoDup (map (fun p => Json.foldName (fst p)) fields) ->
  Json.findField fields key
  = match find (fun p => String.eqb (Json.foldName (fst p)) (Json.foldName key)) fields with
    | Some p => Some (snd p)
    | None => None
    end.
Proof.
  intros Hn. unfold Json.findField.
  destruct (find (fun p => String.eqb (fst p) key) fields) as [p|] eqn:E; [|reflexivity].
  apply find_some in E as [Hin He]. apply String.eqb_eq in He.
  rewrite (find_unique (fun p => Json.foldName (fst p)) fields p (Json.foldName key) Hn Hin)
    by (rewrite He; reflexivity).
  reflexivity.
Qed.

Lemma Entry_fields_NoDup : NoDup (map (fun p => Json.foldName (fst p)) Entry.fields).
Proof. apply (bool_decide_unpack _). vm_compute. exact I. Qed.

Lemma SongURLResponse_fields_NoDup :
  NoDup (map (fun p => Json.foldName (fst p)) SongURLResponse.fields).
Proof. apply (bool_decide_unpack _). vm_compute. exact I. Qed.

Lemma findField_unknown {F : Type} (fields : list (string * F)) (key : string) :
  Json.foldName key ∉ map (fun p => Json.foldName (fst p)) fields ->
  Json.findField fields key = None.
Proof.
  intros Hk. unfold Json.findField.
  destruct (find (fun p => String.eqb (fst p) key) fields) as [p|] eqn:E1.
  { apply find_some in E1 as [Hin He]. apply String.eqb_eq in He. exfalso. apply Hk.
    rewrite <- He. apply list_elem_of_In.
    exact (in_map (fun p => Json.foldName (fst p)) _ _ Hin). }
  destruct (find (fun p => String.eqb (Json.foldName (fst p)) (Json.foldName key)) fields)
    as [p|] eqn:E2; [|reflexivity].
  apply find_some in E2 as [Hin He]. apply String.eqb_eq in He. exfalso. apply Hk.
  rewrite <- He. apply list_elem_of_In.
  exact (in_map (fun p => Json.foldName (fst p)) _ _ Hin).
Qed.

(** The two members that [SongURLResponse] declares are found under any
    spelling of their names that folds to [CODE] and [DATA]; a member
    whose name folds to neither goes nowhere. *)
Lemma findField_top (k : string) :
  Json.findField SongURLResponse.fields k
  = if String.eqb (Json.foldName k) "CODE" then Some SongURLResponse.fCode
    else if String.eqb (Json.foldName k) "DATA" then Some SongURLResponse.fData
    else None.
Proof.
  rewrite (findField_folded _ _ SongURLResponse_fields_NoDup).
  unfold SongURLResponse.fields. cbn [find fst snd].
  change (Json.foldName "code") with "CODE". change (Json.foldName "data") with "DATA".
  rewrite (String.eqb_sym "CODE"), (String.eqb_sym "DATA").
  destruct (String.eqb (Json.foldName k) "CODE"); [reflexivity|].
  destruct (String.eqb (Json.foldName k) "DATA"); reflexivity.
Qed.

Lemma decodeMembers_no_member (members : list (string * Json.value)) (r : SongURLResponse.t) :
  Forall (fun m => Json.foldName m.1 <> "CODE" /\ Json.foldName m.1 <> "DATA") members ->
  Json.decodeMembers SongURLResponse.fields SongURLResponse.store members r = Ok r.
Proof.
  induction 1 as [|[k x] members [Hc Hd] _ IH]; [reflexivity|].
  cbn [Json.decodeMembers fst] in *. rewrite findField_top.
  apply String.eqb_neq in Hc, Hd. rewrite Hc, Hd. cbn [bind]. exact IH.
Qed.

Lemma decodeElems_conflict (elems : list Json.value) (b : list Entry.t) :
  Exists (fun x => match x with Json.Null | Json.Object _ => False | _ => True end) elems ->
  exists e, Json.decodeElems Entry.zero Entry.decode elems b = Err e.
Proof.
  intros H. revert b. induction H as [x elems Hx|x elems _ IH]; intros b;
    cbn [Json.decodeElems].
  - destruct x; try contradiction; eexists; reflexivity.
  - destruct (Entry.decode x (hd Entry.zero b)) as [e0|e0]; cbn [bind];
      [|eexists; reflexivity].
    destruct (IH (tl b)) as [e He]. rewrite He. eexists. reflexivity.
Qed.

Lemma decodeMembers_conflict (members : list (string * Json.value)) (r : SongURLResponse.t) :
  Exists
    (fun m =>
       (Json.foldName m.1 = "CODE"
        /\ match m.2 with
           | Json.Null => False
           | Json.Number lit => is_ok (Strconv.ParseInt lit 64) = false
           | _ => True
           end)
       \/ (Json.foldName m.1 = "DATA"
           /\ match m.2 with
              | Json.Null => False
              | Json.Array elems =>
                  Exists (fun x => match x with
                                   | Json.Null | Json.Object _ => False
                                   | _ => True
                                   end) elems
              | _ => True
              end)) members ->
  exists e, Json.decodeMembers SongURLResponse.fields SongURLResponse.store members r = Err e.
Proof.
  intros H. revert r. induction H as [[k x] members Hm|[k x] members _ IH]; intros r;
    cbn [Json.decodeMembers fst snd] in *.
  - rewrite findField_top. destruct Hm as [[Hk Hx]|[Hk Hx]]; rewrite Hk.
    + change (String.eqb "CODE" "CODE") with true. cbv iota.
      cbn [SongURLResponse.store].
      destruct x; try contradiction; cbn [Json.decodeInt bind]; try (eexists; reflexivity).
      destruct (Strconv.ParseInt lit 64); [discriminate|]. eexists. reflexivity.
    + change (String.eqb "DATA" "CODE") with false.
      change (String.eqb "DATA" "DATA") with true. cbv iota.
      cbn [SongURLResponse.store].
      destruct x; try contradiction; cbn [Json.decodeSlice bind]; try (eexists; reflexivity).
      destruct elems as [|x0 elems]; [inversion Hx|].
      destruct (decodeElems_conflict (x0 :: elems)
                  (Json.backing (SongURLResponse.Data r)) Hx) as [e He].
      rewrite He. eexists. reflexivity.
  - destruct (match Json.findField SongURLResponse.fields k with
              | Some f => SongURLResponse.store f x r
              | None => Ok r
              end) as [cur|e]; cbn [bind]; [apply IH|eexists; reflexivity].
Qed.

(** ** Unmarshal: the entries of [data] *)

Lemma decodeElems_fresh {T : Type} (zero : T)
    (elem : Json.value -> T -> result Json.DecodeError T) (js : list Json.value) (es : list T) :
  Json.decodeElems zero elem js [] = Ok es <->
  Forall2 (fun j e => elem j zero = Ok e) js es.
Proof.
  revert es. induction js as [|j js IH]; intros es; cbn [Json.decodeElems hd tl].
  - split.
    + intros H. injection H as <-. constructor.
    + intros H. apply Forall2_nil_inv_l in H. subst es. reflexivity.
  - destruct (elem j zero) as [e|err] eqn:Ee; cbn [bind].
    + destruct (Json.decodeElems zero elem js []) as [r|err] eqn:Er; cbn [bind].
      * split.
        -- intros H. injection H as <-. constructor; [exact Ee|]. apply IH. reflexivity.
        -- intros H. apply Forall2_cons_inv_l in H as (e' & es' & He & Hes & ->).
           apply IH in Hes. congruence.
      * split; [discriminate|].
        intros H. apply Forall2_cons_inv_l in H as (e' & es' & He & Hes & ->).
        apply IH in Hes. discriminate.
    + split; [discriminate|].
      intros H. apply Forall2_cons_inv_l in H as (e' & es' & He & Hes & ->). congruence.
Qed.

(** Members that do not go to [Data] leave it as it is. *)
Lemma decodeMembers_keeps_Data (members : list (string * Json.value))
    (r r' : SongURLResponse.t) :
  Forall (fun p => Json.findField SongURLResponse.fields (fst p)
                   <> Some SongURLResponse.fData) members ->
  Json.decodeMembers SongURLResponse.fields SongURLResponse.store members r = Ok r' ->
  SongURLResponse.Data r' = SongURLResponse.Data r.
Proof.
  intros Hm. revert r. induction Hm as [|[k x] members Hk _ IH]; intros r.
  - cbn. intros H. injection H as <-. reflexivity.
  - cbn [Json.decodeMembers fst] in *.
    destruct (Json.findField SongURLResponse.fields k) as [[]|]; [|congruence|].
    + cbn [SongURLResponse.store].
      destruct (Json.decodeInt x (SongURLResponse.Code r)) as [n|]; cbn [bind]; [|discriminate].
      intros H. apply IH in H. exact H.
    + cbn [bind]. apply IH.
Qed.

(** Decoding a list of members one part after the other. *)
Lemma decodeMembers_app {F T : Type} (fields : list (string * F))
    (store : F -> Json.value -> T -> result Json.DecodeError T)
    (ms1 ms2 : list (string * Json.value)) (old res : T) :
  Json.decodeMembers fields store (ms1 ++ ms2)%list old = Ok res ->
  exists mid,
    Json.decodeMembers fields store ms1 old = Ok mid
    /\ Json.decodeMembers fields store ms2 mid = Ok res.
Proof.
  revert old. induction ms1 as [|[k x] ms1 IH]; intros old; cbn [app Json.decodeMembers].
  - intros H. exists old. split; [reflexivity|exact H].
  - destruct (match Json.findField fields k with
              | Some f => store f x old
              | None => Ok old
              end) as [cur|]; cbn [bind]; [apply IH|discriminate].
Qed.

(** The entries of a reply whose one [data] member is an array: each
    is its element decoded into the zero entry. *)
Lemma Unmarshal_data_decoded (body : string) (before after : list (string * Json.value))
    (elems : list Json.value) (r : SongURLResponse.t) :
  Json.parse body = Some (Json.Object (before ++ ("data", Json.Array elems) :: after)) ->
  Forall (fun m => Json.foldName m.1 <> "DATA") (before ++ after) ->
  SongURLResponse.Unmarshal body = Ok r ->
  Forall2 (fun x e => Entry.decode x Entry.zero = Ok e) elems
    (Json.elements (SongURLResponse.Data r)).
Proof.
  intros Hp Hm.
  assert (Hm' : Forall (fun p => Json.findField SongURLResponse.fields (fst p)
                                 <> Some SongURLResponse.fData) (before ++ after)).
  { eapply Forall_impl; [exact Hm|]. intros [k x] Hk. cbn [fst] in *.
    rewrite findField_top. apply String.eqb_neq in Hk. rewrite Hk.
    destruct (String.eqb (Json.foldName k) "CODE"); discriminate. }
  apply Forall_app in Hm' as [Hb Ha].
  unfold SongURLResponse.Unmarshal. rewrite Hp.
  cbn [SongURLResponse.decode Json.decodeStruct].
  intros H. apply decodeMembers_app in H as (mid & H1 & H2).
  apply (decodeMembers_keeps_Data _ _ _ Hb) in H1.
  cbn [SongURLResponse.zero SongURLResponse.Data] in H1.
  cbn [Json.decodeMembers] in H2.
  change (Json.findField SongURLResponse.fields "data") with (Some SongURLResponse.fData) in H2.
  cbn [SongURLResponse.store] in H2. rewrite H1 in H2.
  destruct (Json.decodeSlice Entry.zero Entry.decode (Json.Array elems) Json.SliceNil)
    as [sl|] eqn:Es; cbn [bind] in H2; [|discriminate].
  apply (decodeMembers_keeps_Data _ _ _ Ha) in H2. cbn [SongURLResponse.Data] in H2.
  rewrite H2. destruct elems as [|x elems].
  - injection Es as <-. constructor.
  - cbn [Json.decodeSlice Json.backing] in Es.
    destruct (Json.decodeElems Entry.zero Entry.decode (x :: elems) []) as [es|] eqn:Ees;
      cbn [bind] in Es; [|discriminate].
    injection Es as <-. apply decodeElems_fresh in Ees.
    cbn [Json.elements]. pose proof (Forall2_length _ _ _ Ees) as Hl. cbn [length] in Hl.
    rewrite Hl. change (take (length es) es) with (firstn (length es) es).
    rewrite firstn_all. exact Ees.
Qed.

(** ** The entries: what is written for what was received *)

(** Storing into one field leaves what is written for the others. *)
Lemma Entry_store_frame (f : Entry.field) (x : Json.value) (e e' : Entry.t) (name : string) :
  Entry.store f x e = Ok e' ->
  name ∈ ["id"; "url"; "br"; "size"; "md5"; "code"; "expi"; "type"; "gain"; "peak"; "fee";
          "uf"; "payed"; "flag"; "canExtend"; "freeTrialInfo"; "level"] ->
  Json.findField Entry.fields name <> Some f ->
  Json.member name (Entry.marshal e') = Json.member name (Entry.marshal e).
Proof.
  intros Hs Hin Hne.
  destruct f; store_inv Hs; declared_cases Hin;
    first [reflexivity | exfalso; apply Hne; reflexivity].
Qed.

(** Storing a value that is not [null] into a field: what is written
    for the field carries that value. *)
Lemma Entry_store_value (f : Entry.field) (x : Json.value) (e e' : Entry.t) (name : string) :
  Entry.store f x e = Ok e' ->
  x <> Json.Null ->
  name ∈ ["id"; "url"; "br"; "size"; "md5"; "code"; "expi"; "type"; "gain"; "peak"; "fee";
          "uf"; "payed"; "flag"; "canExtend"; "freeTrialInfo"; "level"] ->
  Json.findField Entry.fields name = Some f ->
  exists d, Json.member name (Entry.marshal e') = Some d /\ Json.sameValue x d.
Proof.
  intros Hs Hx Hin Hf.
  destruct f; declared_cases Hin; try (vm_compute in Hf; discriminate Hf);
    store_inv Hs;
    match goal with
    | E : Json.decodeInt ?x _ = Ok _ |- _ =>
        destruct x; try discriminate E; [contradiction|]; cbn [Json.decodeInt] in E;
        match type of E with
        | context [Strconv.ParseInt ?l 64] =>
            let P := fresh "P" in
            destruct (Strconv.ParseInt l 64) eqn:P; [|discriminate E];
            injection E as <-; eexists; split; [reflexivity|constructor; exact P]
        end
    | E : Json.decodeFloat64 ?x _ = Ok _ |- _ =>
        destruct x; try discriminate E; [contradiction|]; cbn [Json.decodeFloat64] in E;
        match type of E with
        | context [Strconv.ParseFloat ?l] =>
            let P := fresh "P" in
            destruct (Strconv.ParseFloat l) eqn:P; [|discriminate E];
            injection E as <-; eexists; split; [reflexivity|constructor; exact P]
        end
    | E : Json.decodeString ?x _ = Ok _ |- _ =>
        destruct x; try discriminate E; [contradiction|];
        injection E as <-; eexists; split; [reflexivity|constructor]
    | E : Json.decodeBool ?x _ = Ok _ |- _ =>
        destruct x; try discriminate E; [contradiction|];
        injection E as <-; eexists; split; [reflexivity|constructor]
    | E : Json.decodeInterface ?x _ = Ok _ |- _ =>
        eexists; split; [reflexivity|apply Json.same_interface; exact E]
    end.
Qed.

(** Storing [null] into a field that is written as in the zero entry
    leaves it so. *)
Lemma Entry_store_null (f : Entry.field) (e e' : Entry.t) (name : string) :
  Entry.store f Json.Null e = Ok e' ->
  name ∈ ["id"; "url"; "br"; "size"; "md5"; "code"; "expi"; "type"; "gain"; "peak"; "fee";
          "uf"; "payed"; "flag"; "canExtend"; "freeTrialInfo"; "level"] ->
  Json.findField Entry.fields name = Some f ->
  Json.member name (Entry.marshal e) = Json.member name (Entry.marshal Entry.zero) ->
  Json.member name (Entry.marshal e') = Json.member name (Entry.marshal Entry.zero).
Proof.
  intros Hs Hin Hf Hz.
  destruct f; declared_cases Hin; try (vm_compute in Hf; discriminate Hf);
    cbn [Entry.store Json.decodeInt Json.decodeFloat64 Json.decodeString Json.decodeBool
         Json.decodeInterface Json.valueInterface bind] in Hs;
    injection Hs as <-; first [exact Hz | reflexivity].
Qed.

Lemma declared_field (name : string) :
  name ∈ ["id"; "url"; "br"; "size"; "md5"; "code"; "expi"; "type"; "gain"; "peak"; "fee";
          "uf"; "payed"; "flag"; "canExtend"; "freeTrialInfo"; "level"] ->
  exists f, Json.findField Entry.fields name = Some f.
Proof. intros Hin. declared_cases Hin; eexists; reflexivity. Qed.

(** Two names that go to the same field fold to the same text. *)
Lemma findField_same_fold (name k : string) (f : Entry.field) :
  name ∈ ["id"; "url"; "br"; "size"; "md5"; "code"; "expi"; "type"; "gain"; "peak"; "fee";
          "uf"; "payed"; "flag"; "canExtend"; "freeTrialInfo"; "level"] ->
  Json.findField Entry.fields name = Some f ->
  Json.findField Entry.fields k = Some f ->
  Json.foldName k = Json.foldName name.
Proof.
  intros Hin Hn Hk. rewrite (findField_folded _ _ Entry_fields_NoDup) in Hk.
  destruct (find _ Entry.fields) as [p|] eqn:E; [|discriminate].
  injection Hk as Hp. apply find_some in E as [Hp_in He]. apply String.eqb_eq in He.
  rewrite <- He. clear He.
  unfold Entry.fields in Hp_in. cbn [In] in Hp_in.
  repeat (destruct Hp_in as [<-|Hp_in]); [..|destruct Hp_in];
    cbn [snd fst] in *; subst f; declared_cases Hin;
    first [reflexivity | vm_compute in Hn; discriminate Hn].
Qed.

Lemma Entry_field_eq_dec (f g : Entry.field) : {f = g} + {f <> g}.
Proof. decide equality. Qed.

(** Members that go to other fields leave what is written for [name]. *)
Lemma Entry_decodeMembers_frame (members : list (string * Json.value)) (old e : Entry.t)
    (name : string) (f : Entry.field) :
  name ∈ ["id"; "url"; "br"; "size"; "md5"; "code"; "expi"; "type"; "gain"; "peak"; "fee";
          "uf"; "payed"; "flag"; "canExtend"; "freeTrialInfo"; "level"] ->
  Json.findField Entry.fields name = Some f ->
  Forall (fun m => Json.findField Entry.fields m.1 <> Some f) members ->
  Json.decodeMembers Entry.fields Entry.store members old = Ok e ->
  Json.member name (Entry.marshal e) = Json.member name (Entry.marshal old).
Proof.
  intros Hin Hf Hm. revert old. induction Hm as [|[k x] members Hk _ IH]; intros old;
    cbn [Json.decodeMembers fst] in *.
  - intros H. injection H as <-. reflexivity.
  - destruct (Json.findField Entry.fields k) as [f0|].
    + destruct (Entry.store f0 x old) as [cur|] eqn:Es; cbn [bind]; [|discriminate].
      intros H. rewrite (IH _ H).
      apply (Entry_store_frame _ _ _ _ _ Es Hin). rewrite Hf. congruence.
    + cbn [bind]. apply IH.
Qed.

(** A member with a declared name and a value that is not [null], in an
    object whose names are distinct under folding: what is written for
    the name carries the value. *)
Lemma Entry_decodeMembers_value (members : list (string * Json.value)) (old e : Entry.t)
    (name : string) (v : Json.value) :
  name ∈ ["id"; "url"; "br"; "size"; "md5"; "code"; "expi"; "type"; "gain"; "peak"; "fee";
          "uf"; "payed"; "flag"; "canExtend"; "freeTrialInfo"; "level"] ->
  NoDup (map (fun m => Json.foldName m.1) members) ->
  (name, v) ∈ members ->
  v <> Json.Null ->
  Json.decodeMembers Entry.fields Entry.store members old = Ok e ->
  exists d, Json.member name (Entry.marshal e) = Some d /\ Json.sameValue v d.
Proof.
  intros Hin Hnd Hmem Hv. destruct (declared_field _ Hin) as [f Hf].
  revert old. induction members as [|[k x] members IH]; intros old;
    [apply elem_of_nil in Hmem; destruct Hmem|].
  cbn [map fst] in Hnd. apply NoDup_cons in Hnd as [Hk Hnd].
  cbn [Json.decodeMembers].
  apply elem_of_cons in Hmem as [Heq|Hmem].
  - injection Heq as <- <-. rewrite Hf.
    destruct (Entry.store f v old) as [cur|] eqn:Es; cbn [bind]; [|discriminate].
    intros H.
    destruct (Entry_store_value _ _ _ _ _ Es Hv Hin Hf) as (d & Hd & Hs).
    exists d. split; [|exact Hs]. rewrite <- Hd.
    apply (Entry_decodeMembers_frame members cur e name f Hin Hf); [|exact H].
    apply Forall_forall. intros [k' x'] Hin' Hk'. apply Hk.
    rewrite <- (findField_same_fold _ _ _ Hin Hf Hk').
    apply list_elem_of_In.
    apply (in_map (fun m : string * Json.value => Json.foldName m.1) _ (k', x')).
    apply list_elem_of_In. exact Hin'.
  - destruct (match Json.findField Entry.fields k with
              | Some f0 => Entry.store f0 x old
              | None => Ok old
              end) as [cur|]; cbn [bind]; [|discriminate].
    apply (IH Hnd Hmem).
Qed.

(** A declared name that the object has not, or has with [null] only:
    what is written for it is what is written in the zero entry. *)
Lemma Entry_decodeMembers_absent (members : list (string * Json.value)) (old e : Entry.t)
    (name : string) :
  name ∈ ["id"; "url"; "br"; "size"; "md5"; "code"; "expi"; "type"; "gain"; "peak"; "fee";
          "uf"; "payed"; "flag"; "canExtend"; "freeTrialInfo"; "level"] ->
  (forall k v, (k, v) ∈ members -> Json.foldName k = Json.foldName name -> v = Json.Null) ->
  Json.member name (Entry.marshal old) = Json.member name (Entry.marshal Entry.zero) ->
  Json.decodeMembers Entry.fields Entry.store members old = Ok e ->
  Json.member name (Entry.marshal e) = Json.member name (Entry.marshal Entry.zero).
Proof.
  intros Hin. destruct (declared_field _ Hin) as [f Hf].
  revert old. induction members as [|[k x] members IH]; intros old Hnull Hold;
    cbn [Json.decodeMembers].
  - intros H. injection H as <-. exact Hold.
  - assert (Hrest : forall k0 v, (k0, v) ∈ members ->
                      Json.foldName k0 = Json.foldName name -> v = Json.Null)
      by (intros k0 v H0; apply Hnull, elem_of_cons; right; exact H0).
    destruct (Json.findField Entry.fields k) as [f0|] eqn:Ek.
    + destruct (Entry.store f0 x old) as [cur|] eqn:Es; cbn [bind]; [|discriminate].
      apply (IH _ Hrest).
      destruct (Entry_field_eq_dec f0 f) as [->|Hne].
      * assert (Hx : x = Json.Null).
        { apply (Hnull k x); [apply elem_of_cons; left; reflexivity|].
          exact (findField_same_fold _ _ _ Hin Hf Ek). }
        subst x. exact (Entry_store_null _ _ _ _ Es Hin Hf Hold).
      * rewrite <- Hold. apply (Entry_store_frame _ _ _ _ _ Es Hin).
        rewrite Hf. congruence.
    + cbn [bind]. apply (IH _ Hrest Hold).
Qed.

Lemma Entry_relayed (x : Json.value) (e : Entry.t) :
  Entry.decode x Entry.zero = Ok e ->
  match x with
  | Json.Object members =>
      NoDup (map (fun m => Json.foldName m.1) members) ->
      forall name,
        name ∈ ["id"; "url"; "br"; "size"; "md5"; "code"; "expi"; "type"; "gain"; "peak";
                "fee"; "uf"; "payed"; "flag"; "canExtend"; "freeTrialInfo"; "level"] ->
        (forall v, (name, v) ∈ members -> v <> Json.Null ->
           exists d, Json.member name (Entry.marshal e) = Some d /\ Json.sameValue v d)
        /\ ((forall k v, (k, v) ∈ members -> Json.foldName k = Json.foldName name ->
               v = Json.Null) ->
            Json.member name (Entry.marshal e)
            = Json.member name (Entry.marshal Entry.zero))
  | _ => e = Entry.zero
  end.
Proof.
  unfold Entry.decode, Json.decodeStruct. destruct x; try discriminate.
  - intros H. injection H as <-. reflexivity.
  - intros Hd Hnd name Hin. split.
    + intros v Hmem Hv. exact (Entry_decodeMembers_value _ _ _ _ _ Hin Hnd Hmem Hv Hd).
    + intros Hnull. exact (Entry_decodeMembers_absent _ _ _ _ Hin Hnull eq_refl Hd).
Qed.

(** ** net/url: the encoded query *)

(** The digits and the minus sign are written as they are. *)
Lemma QueryEscape_digit (m : Z) (s : string) :
  0 <= m < 10 ->
  Url.QueryEscape (String (chr (48 + m)) s) = String (chr (48 + m)) (Url.QueryEscape s).
Proof.
  intros Hm. destruct (digit_char _ Hm) as [Hd Hb].
  cbn [Url.QueryEscape]. rewrite Hb.
  destruct (48 + m =? 32) eqn:E; [apply Z.eqb_eq in E; lia|].
  unfold Url.shouldEscape, Url.is_alnum. rewrite Hd, orb_true_r. reflexivity.
Qed.

Lemma QueryEscape_formatBits (fuel : nat) (u : Z) (acc : string) :
  Url.QueryEscape (Strconv.formatBits fuel u acc)
  = Strconv.formatBits fuel u (Url.QueryEscape acc).
Proof.
  revert u acc. induction fuel as [|fuel IH]; intros u acc; [reflexivity|].
  cbn [Strconv.formatBits].
  assert (Hm : 0 <= u mod 10 < 10) by (apply Z.mod_pos_bound; lia).
  destruct (u <? 10).
  - apply QueryEscape_digit. exact Hm.
  - rewrite IH, QueryEscape_digit by exact Hm. reflexivity.
Qed.

Lemma QueryEscape_FormatInt (i : Z) : Url.QueryEscape (Strconv.FormatInt i) = Strconv.FormatInt i.
Proof.
  unfold Strconv.FormatInt. destruct (i <? 0).
  - change (Url.QueryEscape (String (chr 45) ?s)) with (String (chr 45) (Url.QueryEscape s)).
    rewrite QueryEscape_formatBits. reflexivity.
  - rewrite QueryEscape_formatBits. reflexivity.
Qed.

Lemma QueryEscape_cons (c : ascii) (rest : string) :
  Url.QueryEscape (String c rest) = Url.QueryEscape (str1 c) +:+ Url.QueryEscape rest.
Proof. destruct c as [[] [] [] [] [] [] [] []]; reflexivity. Qed.

Lemma QueryUnescape_char (c : ascii) (t : string) :
  Url.QueryUnescape (Url.QueryEscape (str1 c) +:+ t)
  = bind (Url.QueryUnescape t) (fun r => Ok (String c r)).
Proof. destruct c as [[] [] [] [] [] [] [] []]; reflexivity. Qed.

(** What [QueryEscape] writes is read back by [QueryUnescape]. *)
Lemma QueryUnescape_QueryEscape (s : string) : Url.QueryUnescape (Url.QueryEscape s) = Ok s.
Proof.
  induction s as [|c rest IH]; [reflexivity|].
  rewrite QueryEscape_cons, QueryUnescape_char, IH. reflexivity.
Qed.

Lemma append_assoc (s1 s2 s3 : string) : (s1 +:+ s2) +:+ s3 = s1 +:+ (s2 +:+ s3).
Proof.
  induction s1 as [|c s1 IH]; [reflexivity|].
  change (String c ((s1 +:+ s2) +:+ s3) = String c (s1 +:+ (s2 +:+ s3))).
  rewrite IH. reflexivity.
Qed.
Lemma slen_cons (c : ascii) (s : string) : (0 <? slen (String c s)) = true.
Proof. unfold slen. cbn [String.length]. apply Z.ltb_lt. lia. Qed.

Lemma encode_first (k x : string) :
  foldl
    (fun buf x =>
       (if 0 <? slen buf then buf +:+ "&" else buf)
       +:+ Url.QueryEscape k +:+ "=" +:+ Url.QueryEscape x)
    EmptyString [x]
  = Url.QueryEscape k +:+ "=" +:+ Url.QueryEscape x.
Proof. reflexivity. Qed.

Lemma encode_next (k x buf : string) :
  (0 <? slen buf) = true ->
  foldl
    (fun buf x =>
       (if 0 <? slen buf then buf +:+ "&" else buf)
       +:+ Url.QueryEscape k +:+ "=" +:+ Url.QueryEscape x)
    buf [x]
  = buf +:+ "&" +:+ Url.QueryEscape k +:+ "=" +:+ Url.QueryEscape x.
Proof. intros H. cbn [foldl]. rewrite H. apply append_assoc. Qed.

(** The query string of the upstream request. *)
Lemma Encode_buildParams (config : Config) (n : Z) (level realIP : string) (timestamp : Z) :
  Url.Encode (buildParams config n level realIP timestamp)
  = "cookie=" +:+ Url.QueryEscape (Cookie config)
    +:+ "&id=" +:+ Strconv.Itoa n
    +:+ "&level=" +:+ Url.QueryEscape level
    +:+ "&realIP=" +:+ Url.QueryEscape realIP
    +:+ "&timestamp=" +:+ Strconv.FormatInt timestamp.
Proof.
  rewrite <- (QueryEscape_FormatInt timestamp).
  unfold Strconv.Itoa. rewrite <- (QueryEscape_FormatInt n).
  unfold buildParams, Strconv.Itoa.
  generalize (Strconv.FormatInt n) (Strconv.FormatInt timestamp) (Cookie config).
  intros a c d. unfold Url.Encode.
  set (m := Url.Add "realIP" realIP _).
  assert (Hk : Url.sortedKeys m = ["cookie"; "id"; "level"; "realIP"; "timestamp"])
    by (vm_compute; reflexivity).
  assert (H1 : m !! "cookie" = Some [d]) by (vm_compute; reflexivity).
  assert (H2 : m !! "id" = Some [a]) by (vm_compute; reflexivity).
  assert (H3 : m !! "level" = Some [level]) by (vm_compute; reflexivity).
  assert (H4 : m !! "realIP" = Some [realIP]) by (vm_compute; reflexivity).
  assert (H5 : m !! "timestamp" = Some [c]) by (vm_compute; reflexivity).
  rewrite Hk. cbn [foldl]. rewrite H1, H2, H3, H4, H5.
  change (default [] (Some [a])) with [a]; change (default [] (Some [level])) with [level];
  change (default [] (Some [c])) with [c]; change (default [] (Some [d])) with [d];
  change (default [] (Some [realIP])) with [realIP].
  rewrite encode_first.
  rewrite encode_next by reflexivity.
  rewrite encode_next by reflexivity.
  rewrite encode_next by reflexivity.
  rewrite encode_next by reflexivity.
  rewrite !append_assoc. reflexivity.
Qed.

Lemma buildParams_lookup (config : Config) (n : Z) (level realIP : string) (timestamp : Z) :
  let params := buildParams config n level realIP timestamp in
  params !! "id" = Some [Strconv.Itoa n]
  /\ params !! "level" = Some [level]
  /\ params !! "timestamp" = Some [Strconv.FormatInt timestamp]
  /\ params !! "cookie" = Some [Cookie config]
  /\ params !! "realIP" = Some [realIP]
  /\ dom params = {["id"; "level"; "timestamp"; "cookie"; "realIP"]}.
Proof.
  cbv zeta. unfold buildParams.
  generalize (Strconv.Itoa n) (Strconv.FormatInt timestamp) (Cookie config). intros a c d.
  repeat split; vm_compute; reflexivity.
Qed.

(** ** Configuration *)

Lemma getEnvOrDefault_spec (env : Os.Env) (key d : string) :
  getEnvOrDefault env key d
  = if String.eqb (Os.Getenv env key) EmptyString then d else Os.Getenv env key.
Proof. unfold getEnvOrDefault. destruct (String.eqb _ _); reflexivity. Qed.

Lemma getEnvOrDefault_ext (env1 env2 : Os.Env) (key d : string) :
  Os.Getenv env1 key = Os.Getenv env2 key ->
  getEnvOrDefault env1 key d = getEnvOrDefault env2 key d.
Proof. intros H. unfold getEnvOrDefault. rewrite H. reflexivity. Qed.

Lemma loadConfig_ext (env1 env2 : Os.Env) :
  (forall key, Os.Getenv env1 key = Os.Getenv env2 key) ->
  loadConfig env1 = loadConfig env2.
Proof.
  intros H. unfold loadConfig.
  rewrite (getEnvOrDefault_ext env1 env2 "PORT"), (getEnvOrDefault_ext env1 env2 "NETEASE_COOKIE"),
    (getEnvOrDefault_ext env1 env2 "REAL_IP"), (getEnvOrDefault_ext env1 env2 "LEVEL"),
    (getEnvOrDefault_ext env1 env2 "NETEASE_MUSIC_API") by apply H.
  reflexivity.
Qed.

(** A variable of the environment keeps its value through
    [godotenv.Load], whatever the file holds. *)
Lemma Load_keeps (dotenv : option Os.Env) (env : Os.Env) (key v : string) :
  env !! key = Some v -> (Godotenv.Load dotenv env).1 !! key = Some v.
Proof.
  intros H. destruct dotenv as [vars|]; cbn; [|exact H].
  apply lookup_union_Some_l. exact H.
Qed.

(** A variable that neither the environment nor the file has stays
    unset. *)
Lemma Load_unset (dotenv : option Os.Env) (env : Os.Env) (key : string) :
  env !! key = None ->
  match dotenv with Some vars => vars !! key = None | None => True end ->
  (Godotenv.Load dotenv env).1 !! key = None.
Proof.
  intros H Hd. destruct dotenv as [vars|]; cbn; [|exact H].
  apply lookup_union_None. split; assumption.
Qed.

Lemma init_spec (dotenv : option Os.Env) (env : Os.Env) :
  (init dotenv env).2
  = if String.eqb (Os.Getenv (Godotenv.Load dotenv env).1 "NETEASE_COOKIE") EmptyString
    then Fatal
    else Loaded (loadConfig (Godotenv.Load dotenv env).1).
Proof.
  unfold init. destruct (Godotenv.Load dotenv env) as [env' loaded]. cbn [fst].
  unfold checkConfig.
  replace (Cookie (loadConfig env')) with (Os.Getenv env' "NETEASE_COOKIE").
  - destruct (String.eqb _ _); reflexivity.
  - cbn [loadConfig Cookie]. rewrite getEnvOrDefault_spec.
    destruct (String.eqb _ _) eqn:E; [|reflexivity].
    apply String.eqb_eq in E. exact E.
Qed.

Lemma init_fatal_events (dotenv : option Os.Env) (env : Os.Env) :
  (init dotenv env).2 = Fatal ->
  (forall addr, Listen addr ∉ (init dotenv env).1)
  /\ last (init dotenv env).1 = Some (Exit 1).
Proof.
  unfold init. destruct (Godotenv.Load dotenv env) as [env' loaded].
  unfold checkConfig. destruct (String.eqb _ _); [|discriminate].
  intros _. cbn [fst snd]. destruct loaded; cbn.
  - split; [|reflexivity]. intros addr H.
    repeat (apply elem_of_cons in H as [H|H]; [discriminate|]).
    apply elem_of_nil in H. exact H.
  - split; [|reflexivity]. intros addr H.
    repeat (apply elem_of_cons in H as [H|H]; [discriminate|]).
    apply elem_of_nil in H. exact H.
Qed.

Lemma Getenv_insert_empty (env : Os.Env) (key k : string) :
  Os.Getenv (<[key := EmptyString]> env) k = Os.Getenv (delete key env) k.
Proof.
  unfold Os.Getenv. destruct (decide (key = k)) as [->|Hne].
  - rewrite lookup_insert_eq, lookup_delete_eq. reflexivity.
  - rewrite lookup_insert_ne, lookup_delete_ne by exact Hne. reflexivity.
Qed.

Lemma Getenv_Load_empty (dotenv : option Os.Env) (env : Os.Env) (key : string) :
  Os.Getenv (Godotenv.Load dotenv (<[key := EmptyString]> env)).1 key = EmptyString.
Proof.
  unfold Os.Getenv.
  rewrite (Load_keeps dotenv _ key EmptyString); [reflexivity|apply lookup_insert_eq].
Qed.

Lemma getEnvOrDefault_empty (env : Os.Env) (key d : string) :
  Os.Getenv env key = EmptyString -> getEnvOrDefault env key d = d.
Proof. intros H. rewrite getEnvOrDefault_spec, H. reflexivity. Qed.

Lemma run_fatal (dotenv : option Os.Env) (env : Os.Env) (bind : string -> option string) :
  Os.Getenv (Godotenv.Load dotenv env).1 "NETEASE_COOKIE" = EmptyString ->
  (run dotenv env bind).2 = Exited 1.
Proof.
  intros Hc.
  assert (Hf : (init dotenv env).2 = Fatal) by (rewrite init_spec, Hc; reflexivity).
  unfold run. destruct (init dotenv env) as [events r]. cbn in Hf. subst r. reflexivity.
Qed.

(** C7.  When the cookie is empty after the environment and the [.env]
    file have been read (as it is when neither sets [NETEASE_COOKIE]),
    the process ends with exit status 1: its last event is the exit, no
    listener has been bound, and no request is ever handled.  When the
    cookie is not empty, [init] leaves the settings read from [PORT],
    [NETEASE_COOKIE], [REAL_IP], [LEVEL] and [NETEASE_MUSIC_API], each
    replaced by its default ("8080", none, "116.25.146.177", "exhigh",
    "https://example.com") when it is empty or unset. *)
Theorem startup (dotenv : option Os.Env) (env : Os.Env) (bind : string -> option string) :
  let env' := (Godotenv.Load dotenv env).1 in
  (Os.Getenv env' "NETEASE_COOKIE" = EmptyString ->
   (run dotenv env bind).2 = Exited 1
   /\ (forall addr, Listen addr ∉ (run dotenv env bind).1)
   /\ last (run dotenv env bind).1 = Some (Exit 1)
   /\ (forall w c, serveSong (run dotenv env bind).2 w c = None)
   /\ (forall now, serveHealth (run dotenv env bind).2 now = None))
  /\ (Os.Getenv env' "NETEASE_COOKIE" <> EmptyString ->
      let setting key d :=
        if String.eqb (Os.Getenv env' key) EmptyString then d else Os.Getenv env' key in
      (init dotenv env).2
      = Loaded
          {| Port := setting "PORT" "8080";
             Cookie := Os.Getenv env' "NETEASE_COOKIE";
             RealIP := setting "REAL_IP" "116.25.146.177";
             Level := setting "LEVEL" "exhigh";
             NeteaseMusicAPI := setting "NETEASE_MUSIC_API" "https://example.com" |})
  /\ (env !! "NETEASE_COOKIE" = None ->
      match dotenv with Some vars => vars !! "NETEASE_COOKIE" = None | None => True end ->
      Os.Getenv env' "NETEASE_COOKIE" = EmptyString).
Proof.
  cbv zeta. split; [|split]; [| |intros He Hd; unfold Os.Getenv;
                                rewrite (Load_unset _ _ _ He Hd); reflexivity].
  - intros Hc.
    assert (Hf : (init dotenv env).2 = Fatal).
    { rewrite init_spec, Hc. reflexivity. }
    destruct (init_fatal_events dotenv env Hf) as [Hl Hlast].
    unfold run. destruct (init dotenv env) as [events r]. cbn [fst snd] in *. subst r.
    cbn [fst snd]. repeat split; assumption.
  - intros Hc. rewrite init_spec.
    destruct (String.eqb _ _) eqn:E.
    + apply String.eqb_eq in E. contradiction.
    + unfold loadConfig. rewrite !getEnvOrDefault_spec, E. reflexivity.
Qed.

Lemma startup_witness :
  (run (Some {["PORT" := "9000"]}) {["LEVEL" := "hires"]} (fun _ => None)).2 = Exited 1
  /\ (init None {["NETEASE_COOKIE" := "MUSIC_U=abc"; "LEVEL" := "hires"]}).2
     = Loaded (mkConfig "8080" "MUSIC_U=abc" "116.25.146.177" "hires" "https://example.com").
Proof.
  split.
  - apply (proj1 (startup (Some {["PORT" := "9000"]}) {["LEVEL" := "hires"]} (fun _ => None))).
    vm_compute. reflexivity.
  - assert (H := proj1 (proj2 (startup None
                                 {["NETEASE_COOKIE" := "MUSIC_U=abc"; "LEVEL" := "hires"]}
                                 (fun _ => None)))).
    cbv zeta in H. rewrite H.
    + vm_compute. reflexivity.
    + vm_compute. discriminate.
Defined.

(** As long as the [.env] file does not define the variable, the whole of
    [init] cannot tell a variable that is set to the empty string from
    one that is not set. *)
Lemma init_empty_variable (dotenv : option Os.Env) (env : Os.Env) (key : string) :
  match dotenv with Some vars => vars !! key = None | None => True end ->
  init dotenv (<[key := EmptyString]> env) = init dotenv (delete key env).
Proof.
  intros Hd. unfold init.
  assert (Hc : loadConfig (Godotenv.Load dotenv (<[key := EmptyString]> env)).1
               = loadConfig (Godotenv.Load dotenv (delete key env)).1).
  { apply loadConfig_ext. intros k. destruct dotenv as [vars|]; cbn.
    - unfold Os.Getenv. destruct (decide (key = k)) as [->|Hne].
      + rewrite (lookup_union_Some_l _ _ _ EmptyString) by apply lookup_insert_eq.
        assert (Hn : (delete k env ∪ vars) !! k = None).
        { apply lookup_union_None. split; [apply lookup_delete_eq|exact Hd]. }
        rewrite Hn. reflexivity.
      + rewrite !lookup_union, lookup_insert_ne, lookup_delete_ne by exact Hne. reflexivity.
    - apply Getenv_insert_empty. }
  destruct dotenv as [vars|]; cbn [Godotenv.Load fst] in *; rewrite Hc; reflexivity.
Qed.

(** C9, as stated, fails for configuration loading as a whole.  [init]
    runs [godotenv.Load] before its lookups, and [Load] sets a variable
    of the [.env] file only if the environment does not have it: a
    variable that is set to the empty string keeps the file out, an
    unset one lets it in.  With [PORT=9000] and [NETEASE_COOKIE=abc] in
    the file, an empty [PORT] gives "8080" and an unset one "9000"; an
    empty [NETEASE_COOKIE] ends the process and an unset one lets it
    serve. *)
Lemma empty_variable_counterexample :
  let dotenv : option Os.Env :=
    Some (<["PORT" := "9000"]> (<["NETEASE_COOKIE" := "abc"]> ∅)) in
  let bind : string -> option string := fun _ => None in
  Port (loadConfig (Godotenv.Load dotenv (<["PORT" := EmptyString]> ∅)).1) = "8080"
  /\ Port (loadConfig (Godotenv.Load dotenv ∅).1) = "9000"
  /\ (run dotenv (<["NETEASE_COOKIE" := EmptyString]> ∅) bind).2 = Exited 1
  /\ (run dotenv ∅ bind).2
     = Serving ":9000" (mkConfig "9000" "abc" "116.25.146.177" "exhigh" "https://example.com").
Proof. vm_compute. repeat split; reflexivity. Qed.

(** C9, amended.  When there is no [.env] file, or the file does not
    give [key] a value that is not empty, [init] and the whole program
    do the same in an environment where [key] is set to the empty string
    as in one where it is not set.  Whatever the file says, a variable
    that is set to the empty string gives the default of its setting
    ("8080" for [PORT], "116.25.146.177" for [REAL_IP], "exhigh" for
    [LEVEL], "https://example.com" for [NETEASE_MUSIC_API]) and an empty
    [NETEASE_COOKIE] ends the process with exit status 1.  When the file
    does give [key] a value that is not empty, the variable that is not
    set takes that value, while the one that is set to the empty string
    still gives the default. *)
Theorem empty_variable_is_unset (dotenv : option Os.Env) (env : Os.Env)
    (bind : string -> option string) (key : string) :
  match dotenv with Some vars => Os.Getenv vars key = EmptyString | None => True end ->
  init dotenv (<[key := EmptyString]> env) = init dotenv (delete key env)
  /\ run dotenv (<[key := EmptyString]> env) bind = run dotenv (delete key env) bind
  /\ (forall d,
        getEnvOrDefault (Godotenv.Load dotenv (<[key := EmptyString]> env)).1 key d = d
        /\ getEnvOrDefault (Godotenv.Load dotenv (delete key env)).1 key d = d)
  /\ (forall (file : option Os.Env),
        Port (loadConfig (Godotenv.Load file (<["PORT" := EmptyString]> env)).1) = "8080"
        /\ RealIP (loadConfig (Godotenv.Load file (<["REAL_IP" := EmptyString]> env)).1)
           = "116.25.146.177"
        /\ Level (loadConfig (Godotenv.Load file (<["LEVEL" := EmptyString]> env)).1)
           = "exhigh"
        /\ NeteaseMusicAPI
             (loadConfig (Godotenv.Load file (<["NETEASE_MUSIC_API" := EmptyString]> env)).1)
           = "https://example.com"
        /\ (run file (<["NETEASE_COOKIE" := EmptyString]> env) bind).2 = Exited 1
        /\ (run None (delete "NETEASE_COOKIE" env) bind).2 = Exited 1)
  /\ (forall (vars : Os.Env) (v d : string),
        vars !! key = Some v -> v <> EmptyString ->
        getEnvOrDefault (Godotenv.Load (Some vars) (delete key env)).1 key d = v
        /\ getEnvOrDefault (Godotenv.Load (Some vars) (<[key := EmptyString]> env)).1 key d
           = d).
Proof.
  intros Hfile.
  assert (Hget : forall k,
             Os.Getenv (Godotenv.Load dotenv (<[key := EmptyString]> env)).1 k
             = Os.Getenv (Godotenv.Load dotenv (delete key env)).1 k).
  { intros k. destruct dotenv as [vars|]; cbn [Godotenv.Load fst].
    - unfold Os.Getenv in *. rewrite !lookup_union.
      destruct (decide (key = k)) as [<-|Hne].
      + rewrite lookup_insert_eq, lookup_delete_eq.
        destruct (vars !! key) as [v|]; cbn in *; [rewrite Hfile|]; reflexivity.
      + rewrite lookup_insert_ne, lookup_delete_ne by exact Hne. reflexivity.
    - apply Getenv_insert_empty. }
  assert (Hload : loadConfig (Godotenv.Load dotenv (<[key := EmptyString]> env)).1
                  = loadConfig (Godotenv.Load dotenv (delete key env)).1)
    by (apply loadConfig_ext; exact Hget).
  assert (Hinit : init dotenv (<[key := EmptyString]> env) = init dotenv (delete key env)).
  { unfold init. destruct dotenv as [vars|]; cbn [Godotenv.Load fst] in *; rewrite Hload;
      reflexivity. }
  split; [exact Hinit|]. split; [unfold run; rewrite Hinit; reflexivity|].
  split.
  { intros d.
    assert (He : getEnvOrDefault (Godotenv.Load dotenv (<[key := EmptyString]> env)).1 key d
                 = d) by apply getEnvOrDefault_empty, Getenv_Load_empty.
    split; [exact He|]. rewrite <- He at 2. symmetry. apply getEnvOrDefault_ext, Hget. }
  split.
  { intros file. repeat split.
    - apply getEnvOrDefault_empty, Getenv_Load_empty.
    - apply getEnvOrDefault_empty, Getenv_Load_empty.
    - apply getEnvOrDefault_empty, Getenv_Load_empty.
    - apply getEnvOrDefault_empty, Getenv_Load_empty.
    - apply run_fatal, Getenv_Load_empty.
    - apply run_fatal. cbn. unfold Os.Getenv. rewrite lookup_delete_eq. reflexivity. }
  intros vars v d Hv Hne. split.
  - rewrite getEnvOrDefault_spec. cbn [Godotenv.Load fst]. unfold Os.Getenv.
    rewrite lookup_union, lookup_delete_eq, Hv. cbn.
    destruct (String.eqb v EmptyString) eqn:E; [|reflexivity].
    apply String.eqb_eq in E. contradiction.
  - apply getEnvOrDefault_empty, Getenv_Load_empty.
Qed.

Lemma empty_variable_is_unset_witness :
  init (Some (<["PORT" := "9000"]> ∅))
    (<["LEVEL" := EmptyString]> (<["NETEASE_COOKIE" := "abc"]> ∅))
  = init (Some (<["PORT" := "9000"]> ∅))
      (delete "LEVEL" (<["NETEASE_COOKIE" := "abc"]> ∅)).
Proof.
  assert (H := empty_variable_is_unset (Some (<["PORT" := "9000"]> ∅))
                 (<["NETEASE_COOKIE" := "abc"]> ∅) (fun _ => None) "LEVEL").
  destruct H as [H _].
  - vm_compute. reflexivity.
  - exact H.
Defined.

(** ** The handler of [/health] *)

(** C8, as stated, fails.  The timestamp is the clock in whole seconds:
    two successive calls within one second of the clock, the second
    half a second after the first here, carry the same timestamp. *)
Lemma health_timestamp_counterexample :
  let first := Time.mk 1700000000 100000000 in
  let second := Time.mk 1700000000 600000000 in
  Time.lt first second
  /\ Json.member "timestamp" (Gin.body (health first)) = Some (Json.DInt 1700000000)
  /\ Json.member "timestamp" (Gin.body (health second)) = Some (Json.DInt 1700000000)
  /\ ~ (1700000000 < 1700000000).
Proof.
  cbv zeta. split; [right; cbn; lia|].
  split; [vm_compute; reflexivity|]. split; [vm_compute; reflexivity|]. lia.
Qed.

(** C8, amended.  Every call of the health handler answers 200 with
    status "ok", service "PublicMusicService", version "1.0.0" and the
    seconds of the clock as timestamp.  Of two successive calls, with a
    clock that does not run backwards, the second never has the smaller
    timestamp, and it has the greater one exactly when the clock has
    moved on to a later second. *)
Theorem health_timestamp (first second : Time.t) :
  Gin.status (health first) = 200
  /\ Gin.body (health first)
     = Json.DObject
         [("service", Json.DString "PublicMusicService");
          ("status", Json.DString "ok");
          ("timestamp", Json.DInt (Time.Unix first));
          ("version", Json.DString "1.0.0")]
  /\ (Time.le first second ->
      exists n1 n2,
        Json.member "timestamp" (Gin.body (health first)) = Some (Json.DInt n1)
        /\ Json.member "timestamp" (Gin.body (health second)) = Some (Json.DInt n2)
        /\ n1 <= n2
        /\ (n1 < n2 <-> Time.sec first < Time.sec second)).
Proof.
  split; [reflexivity|]. split; [reflexivity|].
  intros Hle. exists (Time.Unix first), (Time.Unix second).
  split; [reflexivity|]. split; [reflexivity|].
  unfold Time.Unix. destruct Hle as [H|[H _]]; lia.
Qed.

Lemma health_timestamp_witness :
  exists n1 n2,
    Json.member "timestamp" (Gin.body (health (Time.mk 1700000000 900000000)))
    = Some (Json.DInt n1)
    /\ Json.member "timestamp" (Gin.body (health (Time.mk 1700000001 100000000)))
       = Some (Json.DInt n2)
    /\ n1 <= n2
    /\ (n1 < n2 <-> 1700000000 < 1700000001).
Proof.
  apply (proj2 (proj2 (health_timestamp (Time.mk 1700000000 900000000)
                         (Time.mk 1700000001 100000000)))).
  left. cbn. lia.
Defined.

(** ** The handler on a sample call *)

Example getSongURL_sample_request :
  requests (getSongURL sampleConfig (sampleWorld 200 sampleBody)
              (sampleContext [("id", ["+0042"]); ("level", ["lossless"])]))
  = ["https://example.com/song/url/v1?cookie=MUSIC_U%3Dabc%3B+os%3Dpc&id=42"
     +:+ "&level=lossless&realIP=116.25.146.177&timestamp=1700000000123"].
Proof. vm_compute. reflexivity. Qed.

Example getSongURL_sample_response :
  response (getSongURL sampleConfig (sampleWorld 200 sampleBody)
              (sampleContext [("id", ["42"])]))
  = Gin.JSON 200
      (Json.DObject
         [("code", Json.DInt 200);
          ("data", Json.DArray [Entry.marshal sampleEntry])]).
Proof. vm_compute. reflexivity. Qed.

Example health_sample :
  health (Time.mk 1700000000 5)
  = Gin.JSON 200
      (Json.DObject
         [("service", Json.DString "PublicMusicService");
          ("status", Json.DString "ok");
          ("timestamp", Json.DInt 1700000000);
          ("version", Json.DString "1.0.0")]).
Proof. vm_compute. reflexivity. Qed.

(** ** The handler of [/song]: control flow *)

Lemma Query_absent (c : Gin.Context) (key : string) :
  Gin.queryCache c !! key = None -> Gin.Query c key = EmptyString.
Proof. intros H. unfold Gin.Query, Gin.GetQuery. rewrite H. reflexivity. Qed.

Lemma Query_present (c : Gin.Context) (key v : string) (vs : list string) :
  Gin.queryCache c !! key = Some (v :: vs) -> Gin.Query c key = v.
Proof. intros H. unfold Gin.Query, Gin.GetQuery. rewrite H. reflexivity. Qed.

Lemma DefaultQuery_spec (c : Gin.Context) (key d : string) :
  Gin.DefaultQuery c key d
  = match Gin.queryCache c !! key with Some (v :: _) => v | _ => d end.
Proof.
  unfold Gin.DefaultQuery, Gin.GetQuery.
  destruct (Gin.queryCache c !! key) as [[|v vs]|]; reflexivity.
Qed.

Lemma DefaultQuery_absent (c : Gin.Context) (key d : string) :
  Gin.queryCache c !! key = None -> Gin.DefaultQuery c key d = d.
Proof. intros H. unfold Gin.DefaultQuery, Gin.GetQuery. rewrite H. reflexivity. Qed.

Lemma DefaultQuery_present (c : Gin.Context) (key d v : string) (vs : list string) :
  Gin.queryCache c !! key = Some (v :: vs) -> Gin.DefaultQuery c key d = v.
Proof. intros H. unfold Gin.DefaultQuery, Gin.GetQuery. rewrite H. reflexivity. Qed.

(** The URL that a call with the song id [n] requests. *)
Lemma getSongURL_requests (config : Config) (w : World) (c : Gin.Context) (n : Z) :
  Strconv.Atoi (Gin.Query c "id") = Ok n ->
  requests (getSongURL config w c)
  = [(NeteaseMusicAPI config +:+ "/song/url/v1") +:+ "?"
     +:+ Url.Encode
           (buildParams config n
              (Gin.DefaultQuery c "level" (Level config))
              (Gin.DefaultQuery c "realip" (RealIP config))
              (Z.quot (Time.UnixNano (now w)) 1000000))].
Proof.
  intros Hid. unfold getSongURL.
  destruct (String.eqb (Gin.Query c "id") EmptyString) eqn:He.
  - apply String.eqb_eq in He. rewrite He in Hid. discriminate.
  - rewrite Hid.
    destruct (get w _) as [resp|]; [|reflexivity].
    destruct (Http.Body resp) as [body|]; [|reflexivity].
    destruct (SongURLResponse.Unmarshal body) as [r|]; [|reflexivity].
    destruct (negb (SongURLResponse.Code r =? 200)); reflexivity.
Qed.

(** A call that requests nothing has stopped at the validation of [id]. *)
Lemma getSongURL_requested (config : Config) (w : World) (c : Gin.Context) (url : string) :
  requests (getSongURL config w c) = [url] ->
  exists n, Strconv.Atoi (Gin.Query c "id") = Ok n.
Proof.
  unfold getSongURL.
  destruct (String.eqb (Gin.Query c "id") EmptyString); [discriminate|].
  destruct (Strconv.Atoi (Gin.Query c "id")) as [n|]; [|discriminate].
  intros _. exists n. reflexivity.
Qed.

(** ** Validation of the request *)

(** C4. A request whose [id] is absent or empty is answered 400 with the
    body [{code: 400, message: "Missing required parameter: id"}]; a
    request whose [id] is present but is not read as an integer by
    [Atoi] is answered 400 with the body [{code: 400, message: "Invalid
    song id format"}].  Neither calls upstream: the list of the URLs
    passed to [http.Get] is empty. *)
Theorem getSongURL_invalid_request (config : Config) (w : World) (c : Gin.Context) :
  (Gin.queryCache c !! "id" = None \/ Gin.Query c "id" = EmptyString ->
   getSongURL config w c
   = mkOutcome
       (Gin.JSON 400
          (Json.DObject [("code", Json.DInt 400);
                         ("message", Json.DString "Missing required parameter: id")]))
       [])
  /\ (Gin.Query c "id" <> EmptyString ->
      is_ok (Strconv.Atoi (Gin.Query c "id")) = false ->
      getSongURL config w c
      = mkOutcome
          (Gin.JSON 400
              (Json.DObject [("code", Json.DInt 400);
                             ("message", Json.DString "Invalid song id format")]))
          []).
Proof.
  split.
  - intros H.
    assert (He : Gin.Query c "id" = EmptyString).
    { destruct H as [H|H]; [apply Query_absent|]; exact H. }
    unfold getSongURL. rewrite He. reflexivity.
  - intros Hne Herr. unfold getSongURL.
    destruct (String.eqb (Gin.Query c "id") EmptyString) eqn:He.
    + apply String.eqb_eq in He. contradiction.
    + destruct (Strconv.Atoi (Gin.Query c "id")); [discriminate|reflexivity].
Qed.

Lemma getSongURL_invalid_request_witness :
  getSongURL sampleConfig (sampleWorld 200 sampleBody) (sampleContext [("level", ["hires"])])
  = mkOutcome
      (Gin.JSON 400
         (Json.DObject [("code", Json.DInt 400);
                        ("message", Json.DString "Missing required parameter: id")]))
      []
  /\ getSongURL sampleConfig (sampleWorld 200 sampleBody) (sampleContext [("id", ["12a"])])
     = mkOutcome
         (Gin.JSON 400
             (Json.DObject [("code", Json.DInt 400);
                            ("message", Json.DString "Invalid song id format")]))
         [].
Proof.
  split.
  - apply (proj1 (getSongURL_invalid_request sampleConfig (sampleWorld 200 sampleBody)
                    (sampleContext [("level", ["hires"])]))).
    left. vm_compute. reflexivity.
  - apply (proj2 (getSongURL_invalid_request sampleConfig (sampleWorld 200 sampleBody)
                    (sampleContext [("id", ["12a"])]))).
    + vm_compute. discriminate.
    + vm_compute. reflexivity.
Defined.

(** ** The upstream request *)

(** C5.  When [Atoi] reads the [id] of the request as the integer [n]
    (whatever its spelling: a leading plus sign, leading zeros), the
    handler requests the URL made of the upstream base, [/song/url/v1] and
    the encoded query of exactly five parameters, [id], [level],
    [timestamp], [cookie] and [realIP], each with one value.  The value of
    [id] is [Itoa n], the decimal text of [n], which [Atoi] reads back as
    [n]; [timestamp] is the clock in milliseconds; the encoded query lists
    the parameters by sorted name, values form-encoded. *)
Theorem outbound_request (config : Config) (w : World) (c : Gin.Context) (n : Z) :
  Strconv.Atoi (Gin.Query c "id") = Ok n ->
  let level := Gin.DefaultQuery c "level" (Level config) in
  let realIP := Gin.DefaultQuery c "realip" (RealIP config) in
  let timestamp := Z.quot (Time.UnixNano (now w)) 1000000 in
  let params := buildParams config n level realIP timestamp in
  requests (getSongURL config w c)
  = [(NeteaseMusicAPI config +:+ "/song/url/v1") +:+ "?" +:+ Url.Encode params]
  /\ params !! "id" = Some [Strconv.Itoa n]
  /\ Strconv.Atoi (Strconv.Itoa n) = Ok n
  /\ params !! "level" = Some [level]
  /\ params !! "timestamp" = Some [Strconv.FormatInt timestamp]
  /\ params !! "cookie" = Some [Cookie config]
  /\ params !! "realIP" = Some [realIP]
  /\ dom params = {["id"; "level"; "timestamp"; "cookie"; "realIP"]}
  /\ Url.Encode params
     = "cookie=" +:+ Url.QueryEscape (Cookie config)
       +:+ "&id=" +:+ Strconv.Itoa n
       +:+ "&level=" +:+ Url.QueryEscape level
       +:+ "&realIP=" +:+ Url.QueryEscape realIP
       +:+ "&timestamp=" +:+ Strconv.FormatInt timestamp.
Proof.
  intros Hid. cbv zeta.
  destruct (buildParams_lookup config n (Gin.DefaultQuery c "level" (Level config))
              (Gin.DefaultQuery c "realip" (RealIP config))
              (Z.quot (Time.UnixNano (now w)) 1000000))
    as (H1 & H2 & H3 & H4 & H5 & H6).
  split; [apply getSongURL_requests; exact Hid|].
  split; [exact H1|].
  split; [apply Atoi_Itoa, (Atoi_range _ _ Hid)|].
  split; [exact H2|]. split; [exact H3|]. split; [exact H4|]. split; [exact H5|].
  split; [exact H6|]. apply Encode_buildParams.
Qed.

Lemma outbound_request_witness :
  requests
    (getSongURL sampleConfig (sampleWorld 200 sampleBody) (sampleContext [("id", ["+0042"])]))
  = [sampleURL]
  /\ Strconv.Itoa 42 = "42".
Proof.
  assert (H := outbound_request sampleConfig (sampleWorld 200 sampleBody)
                 (sampleContext [("id", ["+0042"])]) 42).
  cbv zeta in H. destruct H as (Hreq & _).
  - vm_compute. reflexivity.
  - split; [|reflexivity]. rewrite Hreq. vm_compute. reflexivity.
Defined.

(** C6.  In the upstream request of a call with a valid [id], the value
    of [level] is the first value of the [level] parameter of the request
    when it has one and the configured default level when it has none,
    and the value of [realIP] is likewise the [realip] parameter or the
    configured default address.  The value stands in the URL form-encoded,
    and is read back from it unchanged. *)
Theorem outbound_level_and_realIP (config : Config) (w : World) (c : Gin.Context) (n : Z) :
  Strconv.Atoi (Gin.Query c "id") = Ok n ->
  let level :=
    match Gin.queryCache c !! "level" with Some (v :: _) => v | _ => Level config end in
  let realIP :=
    match Gin.queryCache c !! "realip" with Some (v :: _) => v | _ => RealIP config end in
  let timestamp := Z.quot (Time.UnixNano (now w)) 1000000 in
  let params := buildParams config n level realIP timestamp in
  requests (getSongURL config w c)
  = [(NeteaseMusicAPI config +:+ "/song/url/v1") +:+ "?" +:+ Url.Encode params]
  /\ params !! "level" = Some [level]
  /\ params !! "realIP" = Some [realIP]
  /\ Url.Encode params
     = "cookie=" +:+ Url.QueryEscape (Cookie config)
       +:+ "&id=" +:+ Strconv.Itoa n
       +:+ "&level=" +:+ Url.QueryEscape level
       +:+ "&realIP=" +:+ Url.QueryEscape realIP
       +:+ "&timestamp=" +:+ Strconv.FormatInt timestamp
  /\ Url.QueryUnescape (Url.QueryEscape level) = Ok level
  /\ Url.QueryUnescape (Url.QueryEscape realIP) = Ok realIP.
Proof.
  intros Hid. cbv zeta.
  rewrite <- !DefaultQuery_spec.
  destruct (buildParams_lookup config n (Gin.DefaultQuery c "level" (Level config))
              (Gin.DefaultQuery c "realip" (RealIP config))
              (Z.quot (Time.UnixNano (now w)) 1000000))
    as (_ & H2 & _ & _ & H5 & _).
  split; [apply getSongURL_requests; exact Hid|].
  split; [exact H2|]. split; [exact H5|].
  split; [apply Encode_buildParams|].
  split; apply QueryUnescape_QueryEscape.
Qed.

Lemma outbound_level_and_realIP_witness :
  let c := sampleContext [("id", ["42"]); ("level", ["hi res"])] in
  Strconv.Atoi (Gin.Query c "id") = Ok 42
  /\ requests (getSongURL sampleConfig (sampleWorld 200 sampleBody) c)
     = ["https://example.com/song/url/v1?cookie=MUSIC_U%3Dabc%3B+os%3Dpc&id=42"
        +:+ "&level=hi+res&realIP=116.25.146.177&timestamp=1700000000123"].
Proof.
  cbv zeta. split; [vm_compute; reflexivity|].
  assert (H := outbound_level_and_realIP sampleConfig (sampleWorld 200 sampleBody)
                 (sampleContext [("id", ["42"]); ("level", ["hi res"])]) 42).
  cbv zeta in H. destruct H as (Hreq & _).
  - vm_compute. reflexivity.
  - rewrite Hreq. vm_compute. reflexivity.
Defined.

(** ** The reply of the upstream service *)

Section Reply.

(** The handler has requested [url], and the upstream service has
    answered with a reply whose body can be read. *)
Variables (config : Config) (w : World) (c : Gin.Context).
Variables (url : string) (resp : Http.Response) (body : string).
Hypothesis Hrequested : requests (getSongURL config w c) = [url].
Hypothesis Hreply : get w url = Ok resp.
Hypothesis Hbody : Http.Body resp = Ok body.

(** What the handler then does depends on the body alone. *)
Lemma getSongURL_replied :
  getSongURL config w c
  = match SongURLResponse.Unmarshal body with
    | Err _ =>
        fail Http.StatusInternalServerError 500
          "Failed to parse response from music service" [url]
    | Ok songResp =>
        if negb (SongURLResponse.Code songResp =? 200) then
          fail Http.StatusBadRequest (SongURLResponse.Code songResp)
            "Music service returned error" [url]
        else mkOutcome (Gin.JSON Http.StatusOK (SongURLResponse.marshal songResp)) [url]
    end.
Proof.
  destruct (getSongURL_requested _ _ _ _ Hrequested) as [n Hid].
  pose proof Hrequested as Hurl.
  rewrite (getSongURL_requests _ _ _ _ Hid) in Hurl.
  injection Hurl as Hurl.
  unfold getSongURL.
  destruct (String.eqb (Gin.Query c "id") EmptyString) eqn:He.
  - apply String.eqb_eq in He. rewrite He in Hid. discriminate.
  - rewrite Hid. cbv zeta. rewrite Hurl, Hreply, Hbody. reflexivity.
Qed.

(** C3.  When the body of the upstream reply decodes and its [code] is not
    200, the answer is 400 with the body [{code: <the upstream code>,
    message: "Music service returned error"}]; an upstream code 404, for
    one, is answered 400 with code 404. *)
Theorem getSongURL_upstream_rejected (r : SongURLResponse.t) :
  SongURLResponse.Unmarshal body = Ok r ->
  SongURLResponse.Code r <> 200 ->
  response (getSongURL config w c)
  = Gin.JSON 400
      (Json.DObject [("code", Json.DInt (SongURLResponse.Code r));
                     ("message", Json.DString "Music service returned error")]).
Proof.
  intros Hdec Hcode. rewrite getSongURL_replied, Hdec.
  destruct (SongURLResponse.Code r =? 200) eqn:E.
  - apply Z.eqb_eq in E. contradiction.
  - reflexivity.
Qed.

(** C2, amended.  The answer is 500 with code 500 and "Failed to parse
    response from music service" exactly when [Unmarshal] returns an
    error on the body of the upstream reply: the body is not well-formed
    JSON, or decoding its value into the zero [SongURLResponse] fails.
    Decoding fails when the value is neither [null] nor an object, and
    when it is an object with a member named [code], in any case of the
    letters, whose value is neither [null] nor an integer of 64 bits,
    or with a member named [data], in any case, whose value is neither
    [null] nor an array or is an array with an element that is neither
    [null] nor an object.  A body that is [null], or an object without
    a member named [code] or [data] in any case, is no decode failure:
    it is answered 400 with code 0 and "Music service returned error". *)
Theorem getSongURL_decode_error :
  let failure :=
    Gin.JSON 500
      (Json.DObject
         [("code", Json.DInt 500);
          ("message", Json.DString "Failed to parse response from music service")]) in
  let rejected :=
    Gin.JSON 400
      (Json.DObject
         [("code", Json.DInt 0); ("message", Json.DString "Music service returned error")]) in
  (response (getSongURL config w c) = failure
   <-> Json.parse body = None
       \/ exists j e, Json.parse body = Some j
                      /\ SongURLResponse.decode j SongURLResponse.zero = Err e)
  /\ forall j, Json.parse body = Some j ->
       match j with
       | Json.Null => response (getSongURL config w c) = rejected
       | Json.Object members =>
           (Forall (fun m => Json.foldName m.1 <> "CODE" /\ Json.foldName m.1 <> "DATA")
              members ->
            response (getSongURL config w c) = rejected)
           /\ (Exists
                 (fun m =>
                    (Json.foldName m.1 = "CODE"
                     /\ match m.2 with
                        | Json.Null => False
                        | Json.Number lit => is_ok (Strconv.ParseInt lit 64) = false
                        | _ => True
                        end)
                    \/ (Json.foldName m.1 = "DATA"
                        /\ match m.2 with
                           | Json.Null => False
                           | Json.Array elems =>
                               Exists (fun x => match x with
                                                | Json.Null | Json.Object _ => False
                                                | _ => True
                                                end) elems
                           | _ => True
                           end)) members ->
               response (getSongURL config w c) = failure)
       | _ => response (getSongURL config w c) = failure
       end.
Proof.
  cbv zeta. rewrite getSongURL_replied.
  unfold SongURLResponse.Unmarshal. split.
  - split.
    + destruct (Json.parse body) as [j|]; [|intros _; left; reflexivity].
      destruct (SongURLResponse.decode j SongURLResponse.zero) as [r|e] eqn:Hd.
      * destruct (negb (SongURLResponse.Code r =? 200)); discriminate.
      * intros _. right. exists j, e. split; [reflexivity|exact Hd].
    + intros [Hp|(j & e & Hp & Hd)]; rewrite Hp; [|rewrite Hd]; reflexivity.
  - intros j Hp. rewrite Hp.
    destruct j as [|b|lit|s|elems|members]; try reflexivity.
    cbn [SongURLResponse.decode Json.decodeStruct]. split.
    + intros Hnone. rewrite (decodeMembers_no_member _ _ Hnone). reflexivity.
    + intros Hex. destruct (decodeMembers_conflict _ SongURLResponse.zero Hex) as [e He].
      rewrite He. reflexivity.
Qed.

(** C1, amended.  When the body of the upstream reply decodes and its
    [code] is 200, the answer is 200 and its body is the decoded
    [SongURLResponse] written out again: an object with the members
    [code] (200) and [data]; [data] is [null] for a nil slice and
    otherwise an array with one object for each decoded entry, and every
    such object has the seventeen declared members and no other, in the
    order of the declaration.  When the reply is an object with one
    member [data] and that is an array, the entries are its elements in
    order and, for an element that is an object whose member names are
    distinct whatever the case of their letters: a declared member that
    the element has with a value other than [null] is written with that
    value; a declared member that the element has not, or has with
    [null], is written as in the zero entry.  An element that is [null]
    gives the zero entry. *)
Theorem getSongURL_success (r : SongURLResponse.t) :
  SongURLResponse.Unmarshal body = Ok r ->
  SongURLResponse.Code r = 200 ->
  response (getSongURL config w c)
  = Gin.JSON 200
      (Json.DObject
         [("code", Json.DInt 200);
          ("data", match SongURLResponse.Data r with
                   | Json.SliceNil => Json.DNull
                   | Json.Slice _ _ =>
                       Json.DArray (map Entry.marshal (Json.elements (SongURLResponse.Data r)))
                   end)])
  /\ (forall e : Entry.t,
        Entry.marshal e
        = Json.DObject
            [("id", Json.DInt (Entry.ID e));
             ("url", Json.DString (Entry.URL e));
             ("br", Json.DInt (Entry.Br e));
             ("size", Json.DInt (Entry.Size e));
             ("md5", Json.DString (Entry.MD5 e));
             ("code", Json.DInt (Entry.Code e));
             ("expi", Json.DInt (Entry.Expi e));
             ("type", Json.DString (Entry.Type_ e));
             ("gain", Json.DFloat (Entry.Gain e));
             ("peak", Json.DFloat (Entry.Peak e));
             ("fee", Json.DInt (Entry.Fee e));
             ("uf", Json.marshalInterface (Entry.Uf e));
             ("payed", Json.DInt (Entry.Payed e));
             ("flag", Json.DInt (Entry.Flag e));
             ("canExtend", Json.DBool (Entry.CanExtend e));
             ("freeTrialInfo", Json.marshalInterface (Entry.FreeTrialInfo e));
             ("level", Json.DString (Entry.Level e))])
  /\ Entry.marshal Entry.zero
     = Json.DObject
         [("id", Json.DInt 0); ("url", Json.DString EmptyString); ("br", Json.DInt 0);
          ("size", Json.DInt 0); ("md5", Json.DString EmptyString); ("code", Json.DInt 0);
          ("expi", Json.DInt 0); ("type", Json.DString EmptyString);
          ("gain", Json.DFloat (S754_zero false)); ("peak", Json.DFloat (S754_zero false));
          ("fee", Json.DInt 0); ("uf", Json.DNull); ("payed", Json.DInt 0);
          ("flag", Json.DInt 0); ("canExtend", Json.DBool false);
          ("freeTrialInfo", Json.DNull); ("level", Json.DString EmptyString)]
  /\ (forall (before after : list (string * Json.value)) (elems : list Json.value),
        Json.parse body
        = Some (Json.Object (before ++ ("data", Json.Array elems) :: after)) ->
        Forall (fun m => Json.foldName m.1 <> "DATA") (before ++ after) ->
        Forall2
          (fun x e =>
             match x with
             | Json.Object members =>
                 NoDup (map (fun m => Json.foldName m.1) members) ->
                 forall name,
                   name ∈ ["id"; "url"; "br"; "size"; "md5"; "code"; "expi"; "type"; "gain";
                           "peak"; "fee"; "uf"; "payed"; "flag"; "canExtend";
                           "freeTrialInfo"; "level"] ->
                   (forall v, (name, v) ∈ members -> v <> Json.Null ->
                      exists d, Json.member name (Entry.marshal e) = Some d
                                /\ Json.sameValue v d)
                   /\ ((forall k v, (k, v) ∈ members ->
                          Json.foldName k = Json.foldName name -> v = Json.Null) ->
                       Json.member name (Entry.marshal e)
                       = Json.member name (Entry.marshal Entry.zero))
             | _ => e = Entry.zero
             end)
          elems (Json.elements (SongURLResponse.Data r))).
Proof.
  intros Hdec Hcode. rewrite getSongURL_replied, Hdec, Hcode.
  split.
  { cbn [negb Z.eqb]. unfold SongURLResponse.marshal. rewrite Hcode.
    destruct (SongURLResponse.Data r); reflexivity. }
  split; [intros e; reflexivity|]. split; [reflexivity|].
  intros before after elems Hp Hm.
  pose proof (Unmarshal_data_decoded body before after elems r Hp Hm Hdec) as Hall.
  eapply Forall2_impl; [exact Hall|].
  intros x e He. exact (Entry_relayed x e He).
Qed.

End Reply.

Lemma getSongURL_upstream_rejected_witness :
  response
    (getSongURL sampleConfig (sampleWorld 200 (dq "{'code':404,'message':'not found'}"))
       (sampleContext [("id", ["42"])]))
  = Gin.JSON 400
      (Json.DObject [("code", Json.DInt 404);
                     ("message", Json.DString "Music service returned error")]).
Proof.
  apply (getSongURL_upstream_rejected sampleConfig
           (sampleWorld 200 (dq "{'code':404,'message':'not found'}"))
           (sampleContext [("id", ["42"])]) sampleURL
           (Http.mkResponse 200 (Ok (dq "{'code':404,'message':'not found'}")))
           (dq "{'code':404,'message':'not found'}"))
    with (r := SongURLResponse.mk 404 Json.SliceNil).
  - vm_compute. reflexivity.
  - reflexivity.
  - reflexivity.
  - vm_compute. reflexivity.
  - vm_compute. discriminate.
Defined.

(** C2, as stated, fails.  The body [null] and the body [{"msg":"busy"}]
    are well-formed JSON that does not have the shape of a
    [SongURLResponse] (neither has [code] or [data], the first is not
    even an object), yet [Unmarshal] accepts both and leaves the zero
    value: the handler goes on to the status check and answers 400 with
    code 0, not 500. *)
Lemma decode_error_counterexample :
  SongURLResponse.Unmarshal "null" = Ok SongURLResponse.zero
  /\ SongURLResponse.Unmarshal (dq "{'msg':'busy'}") = Ok SongURLResponse.zero
  /\ response (getSongURL sampleConfig (sampleWorld 200 "null") (sampleContext [("id", ["42"])]))
     = Gin.JSON 400
         (Json.DObject [("code", Json.DInt 0);
                        ("message", Json.DString "Music service returned error")])
  /\ response
       (getSongURL sampleConfig (sampleWorld 200 (dq "{'msg':'busy'}"))
          (sampleContext [("id", ["42"])]))
     = Gin.JSON 400
         (Json.DObject [("code", Json.DInt 0);
                        ("message", Json.DString "Music service returned error")]).
Proof. vm_compute. repeat split; reflexivity. Qed.

Lemma getSongURL_decode_error_witness :
  response
    (getSongURL sampleConfig (sampleWorld 200 "<html>502 Bad Gateway</html>")
       (sampleContext [("id", ["42"])]))
  = Gin.JSON 500
      (Json.DObject [("code", Json.DInt 500);
                     ("message", Json.DString "Failed to parse response from music service")])
  /\ response
       (getSongURL sampleConfig (sampleWorld 200 (dq "{'code':'200','data':[]}"))
          (sampleContext [("id", ["42"])]))
     = Gin.JSON 500
         (Json.DObject [("code", Json.DInt 500);
                        ("message", Json.DString "Failed to parse response from music service")])
  /\ response
       (getSongURL sampleConfig (sampleWorld 200 (dq "{'CODE':'x'}"))
          (sampleContext [("id", ["42"])]))
     = Gin.JSON 500
         (Json.DObject [("code", Json.DInt 500);
                        ("message", Json.DString "Failed to parse response from music service")]).
Proof.
  split; [|split].
  - apply (getSongURL_decode_error sampleConfig
             (sampleWorld 200 "<html>502 Bad Gateway</html>")
             (sampleContext [("id", ["42"])]) sampleURL
             (Http.mkResponse 200 (Ok "<html>502 Bad Gateway</html>"))
             "<html>502 Bad Gateway</html>").
    + vm_compute. reflexivity.
    + reflexivity.
    + reflexivity.
    + left. vm_compute. reflexivity.
  - apply (getSongURL_decode_error sampleConfig
             (sampleWorld 200 (dq "{'code':'200','data':[]}"))
             (sampleContext [("id", ["42"])]) sampleURL
             (Http.mkResponse 200 (Ok (dq "{'code':'200','data':[]}")))
             (dq "{'code':'200','data':[]}")).
    + vm_compute. reflexivity.
    + reflexivity.
    + reflexivity.
    + right.
      exists (Json.Object [("code", Json.Str "200"); ("data", Json.Array [])]).
      exists Json.UnmarshalTypeError.
      split; vm_compute; reflexivity.
  - assert (H := proj2 (getSongURL_decode_error sampleConfig
                          (sampleWorld 200 (dq "{'CODE':'x'}"))
                          (sampleContext [("id", ["42"])]) sampleURL
                          (Http.mkResponse 200 (Ok (dq "{'CODE':'x'}")))
                          (dq "{'CODE':'x'}")
                          ltac:(vm_compute; reflexivity) eq_refl eq_refl)
                 (Json.Object [("CODE", Json.Str "x")]) ltac:(vm_compute; reflexivity)).
    cbv beta iota in H. apply (proj2 H). apply Exists_cons_hd. left.
    split; [vm_compute; reflexivity|exact I].
Defined.

(** C1, as stated, fails.  The upstream body below decodes with code 200.
    Its data entry has the members [id], [url] and [time]; the entry that
    is written back has the seventeen declared members instead: [time] is
    gone, and [br], [size], ... appear with zero values.  The written text
    does not have the field names of the received one. *)
Lemma passthrough_counterexample :
  let body := dq "{'code':200,'data':[{'id':1,'url':'http://m/1.mp3','time':5}]}" in
  let received :=
    Json.Object
      [("code", Json.Number "200");
       ("data", Json.Array
                  [Json.Object [("id", Json.Number "1"); ("url", Json.Str "http://m/1.mp3");
                                ("time", Json.Number "5")]])] in
  let written :=
    Json.DObject
      [("code", Json.DInt 200);
       ("data", Json.DArray
                  [Json.DObject
                     [("id", Json.DInt 1); ("url", Json.DString "http://m/1.mp3");
                      ("br", Json.DInt 0); ("size", Json.DInt 0); ("md5", Json.DString "");
                      ("code", Json.DInt 0); ("expi", Json.DInt 0); ("type", Json.DString "");
                      ("gain", Json.DFloat (S754_zero false));
                      ("peak", Json.DFloat (S754_zero false));
                      ("fee", Json.DInt 0); ("uf", Json.DNull); ("payed", Json.DInt 0);
                      ("flag", Json.DInt 0); ("canExtend", Json.DBool false);
                      ("freeTrialInfo", Json.DNull); ("level", Json.DString "")]])] in
  Json.parse body = Some received
  /\ (exists r, SongURLResponse.Unmarshal body = Ok r /\ SongURLResponse.Code r = 200)
  /\ response (getSongURL sampleConfig (sampleWorld 200 body) (sampleContext [("id", ["42"])]))
     = Gin.JSON 200 written
  /\ Json.sameShape received written = false.
Proof.
  cbv zeta. split; [vm_compute; reflexivity|]. split.
  - eexists. split; vm_compute; reflexivity.
  - split; vm_compute; reflexivity.
Qed.

Lemma getSongURL_success_witness :
  response (getSongURL sampleConfig (sampleWorld 200 sampleBody) (sampleContext [("id", ["42"])]))
  = Gin.JSON 200
      (Json.DObject
         [("code", Json.DInt 200);
          ("data",
           Json.DArray
             [Json.DObject
                [("id", Json.DInt 1); ("url", Json.DString "http://m/1.mp3");
                 ("br", Json.DInt 320000); ("size", Json.DInt 0);
                 ("md5", Json.DString EmptyString); ("code", Json.DInt 200);
                 ("expi", Json.DInt 0); ("type", Json.DString EmptyString);
                 ("gain", Json.DFloat (S754_zero false));
                 ("peak", Json.DFloat (S754_zero false)); ("fee", Json.DInt 0);
                 ("uf", Json.DNull); ("payed", Json.DInt 0); ("flag", Json.DInt 0);
                 ("canExtend", Json.DBool false); ("freeTrialInfo", Json.DNull);
                 ("level", Json.DString "exhigh")]])])
  /\ exists d,
       Json.member "br" (Entry.marshal sampleEntry) = Some d
       /\ Json.sameValue (Json.Number "320000") d.
Proof.
  destruct (getSongURL_success sampleConfig (sampleWorld 200 sampleBody)
              (sampleContext [("id", ["42"])]) sampleURL
              (Http.mkResponse 200 (Ok sampleBody)) sampleBody)
    with (r := SongURLResponse.mk 200 (Json.Slice [sampleEntry] 1))
    as (Hresp & _ & _ & Hdata).
  - vm_compute. reflexivity.
  - reflexivity.
  - reflexivity.
  - vm_compute. reflexivity.
  - reflexivity.
  - split; [rewrite Hresp; vm_compute; reflexivity|].
    specialize (Hdata [("code", Json.Number "200")] []
                  [Json.Object [("id", Json.Number "1"); ("url", Json.Str "http://m/1.mp3");
                                ("br", Json.Number "320000"); ("code", Json.Number "200");
                                ("level", Json.Str "exhigh")]]).
    apply Forall2_cons_1 in Hdata as [Hentry _].
    + apply (Hentry ltac:(apply (bool_decide_unpack _); vm_compute; exact I) "br").
      * apply (bool_decide_unpack _). vm_compute. exact I.
      * repeat (apply elem_of_cons; first [left; reflexivity|right]).
      * discriminate.
    + vm_compute. reflexivity.
    + repeat constructor; vm_compute; discriminate.
Defined.

(** C10.  The HTTP status of the upstream reply is not looked at: a world
    in which every upstream reply carries the status [s] gives the same
    outcome.  In particular a reply with status 500 whose body has code
    200 is answered 200 with the decoded body. *)
Theorem getSongURL_ignores_upstream_status (config : Config) (w : World) (c : Gin.Context)
    (s : Z) :
  getSongURL config (withStatus s w) c = getSongURL config w c
  /\ response
       (getSongURL sampleConfig (sampleWorld 500 sampleBody) (sampleContext [("id", ["42"])]))
     = Gin.JSON 200
         (Json.DObject
            [("code", Json.DInt 200); ("data", Json.DArray [Entry.marshal sampleEntry])]).
Proof.
  split; [|vm_compute; reflexivity].
  unfold getSongURL, withStatus. cbn [now get].
  destruct (String.eqb (Gin.Query c "id") EmptyString); [reflexivity|].
  destruct (Strconv.Atoi (Gin.Query c "id")); [|reflexivity].
  cbv zeta.
  destruct (get w _) as [resp|]; reflexivity.
Qed.

(** * Further properties of main.go *)

(** ** [getSongURL]: the remaining error paths *)

Lemma Atoi_ok_nonempty (s : string) (n : Z) :
  Strconv.Atoi s = Ok n -> String.eqb s EmptyString = false.
Proof. destruct s; [discriminate|reflexivity]. Qed.

(** X1.  The answer is 500 with code 500 and "Failed to request music
    service" exactly when the [id] is read as an integer and the call of
    [http.Get] on the URL built for it returns an error.  That call is
    then the only one: the handler does not try again. *)
Theorem getSongURL_upstream_unreachable (config : Config) (w : World) (c : Gin.Context) :
  let url n :=
    (NeteaseMusicAPI config +:+ "/song/url/v1") +:+ "?"
    +:+ Url.Encode
          (buildParams config n
             (Gin.DefaultQuery c "level" (Level config))
             (Gin.DefaultQuery c "realip" (RealIP config))
             (Z.quot (Time.UnixNano (now w)) 1000000)) in
  (response (getSongURL config w c)
   = Gin.JSON 500
       (Json.DObject [("code", Json.DInt 500);
                      ("message", Json.DString "Failed to request music service")])
   <-> exists n, Strconv.Atoi (Gin.Query c "id") = Ok n /\ get w (url n) = Err tt)
  /\ (forall n,
        Strconv.Atoi (Gin.Query c "id") = Ok n -> get w (url n) = Err tt ->
        requests (getSongURL config w c) = [url n]).
Proof.
  cbv zeta. split; [split|].
  - unfold getSongURL.
    destruct (String.eqb (Gin.Query c "id") EmptyString); [discriminate|].
    destruct (Strconv.Atoi (Gin.Query c "id")) as [n|]; [|discriminate].
    cbv zeta. destruct (get w _) as [resp|[]] eqn:Hget.
    + destruct (Http.Body resp) as [body|]; [|discriminate].
      destruct (SongURLResponse.Unmarshal body) as [r|]; [|discriminate].
      destruct (negb (SongURLResponse.Code r =? 200)); discriminate.
    + intros _. exists n. split; [reflexivity|exact Hget].
  - intros (n & Hid & Hget). unfold getSongURL.
    rewrite (Atoi_ok_nonempty _ _ Hid), Hid. cbv zeta. rewrite Hget. reflexivity.
  - intros n Hid _. exact (getSongURL_requests _ _ _ _ Hid).
Qed.

Lemma getSongURL_upstream_unreachable_witness :
  let w := mkWorld (Time.mk 1700000000 123456789) (fun _ => Err tt) in
  response (getSongURL sampleConfig w (sampleContext [("id", ["42"])]))
  = Gin.JSON 500
      (Json.DObject [("code", Json.DInt 500);
                     ("message", Json.DString "Failed to request music service")]).
Proof.
  cbv zeta.
  apply (proj1 (getSongURL_upstream_unreachable sampleConfig
                  (mkWorld (Time.mk 1700000000 123456789) (fun _ => Err tt))
                  (sampleContext [("id", ["42"])]))).
  exists 42. split; [vm_compute; reflexivity|reflexivity].
Defined.

(** X2.  The answer is 500 with code 500 and "Failed to read response
    from music service" exactly when the [id] is read as an integer,
    [http.Get] returns a reply and the body of that reply cannot be read
    to the end; the status of the reply does not count. *)
Theorem getSongURL_body_unreadable (config : Config) (w : World) (c : Gin.Context) :
  let url n :=
    (NeteaseMusicAPI config +:+ "/song/url/v1") +:+ "?"
    +:+ Url.Encode
          (buildParams config n
             (Gin.DefaultQuery c "level" (Level config))
             (Gin.DefaultQuery c "realip" (RealIP config))
             (Z.quot (Time.UnixNano (now w)) 1000000)) in
  response (getSongURL config w c)
  = Gin.JSON 500
      (Json.DObject
         [("code", Json.DInt 500);
          ("message", Json.DString "Failed to read response from music service")])
  <-> exists n status,
        Strconv.Atoi (Gin.Query c "id") = Ok n
        /\ get w (url n) = Ok (Http.mkResponse status (Err tt)).
Proof.
  cbv zeta. split.
  - unfold getSongURL.
    destruct (String.eqb (Gin.Query c "id") EmptyString); [discriminate|].
    destruct (Strconv.Atoi (Gin.Query c "id")) as [n|]; [|discriminate].
    cbv zeta. destruct (get w _) as [[status [body|[]]]|] eqn:Hget;
      cbn [Http.Body]; [|intros _; exists n, status; split; [reflexivity|exact Hget]
                        |discriminate].
    destruct (SongURLResponse.Unmarshal body) as [r|]; [|discriminate].
    destruct (negb (SongURLResponse.Code r =? 200)); discriminate.
  - intros (n & status & Hid & Hget). unfold getSongURL.
    rewrite (Atoi_ok_nonempty _ _ Hid), Hid. cbv zeta. rewrite Hget. reflexivity.
Qed.

Lemma getSongURL_body_unreadable_witness :
  let w := mkWorld (Time.mk 1700000000 123456789)
             (fun _ => Ok (Http.mkResponse 502 (Err tt))) in
  response (getSongURL sampleConfig w (sampleContext [("id", ["42"])]))
  = Gin.JSON 500
      (Json.DObject
         [("code", Json.DInt 500);
          ("message", Json.DString "Failed to read response from music service")]).
Proof.
  cbv zeta.
  apply (proj2 (getSongURL_body_unreadable sampleConfig
                  (mkWorld (Time.mk 1700000000 123456789)
                     (fun _ => Ok (Http.mkResponse 502 (Err tt))))
                  (sampleContext [("id", ["42"])]))).
  exists 42, 502. split; [vm_compute; reflexivity|reflexivity].
Defined.

(** ** [getSongURL]: what every call has in common *)

(** X3.  A call of the handler calls [http.Get] once when [Atoi] reads
    its [id] and not at all when it does not; it never calls it twice.
    The URL it passes does not depend on how the upstream service
    behaves.  (What [http.Get] sends on its own when it follows a
    redirect is not counted: [requests] lists the calls.) *)
Theorem getSongURL_request_count (config : Config) (w : World) (c : Gin.Context)
    (upstream : string -> result unit Http.Response) :
  length (requests (getSongURL config w c))
  = (if is_ok (Strconv.Atoi (Gin.Query c "id")) then 1 else 0)%nat
  /\ requests (getSongURL config (mkWorld (now w) upstream) c)
     = requests (getSongURL config w c).
Proof.
  destruct (Strconv.Atoi (Gin.Query c "id")) as [n|e] eqn:Hid.
  - rewrite (getSongURL_requests config w c n Hid).
    rewrite (getSongURL_requests config (mkWorld (now w) upstream) c n Hid).
    split; reflexivity.
  - cbn [is_ok]. unfold getSongURL.
    destruct (String.eqb (Gin.Query c "id") EmptyString); [split; reflexivity|].
    rewrite Hid. split; reflexivity.
Qed.

(** The six ways in which a call ends. *)
Lemma getSongURL_cases (config : Config) (w : World) (c : Gin.Context) :
  let o := getSongURL config w c in
  o = fail 400 400 "Missing required parameter: id" []
  \/ o = fail 400 400 "Invalid song id format" []
  \/ (exists url, o = fail 500 500 "Failed to request music service" [url])
  \/ (exists url, o = fail 500 500 "Failed to read response from music service" [url])
  \/ (exists url, o = fail 500 500 "Failed to parse response from music service" [url])
  \/ (exists url resp body r,
        requests o = [url] /\ get w url = Ok resp /\ Http.Body resp = Ok body
        /\ SongURLResponse.Unmarshal body = Ok r
        /\ ((SongURLResponse.Code r <> 200
             /\ o = fail 400 (SongURLResponse.Code r) "Music service returned error" [url])
            \/ (SongURLResponse.Code r = 200
                /\ o = mkOutcome (Gin.JSON 200 (SongURLResponse.marshal r)) [url]))).
Proof.
  cbv zeta. unfold getSongURL.
  destruct (String.eqb (Gin.Query c "id") EmptyString); [left; reflexivity|].
  destruct (Strconv.Atoi (Gin.Query c "id")) as [n|e]; [|right; left; reflexivity].
  cbv zeta.
  match goal with |- context [get w ?u] => set (url := u) end.
  destruct (get w url) as [resp|e] eqn:Hget; [|right; right; left; exists url; reflexivity].
  destruct (Http.Body resp) as [body|e] eqn:Hbody;
    [|right; right; right; left; exists url; reflexivity].
  destruct (SongURLResponse.Unmarshal body) as [r|e] eqn:Hdec;
    [|right; right; right; right; left; exists url; reflexivity].
  right; right; right; right; right. exists url, resp, body, r.
  destruct (SongURLResponse.Code r =? 200) eqn:E; cbn [negb].
  - apply Z.eqb_eq in E. repeat split; try assumption; try reflexivity.
    right. split; [exact E|reflexivity].
  - apply Z.eqb_neq in E. repeat split; try assumption; try reflexivity.
    left. split; [exact E|reflexivity].
Qed.

(** X4.  A call answers 200 only when the upstream service has replied to
    the one request of the call with a body that can be read and that
    decodes with code 200; the answer is then that decoded reply written
    out. *)
Theorem getSongURL_status_ok_only_if (config : Config) (w : World) (c : Gin.Context) :
  Gin.status (response (getSongURL config w c)) = 200 ->
  exists url resp body r,
    requests (getSongURL config w c) = [url]
    /\ get w url = Ok resp
    /\ Http.Body resp = Ok body
    /\ SongURLResponse.Unmarshal body = Ok r
    /\ SongURLResponse.Code r = 200
    /\ response (getSongURL config w c) = Gin.JSON 200 (SongURLResponse.marshal r).
Proof.
  intros Hst.
  destruct (getSongURL_cases config w c)
    as [H|[H|[[u H]|[[u H]|[[u H]|(url & resp & body & r & Hreq & Hget & Hbody & Hdec & H)]]]]];
    cbv zeta in *; try (rewrite H in Hst; discriminate).
  destruct H as [[_ H]|[Hc H]]; [rewrite H in Hst; discriminate|].
  exists url, resp, body, r. rewrite H. repeat split; assumption.
Qed.

Lemma getSongURL_status_ok_only_if_witness :
  exists url resp body r,
    requests (getSongURL sampleConfig (sampleWorld 500 sampleBody)
                (sampleContext [("id", ["42"])])) = [url]
    /\ get (sampleWorld 500 sampleBody) url = Ok resp
    /\ Http.Body resp = Ok body
    /\ SongURLResponse.Unmarshal body = Ok r
    /\ SongURLResponse.Code r = 200
    /\ response (getSongURL sampleConfig (sampleWorld 500 sampleBody)
                   (sampleContext [("id", ["42"])]))
       = Gin.JSON 200 (SongURLResponse.marshal r).
Proof.
  apply (getSongURL_status_ok_only_if sampleConfig (sampleWorld 500 sampleBody)
           (sampleContext [("id", ["42"])])).
  vm_compute. reflexivity.
Defined.

(** X5.  Every answer that is not 200 has status 400 or 500 and a body of
    the one error shape: a [code] that is never 200 and one of six fixed
    messages.  Nothing of what the upstream service has sent is in it
    but its code. *)
Theorem getSongURL_error_shape (config : Config) (w : World) (c : Gin.Context) :
  Gin.status (response (getSongURL config w c)) <> 200 ->
  exists status code message,
    response (getSongURL config w c)
    = Gin.JSON status (Json.DObject [("code", Json.DInt code); ("message", Json.DString message)])
    /\ (status = 400 \/ status = 500)
    /\ code <> 200
    /\ (status = 500 -> code = 500)
    /\ In message
         ["Missing required parameter: id"; "Invalid song id format";
          "Failed to request music service"; "Failed to read response from music service";
          "Failed to parse response from music service"; "Music service returned error"].
Proof.
  intros Hst.
  destruct (getSongURL_cases config w c)
    as [H|[H|[[u H]|[[u H]|[[u H]|(url & resp & body & r & _ & _ & _ & _ & H)]]]]];
    cbv zeta in *.
  - rewrite H. exists 400, 400, "Missing required parameter: id".
    repeat split; cbn; try (intros; discriminate); auto; lia.
  - rewrite H. exists 400, 400, "Invalid song id format".
    repeat split; cbn; try (intros; discriminate); auto 10; lia.
  - rewrite H. exists 500, 500, "Failed to request music service".
    repeat split; cbn; try (intros; discriminate); auto 10; lia.
  - rewrite H. exists 500, 500, "Failed to read response from music service".
    repeat split; cbn; try (intros; discriminate); auto 10; lia.
  - rewrite H. exists 500, 500, "Failed to parse response from music service".
    repeat split; cbn; try (intros; discriminate); auto 10; lia.
  - destruct H as [[Hc H]|[_ H]]; [|rewrite H in Hst; cbn in Hst; contradiction].
    rewrite H. exists 400, (SongURLResponse.Code r), "Music service returned error".
    repeat split; cbn; try (intros; discriminate); auto 10.
Qed.

Lemma getSongURL_error_shape_witness :
  exists status code message,
    response (getSongURL sampleConfig (sampleWorld 200 "null") (sampleContext [("id", ["42"])]))
    = Gin.JSON status (Json.DObject [("code", Json.DInt code); ("message", Json.DString message)])
    /\ (status = 400 \/ status = 500)
    /\ code <> 200
    /\ (status = 500 -> code = 500)
    /\ In message
         ["Missing required parameter: id"; "Invalid song id format";
          "Failed to request music service"; "Failed to read response from music service";
          "Failed to parse response from music service"; "Music service returned error"].
Proof.
  apply (getSongURL_error_shape sampleConfig (sampleWorld 200 "null")
           (sampleContext [("id", ["42"])])).
  vm_compute. discriminate.
Defined.


(** X6.  Of the request a call reads the first value of [id], of [level]
    and of [realip] and nothing else: two requests that agree on these
    have the same outcome, whatever other parameters and further values
    they carry. *)
Theorem getSongURL_reads_three_parameters (config : Config) (w : World)
    (c1 c2 : Gin.Context) :
  Gin.GetQuery c1 "id" = Gin.GetQuery c2 "id" ->
  Gin.GetQuery c1 "level" = Gin.GetQuery c2 "level" ->
  Gin.GetQuery c1 "realip" = Gin.GetQuery c2 "realip" ->
  getSongURL config w c1 = getSongURL config w c2.
Proof.
  intros Hid Hlevel Hrealip. unfold getSongURL, Gin.Query, Gin.DefaultQuery.
  rewrite Hid, Hlevel, Hrealip. reflexivity.
Qed.

Lemma getSongURL_reads_three_parameters_witness :
  getSongURL sampleConfig (sampleWorld 200 sampleBody)
    (sampleContext [("id", ["42"; "43"]); ("level", ["hires"]); ("br", ["320000"])])
  = getSongURL sampleConfig (sampleWorld 200 sampleBody)
      (sampleContext [("level", ["hires"; "standard"]); ("id", ["42"]); ("cookie", ["x"])]).
Proof.
  apply getSongURL_reads_three_parameters; vm_compute; reflexivity.
Defined.

(** X7.  The [id] counts by its value, not by its spelling: two requests
    whose [id]s [Atoi] reads as the same integer, and that agree on
    [level] and [realip], have the same outcome. *)
Theorem getSongURL_id_by_value (config : Config) (w : World) (c1 c2 : Gin.Context) (n : Z) :
  Strconv.Atoi (Gin.Query c1 "id") = Ok n ->
  Strconv.Atoi (Gin.Query c2 "id") = Ok n ->
  Gin.GetQuery c1 "level" = Gin.GetQuery c2 "level" ->
  Gin.GetQuery c1 "realip" = Gin.GetQuery c2 "realip" ->
  getSongURL config w c1 = getSongURL config w c2.
Proof.
  intros H1 H2 Hlevel Hrealip. unfold getSongURL, Gin.DefaultQuery.
  rewrite (Atoi_ok_nonempty _ _ H1), (Atoi_ok_nonempty _ _ H2), H1, H2, Hlevel, Hrealip.
  reflexivity.
Qed.

Lemma getSongURL_id_by_value_witness :
  getSongURL sampleConfig (sampleWorld 200 sampleBody) (sampleContext [("id", ["+0042"])])
  = getSongURL sampleConfig (sampleWorld 200 sampleBody) (sampleContext [("id", ["42"])]).
Proof.
  apply (getSongURL_id_by_value sampleConfig (sampleWorld 200 sampleBody)
           (sampleContext [("id", ["+0042"])]) (sampleContext [("id", ["42"])]) 42);
    vm_compute; reflexivity.
Defined.

Lemma UnixNano_in_range (t : Time.t) :
  0 <= Time.sec t <= 9223372035 -> 0 <= Time.nsec t < 1000000000 ->
  Time.UnixNano t = Time.sec t * 1000000000 + Time.nsec t.
Proof.
  intros Hs Hn. unfold Time.UnixNano, Time.wrap64.
  change (2 ^ 63) with 9223372036854775808. change (2 ^ 64) with 18446744073709551616.
  rewrite Z.mod_small by lia. lia.
Qed.

(** X8.  For a clock between 1970 and the year 2262, where the 64-bit
    count of nanoseconds ends, the [timestamp] of the upstream request is
    the time in whole milliseconds since the epoch: a thousand for each
    second and one for each million nanoseconds. *)
Theorem getSongURL_timestamp (config : Config) (w : World) (c : Gin.Context) (n : Z) :
  Strconv.Atoi (Gin.Query c "id") = Ok n ->
  0 <= Time.sec (now w) <= 9223372035 ->
  0 <= Time.nsec (now w) < 1000000000 ->
  let ms := Time.sec (now w) * 1000 + Time.nsec (now w) / 1000000 in
  requests (getSongURL config w c)
  = [(NeteaseMusicAPI config +:+ "/song/url/v1") +:+ "?"
     +:+ "cookie=" +:+ Url.QueryEscape (Cookie config)
     +:+ "&id=" +:+ Strconv.Itoa n
     +:+ "&level=" +:+ Url.QueryEscape (Gin.DefaultQuery c "level" (Level config))
     +:+ "&realIP=" +:+ Url.QueryEscape (Gin.DefaultQuery c "realip" (RealIP config))
     +:+ "&timestamp=" +:+ Strconv.FormatInt ms]
  /\ Time.sec (now w) * 1000 <= ms < (Time.sec (now w) + 1) * 1000.
Proof.
  intros Hid Hs Hn. cbv zeta.
  rewrite (getSongURL_requests _ _ _ _ Hid), Encode_buildParams.
  rewrite (UnixNano_in_range _ Hs Hn).
  assert (Hq : Z.quot (Time.sec (now w) * 1000000000 + Time.nsec (now w)) 1000000
               = Time.sec (now w) * 1000 + Time.nsec (now w) / 1000000).
  { rewrite Z.quot_div_nonneg by lia.
    replace (Time.sec (now w) * 1000000000) with (Time.sec (now w) * 1000 * 1000000) by lia.
    rewrite Z.add_comm, Z.div_add by lia. lia. }
  rewrite Hq. split; [reflexivity|].
  assert (0 <= Time.nsec (now w) / 1000000 < 1000).
  { split; [apply Z.div_pos; lia|apply Z.div_lt_upper_bound; lia]. }
  lia.
Qed.

Lemma getSongURL_timestamp_witness :
  requests (getSongURL sampleConfig (sampleWorld 200 sampleBody)
              (sampleContext [("id", ["42"])]))
  = [sampleURL]
  /\ 1700000000 * 1000 + 123456789 / 1000000 = 1700000000123.
Proof.
  split; [|reflexivity].
  destruct (getSongURL_timestamp sampleConfig (sampleWorld 200 sampleBody)
              (sampleContext [("id", ["42"])]) 42) as [Hreq _].
  - vm_compute. reflexivity.
  - cbn. lia.
  - cbn. lia.
  - rewrite Hreq. vm_compute. reflexivity.
Defined.

(** ** The query string, read back *)

Lemma Contains_app (sep : ascii) (a b : string) :
  UrlQuery.Contains sep (a +:+ b) = UrlQuery.Contains sep a || UrlQuery.Contains sep b.
Proof.
  induction a as [|c a IH]; [reflexivity|].
  change (String c a +:+ b) with (String c (a +:+ b)).
  cbn [UrlQuery.Contains]. rewrite IH, orb_assoc. reflexivity.
Qed.

(** [QueryEscape] writes none of the bytes that structure a query. *)
Lemma QueryEscape_char_clean (c : ascii) :
  UrlQuery.Contains (chr 38) (Url.QueryEscape (str1 c)) = false
  /\ UrlQuery.Contains (chr 61) (Url.QueryEscape (str1 c)) = false
  /\ UrlQuery.Contains (chr 59) (Url.QueryEscape (str1 c)) = false.
Proof. destruct c as [[] [] [] [] [] [] [] []]; vm_compute; repeat split; reflexivity. Qed.

Lemma QueryEscape_clean (s : string) :
  UrlQuery.Contains (chr 38) (Url.QueryEscape s) = false
  /\ UrlQuery.Contains (chr 61) (Url.QueryEscape s) = false
  /\ UrlQuery.Contains (chr 59) (Url.QueryEscape s) = false.
Proof.
  induction s as [|c s (IH1 & IH2 & IH3)]; [repeat split; reflexivity|].
  rewrite QueryEscape_cons, !Contains_app, IH1, IH2, IH3.
  destruct (QueryEscape_char_clean c) as (H1 & H2 & H3). rewrite H1, H2, H3.
  repeat split; reflexivity.
Qed.

Lemma append_empty (s : string) : s +:+ EmptyString = s.
Proof.
  induction s as [|c s IH]; [reflexivity|].
  change (String c (s +:+ EmptyString) = String c s). rewrite IH. reflexivity.
Qed.

Lemma amp_byte (c : ascii) : (byte c =? 38) = Ascii.eqb c (chr 38).
Proof. destruct c as [[] [] [] [] [] [] [] []]; vm_compute; reflexivity. Qed.

Lemma piecesFrom_piece (cur a rest : string) :
  UrlQuery.Contains (chr 38) a = false ->
  UrlQuery.piecesFrom cur (a +:+ String (chr 38) rest)
  = (cur +:+ a) :: match rest with
                   | EmptyString => []
                   | _ => UrlQuery.piecesFrom EmptyString rest
                   end.
Proof.
  revert cur. induction a as [|c a IH]; intros cur Ha.
  - change (EmptyString +:+ String (chr 38) rest) with (String (chr 38) rest).
    rewrite append_empty. reflexivity.
  - cbn [UrlQuery.Contains] in Ha. apply orb_false_iff in Ha as [Hc Ha].
    change (String c a +:+ String (chr 38) rest) with (String c (a +:+ String (chr 38) rest)).
    cbn [UrlQuery.piecesFrom]. rewrite amp_byte, Hc. rewrite IH by exact Ha.
    f_equal. rewrite append_assoc. reflexivity.
Qed.

Lemma piecesFrom_last (cur a : string) :
  UrlQuery.Contains (chr 38) a = false ->
  UrlQuery.piecesFrom cur a = [cur +:+ a].
Proof.
  revert cur. induction a as [|c a IH]; intros cur Ha.
  - cbn [UrlQuery.piecesFrom]. rewrite append_empty. reflexivity.
  - cbn [UrlQuery.Contains] in Ha. apply orb_false_iff in Ha as [Hc Ha].
    cbn [UrlQuery.piecesFrom]. rewrite amp_byte, Hc. rewrite IH by exact Ha.
    f_equal. rewrite append_assoc. reflexivity.
Qed.

Lemma Cut_found (sep : ascii) (a b : string) :
  UrlQuery.Contains sep a = false ->
  UrlQuery.Cut sep (a +:+ String sep b) = (a, b, true).
Proof.
  induction a as [|c a IH]; intros Ha.
  - change (EmptyString +:+ String sep b) with (String sep b).
    cbn [UrlQuery.Cut]. rewrite Ascii.eqb_refl. reflexivity.
  - cbn [UrlQuery.Contains] in Ha. apply orb_false_iff in Ha as [Hc Ha].
    change (String c a +:+ String sep b) with (String c (a +:+ String sep b)).
    cbn [UrlQuery.Cut]. rewrite Hc, IH by exact Ha. reflexivity.
Qed.

Lemma parsePiece_pair (k k' v : string) (m : gmap string (list string)) (e : bool) :
  UrlQuery.Contains (chr 61) k = false ->
  UrlQuery.Contains (chr 59) k = false ->
  Url.QueryUnescape k = Ok k' ->
  UrlQuery.parsePiece (m, e) (k +:+ String (chr 61) (Url.QueryEscape v)) = (Url.Add k' v m, e).
Proof.
  intros Heq Hsemi Hk. unfold UrlQuery.parsePiece.
  destruct (QueryEscape_clean v) as (_ & _ & H3).
  rewrite Contains_app, Hsemi. cbn [UrlQuery.Contains orb].
  change (Ascii.eqb (chr 61) (chr 59)) with false. cbn [orb]. rewrite H3.
  assert (Hne : String.eqb (k +:+ String (chr 61) (Url.QueryEscape v)) EmptyString = false)
    by (destruct k; reflexivity).
  rewrite Hne, (Cut_found _ _ _ Heq), Hk, QueryUnescape_QueryEscape. reflexivity.
Qed.

Lemma Count_app (sep : ascii) (a b : string) :
  UrlQuery.Count sep (a +:+ b) = UrlQuery.Count sep a + UrlQuery.Count sep b.
Proof.
  induction a as [|c a IH]; [reflexivity|].
  change (String c a +:+ b) with (String c (a +:+ b)). cbn [UrlQuery.Count].
  rewrite IH. lia.
Qed.

Lemma Count_clean (sep : ascii) (a : string) :
  UrlQuery.Contains sep a = false -> UrlQuery.Count sep a = 0.
Proof.
  induction a as [|c a IH]; [reflexivity|]. cbn [UrlQuery.Contains UrlQuery.Count].
  intros H. apply orb_false_iff in H as [-> H]. rewrite (IH H). reflexivity.
Qed.

Lemma Count_amp (rest : string) :
  UrlQuery.Count (chr 38) (String (chr 38) rest) = 1 + UrlQuery.Count (chr 38) rest.
Proof. reflexivity. Qed.

Lemma nonempty_app (p q : string) :
  String.eqb p EmptyString = false -> String.eqb (p +:+ q) EmptyString = false.
Proof. destruct p; [discriminate|reflexivity]. Qed.

Lemma piecesFrom_next (a rest : string) :
  UrlQuery.Contains (chr 38) a = false ->
  String.eqb rest EmptyString = false ->
  UrlQuery.piecesFrom EmptyString (a +:+ String (chr 38) rest)
  = a :: UrlQuery.piecesFrom EmptyString rest.
Proof.
  intros Ha Hr. rewrite piecesFrom_piece by exact Ha.
  destruct rest; [discriminate|reflexivity].
Qed.

(** Five pieces joined by [&] are taken off the query one by one. *)
Lemma pieces_five (p1 p2 p3 p4 p5 : string) :
  let ok p := UrlQuery.Contains (chr 38) p = false /\ String.eqb p EmptyString = false in
  ok p1 -> ok p2 -> ok p3 -> ok p4 -> ok p5 ->
  UrlQuery.pieces
    (p1 +:+ String (chr 38) (p2 +:+ String (chr 38) (p3 +:+ String (chr 38)
       (p4 +:+ String (chr 38) p5))))
  = [p1; p2; p3; p4; p5].
Proof.
  intros ok [? ?] [? ?] [? ?] [? ?] [? ?].
  assert (Hp : forall s, String.eqb s EmptyString = false ->
                         UrlQuery.pieces s = UrlQuery.piecesFrom EmptyString s)
    by (intros [|c s] Hs; [discriminate|reflexivity]).
  rewrite Hp by (apply nonempty_app; assumption).
  rewrite !piecesFrom_next by (try apply nonempty_app; assumption).
  rewrite piecesFrom_last by assumption. reflexivity.
Qed.

Lemma Count_five (p1 p2 p3 p4 p5 : string) :
  let ok p := UrlQuery.Contains (chr 38) p = false /\ String.eqb p EmptyString = false in
  ok p1 -> ok p2 -> ok p3 -> ok p4 -> ok p5 ->
  UrlQuery.Count (chr 38)
    (p1 +:+ String (chr 38) (p2 +:+ String (chr 38) (p3 +:+ String (chr 38)
       (p4 +:+ String (chr 38) p5))))
  = 4.
Proof.
  intros ok [H1 _] [H2 _] [H3 _] [H4 _] [H5 _].
  rewrite !Count_app, !Count_amp, !Count_app, !Count_amp, !Count_app, !Count_amp,
    !Count_app, !Count_amp.
  rewrite (Count_clean _ _ H1), (Count_clean _ _ H2), (Count_clean _ _ H3),
    (Count_clean _ _ H4), (Count_clean _ _ H5).
  reflexivity.
Qed.

Lemma pair_piece (k v : string) :
  UrlQuery.Contains (chr 38) k = false ->
  UrlQuery.Contains (chr 38) (k +:+ String (chr 61) (Url.QueryEscape v)) = false
  /\ String.eqb (k +:+ String (chr 61) (Url.QueryEscape v)) EmptyString = false.
Proof.
  intros Hk. destruct (QueryEscape_clean v) as (Hv & _ & _). split.
  - rewrite Contains_app, Hk. cbn [UrlQuery.Contains orb]. exact Hv.
  - destruct k; reflexivity.
Qed.

(** What [ParseQuery] reads in the encoded parameters of a request is
    the parameters, without error. *)
Lemma ParseQuery_Encode (config : Config) (n : Z) (level realIP : string) (timestamp : Z) :
  UrlQuery.ParseQuery (Url.Encode (buildParams config n level realIP timestamp))
  = (buildParams config n level realIP timestamp, false).
Proof.
  rewrite Encode_buildParams.
  rewrite <- (QueryEscape_FormatInt timestamp).
  unfold Strconv.Itoa. rewrite <- (QueryEscape_FormatInt n).
  unfold buildParams, Strconv.Itoa.
  generalize (Strconv.FormatInt n) (Strconv.FormatInt timestamp) (Cookie config).
  intros a t c.
  replace ("cookie=" +:+ Url.QueryEscape c +:+ "&id=" +:+ Url.QueryEscape a +:+ "&level="
           +:+ Url.QueryEscape level +:+ "&realIP=" +:+ Url.QueryEscape realIP
           +:+ "&timestamp=" +:+ Url.QueryEscape t)
    with (("cookie" +:+ String (chr 61) (Url.QueryEscape c)) +:+ String (chr 38)
            (("id" +:+ String (chr 61) (Url.QueryEscape a)) +:+ String (chr 38)
               (("level" +:+ String (chr 61) (Url.QueryEscape level)) +:+ String (chr 38)
                  (("realIP" +:+ String (chr 61) (Url.QueryEscape realIP)) +:+ String (chr 38)
                     ("timestamp" +:+ String (chr 61) (Url.QueryEscape t))))))
    by (rewrite !append_assoc; reflexivity).
  unfold UrlQuery.ParseQuery.
  rewrite Count_five by (apply pair_piece; reflexivity).
  change (UrlQuery.defaultMaxParams <? 4 + 1) with false.
  cbv iota.
  rewrite pieces_five by (apply pair_piece; reflexivity).
  cbn [foldl].
  rewrite (parsePiece_pair "cookie" "cookie"), (parsePiece_pair "id" "id"),
    (parsePiece_pair "level" "level"), (parsePiece_pair "realIP" "realIP"),
    (parsePiece_pair "timestamp" "timestamp") by reflexivity.
  f_equal; try (vm_compute; reflexivity).
Qed.

(** X9.  The query of the upstream request reads back as the five
    parameters the handler put in, each with its one value and without a
    parse error, whatever characters the cookie, the level and the
    address contain: escaping loses nothing and adds no parameter. *)
Theorem getSongURL_query_round_trip (config : Config) (w : World) (c : Gin.Context) (n : Z) :
  Strconv.Atoi (Gin.Query c "id") = Ok n ->
  let params :=
    buildParams config n
      (Gin.DefaultQuery c "level" (Level config))
      (Gin.DefaultQuery c "realip" (RealIP config))
      (Z.quot (Time.UnixNano (now w)) 1000000) in
  requests (getSongURL config w c)
  = [(NeteaseMusicAPI config +:+ "/song/url/v1") +:+ "?" +:+ Url.Encode params]
  /\ UrlQuery.ParseQuery (Url.Encode params) = (params, false)
  /\ params !! "id" = Some [Strconv.Itoa n]
  /\ params !! "cookie" = Some [Cookie config].
Proof.
  intros Hid. cbv zeta. split; [exact (getSongURL_requests _ _ _ _ Hid)|].
  split; [apply ParseQuery_Encode|].
  split; apply buildParams_lookup.
Qed.

Lemma getSongURL_query_round_trip_witness :
  (UrlQuery.ParseQuery
     "cookie=MUSIC_U%3Dabc%3B+os%3Dpc&id=42&level=exhigh&realIP=116.25.146.177&timestamp=1700000000123").1
  !! "cookie" = Some ["MUSIC_U=abc; os=pc"].
Proof.
  destruct (getSongURL_query_round_trip sampleConfig (sampleWorld 200 sampleBody)
              (sampleContext [("id", ["42"])]) 42) as (_ & Hparse & _ & Hcookie).
  - vm_compute. reflexivity.
  - replace "cookie=MUSIC_U%3Dabc%3B+os%3Dpc&id=42&level=exhigh&realIP=116.25.146.177&timestamp=1700000000123"
      with (Url.Encode
              (buildParams sampleConfig 42
                 (Gin.DefaultQuery (sampleContext [("id", ["42"])]) "level" (Level sampleConfig))
                 (Gin.DefaultQuery (sampleContext [("id", ["42"])]) "realip" (RealIP sampleConfig))
                 (Z.quot (Time.UnixNano (now (sampleWorld 200 sampleBody))) 1000000)))
      by (vm_compute; reflexivity).
    rewrite Hparse. exact Hcookie.
Defined.

(** ** From the raw query of the request *)

(** Values are appended: the first value of a key stays the first. *)
Lemma parsePiece_first (acc : Url.Values * bool) (piece k v : string) (vs : list string) :
  acc.1 !! k = Some (v :: vs) ->
  exists vs', (UrlQuery.parsePiece acc piece).1 !! k = Some (v :: vs').
Proof.
  destruct acc as [m e]. cbn [fst]. intros Hk. unfold UrlQuery.parsePiece.
  destruct (UrlQuery.Contains (chr 59) piece); [exists vs; exact Hk|].
  destruct (String.eqb piece EmptyString); [exists vs; exact Hk|].
  destruct (UrlQuery.Cut (chr 61) piece) as [[key value] found].
  destruct (Url.QueryUnescape key) as [key1|]; [|exists vs; exact Hk].
  destruct (Url.QueryUnescape value) as [value1|]; [|exists vs; exact Hk].
  cbn [fst]. unfold Url.Add. destruct (decide (key1 = k)) as [->|Hne].
  - rewrite lookup_insert_eq, Hk. cbn. exists (vs ++ [value1])%list. reflexivity.
  - rewrite lookup_insert_ne by exact Hne. exists vs. exact Hk.
Qed.

Lemma foldl_parsePiece_first (ps : list string) (acc : Url.Values * bool) (k v : string)
    (vs : list string) :
  acc.1 !! k = Some (v :: vs) ->
  exists vs', (foldl UrlQuery.parsePiece acc ps).1 !! k = Some (v :: vs').
Proof.
  revert acc vs. induction ps as [|p ps IH]; intros acc vs Hk; cbn [foldl].
  - exists vs. exact Hk.
  - destruct (parsePiece_first acc p k v vs Hk) as [vs' H']. exact (IH _ _ H').
Qed.

Lemma Count_nonneg (sep : ascii) (s : string) : 0 <= UrlQuery.Count sep s.
Proof.
  induction s as [|c s IH]; cbn [UrlQuery.Count]; [lia|].
  destruct (Ascii.eqb c sep); lia.
Qed.

Lemma Count_first (k v rest : string) :
  UrlQuery.Contains (chr 38) k = false ->
  UrlQuery.Count (chr 38)
    ((k +:+ String (chr 61) (Url.QueryEscape v)) +:+ String (chr 38) rest)
  = 1 + UrlQuery.Count (chr 38) rest.
Proof.
  intros Hk. destruct (pair_piece k v Hk) as [Hp _].
  rewrite Count_app, Count_amp, (Count_clean _ _ Hp). lia.
Qed.

Lemma ParseQuery_first (k v rest : string) :
  UrlQuery.Contains (chr 38) k = false ->
  UrlQuery.Contains (chr 61) k = false ->
  UrlQuery.Contains (chr 59) k = false ->
  Url.QueryUnescape k = Ok k ->
  k <> EmptyString ->
  UrlQuery.Count (chr 38) rest + 2 <= UrlQuery.defaultMaxParams ->
  exists vs,
    (UrlQuery.ParseQuery ((k +:+ String (chr 61) (Url.QueryEscape v))
                          +:+ String (chr 38) rest)).1 !! k
    = Some (v :: vs).
Proof.
  intros Hamp Heq Hsemi Hun Hne Hmax. destruct (QueryEscape_clean v) as (Hv & _ & _).
  unfold UrlQuery.ParseQuery, UrlQuery.pieces.
  rewrite (Count_first _ _ _ Hamp).
  destruct (Z.ltb_spec UrlQuery.defaultMaxParams (1 + UrlQuery.Count (chr 38) rest + 1));
    [lia|].
  destruct k as [|c k']; [contradiction|].
  change ((String c k' +:+ ?a) +:+ ?b) with (String c ((k' +:+ a) +:+ b)). cbv iota.
  change (String c ((k' +:+ ?a) +:+ ?b)) with ((String c k' +:+ a) +:+ b).
  rewrite piecesFrom_piece
    by (rewrite Contains_app, Hamp; cbn [UrlQuery.Contains orb]; exact Hv).
  change (EmptyString +:+ ?x) with x. cbn [foldl].
  rewrite (parsePiece_pair _ _ _ _ _ Heq Hsemi Hun).
  apply foldl_parsePiece_first with (vs := []). cbn [fst]. unfold Url.Add.
  rewrite lookup_insert_eq, lookup_empty. reflexivity.
Qed.

(** X10.  From the raw query of the request: when it starts with [id=]
    and the decimal form of an integer [n] of 64 bits, and has no more
    than 10000 parameters (its [&] counted, plus one), the handler reads
    that [id] and calls [http.Get] for [n], whatever follows the first
    [&], a second [id] included.  A query with more parameters is
    refused whole by [ParseQuery]: the handler then finds no [id] and
    answers 400 with "Missing required parameter: id". *)
Theorem getSongURL_first_id (config : Config) (w : World) (n : Z) (rest : string) :
  - 2 ^ 63 <= n < 2 ^ 63 ->
  let c := initQueryCache (("id=" +:+ Strconv.Itoa n) +:+ String (chr 38) rest) in
  (UrlQuery.Count (chr 38) rest + 2 <= 10000 ->
   Gin.Query c "id" = Strconv.Itoa n
   /\ requests (getSongURL config w c)
      = [(NeteaseMusicAPI config +:+ "/song/url/v1") +:+ "?"
         +:+ Url.Encode
               (buildParams config n
                  (Gin.DefaultQuery c "level" (Level config))
                  (Gin.DefaultQuery c "realip" (RealIP config))
                  (Z.quot (Time.UnixNano (now w)) 1000000))])
  /\ (10000 < UrlQuery.Count (chr 38) rest + 2 ->
      Gin.queryCache c = ∅
      /\ getSongURL config w c
         = mkOutcome
             (Gin.JSON 400
                (Json.DObject
                   [("code", Json.DInt 400);
                    ("message", Json.DString "Missing required parameter: id")]))
             []).
Proof.
  intros Hn. cbv zeta. split.
  - intros Hmax.
    assert (Hq : Gin.Query
                   (initQueryCache (("id=" +:+ Strconv.Itoa n) +:+ String (chr 38) rest))
                   "id"
                 = Strconv.Itoa n).
    { unfold Strconv.Itoa. rewrite <- (QueryEscape_FormatInt n) at 1.
      destruct (ParseQuery_first "id" (Strconv.FormatInt n) rest) as [vs Hvs];
        try reflexivity; [discriminate|exact Hmax|].
      exact (Query_present (initQueryCache _) "id" _ vs Hvs). }
    split; [exact Hq|].
    apply getSongURL_requests. rewrite Hq. apply Atoi_Itoa. exact Hn.
  - intros Hmax.
    assert (Hc : Gin.queryCache
                   (initQueryCache (("id=" +:+ Strconv.Itoa n) +:+ String (chr 38) rest))
                 = ∅).
    { unfold initQueryCache, UrlQuery.ParseQuery, Strconv.Itoa. cbn [Gin.queryCache].
      rewrite <- (QueryEscape_FormatInt n).
      change ("id=" +:+ ?x) with ("id" +:+ String (chr 61) x).
      rewrite (Count_first "id") by reflexivity.
      destruct (Z.ltb_spec UrlQuery.defaultMaxParams
                  (1 + UrlQuery.Count (chr 38) rest + 1)) as [_|Hle]; [reflexivity|].
      unfold UrlQuery.defaultMaxParams in Hle. lia. }
    split; [exact Hc|].
    unfold getSongURL. rewrite Query_absent by (rewrite Hc; apply lookup_empty).
    reflexivity.
Qed.

Lemma getSongURL_first_id_witness :
  Gin.Query (initQueryCache "id=42&id=7&level=standard") "id" = "42".
Proof.
  destruct (getSongURL_first_id sampleConfig (sampleWorld 200 sampleBody) 42
              "id=7&level=standard") as [H _]; [lia|].
  destruct H as [H _]; [vm_compute; discriminate|exact H].
Defined.


(** ** What the answer depends on *)

(** X11.  The answer depends on the configuration, on the clock and on
    the [level] and [realip] of the request only through what the
    upstream service replies: with the same [id] and the same reply, two
    calls give the same answer.  Neither the cookie nor the address that
    was sent upstream shows in it. *)
Theorem getSongURL_answer_from_upstream (config1 config2 : Config) (t1 t2 : Time.t)
    (reply : result unit Http.Response) (c1 c2 : Gin.Context) :
  Gin.Query c1 "id" = Gin.Query c2 "id" ->
  response (getSongURL config1 (mkWorld t1 (fun _ => reply)) c1)
  = response (getSongURL config2 (mkWorld t2 (fun _ => reply)) c2).
Proof.
  intros Hid. unfold getSongURL. cbv zeta. rewrite Hid.
  destruct (String.eqb (Gin.Query c2 "id") EmptyString); [reflexivity|].
  destruct (Strconv.Atoi (Gin.Query c2 "id")) as [n|]; [|reflexivity].
  cbn [get]. destruct reply as [resp|]; [|reflexivity].
  destruct (Http.Body resp) as [body|]; [|reflexivity].
  destruct (SongURLResponse.Unmarshal body) as [r|]; [|reflexivity].
  destruct (negb (SongURLResponse.Code r =? 200)); reflexivity.
Qed.

Lemma getSongURL_answer_from_upstream_witness :
  response (getSongURL sampleConfig (sampleWorld 200 sampleBody)
              (sampleContext [("id", ["42"]); ("level", ["standard"])]))
  = response (getSongURL (mkConfig "9090" "MUSIC_U=xyz" "10.0.0.1" "lossless" "https://api.test")
                (mkWorld (Time.mk 5 0) (fun _ => Ok (Http.mkResponse 200 (Ok sampleBody))))
                (sampleContext [("id", ["42"])])).
Proof.
  apply (getSongURL_answer_from_upstream sampleConfig
           (mkConfig "9090" "MUSIC_U=xyz" "10.0.0.1" "lossless" "https://api.test")
           (Time.mk 1700000000 123456789) (Time.mk 5 0)
           (Ok (Http.mkResponse 200 (Ok sampleBody)))
           (sampleContext [("id", ["42"]); ("level", ["standard"])])
           (sampleContext [("id", ["42"])])).
  vm_compute. reflexivity.
Defined.


(** X12.  The [id] that goes upstream is the decimal form of the number
    that [Atoi] has read, and [Atoi] reads that form as the same number:
    a request that carries it in place of the original [id] has the same
    outcome. *)
Theorem getSongURL_id_normal_form (config : Config) (w : World) (c c' : Gin.Context) (n : Z) :
  Strconv.Atoi (Gin.Query c "id") = Ok n ->
  Gin.Query c' "id" = Strconv.Itoa n ->
  Gin.GetQuery c' "level" = Gin.GetQuery c "level" ->
  Gin.GetQuery c' "realip" = Gin.GetQuery c "realip" ->
  Strconv.Atoi (Strconv.Itoa n) = Ok n
  /\ getSongURL config w c' = getSongURL config w c.
Proof.
  intros Hid Hid' Hl Hr.
  assert (Hn : Strconv.Atoi (Strconv.Itoa n) = Ok n) by (apply Atoi_Itoa, (Atoi_range _ _ Hid)).
  split; [exact Hn|].
  unfold getSongURL, Gin.DefaultQuery. rewrite Hid', Hn, Hid, Hl, Hr.
  rewrite (Atoi_ok_nonempty _ _ Hid), (Atoi_ok_nonempty _ _ Hn). reflexivity.
Qed.

Lemma getSongURL_id_normal_form_witness :
  Strconv.Atoi (Strconv.Itoa 42) = Ok 42
  /\ getSongURL sampleConfig (sampleWorld 200 sampleBody) (sampleContext [("id", ["42"])])
     = getSongURL sampleConfig (sampleWorld 200 sampleBody) (sampleContext [("id", ["+0042"])]).
Proof.
  apply (getSongURL_id_normal_form sampleConfig (sampleWorld 200 sampleBody)
           (sampleContext [("id", ["+0042"])]) (sampleContext [("id", ["42"])]) 42);
    vm_compute; reflexivity.
Defined.


(** ** The middleware and the routes *)

Lemma getSongURL_status (config : Config) (w : World) (c : Gin.Context) :
  let s := Gin.status (response (getSongURL config w c)) in
  s = 200 \/ s = 400 \/ s = 500.
Proof.
  cbv zeta.
  destruct (getSongURL_cases config w c)
    as [H|[H|[(u & H)|[(u & H)|[(u & H)|(u & resp & body & r & _ & _ & _ & _ & H)]]]]];
    cbv zeta in H.
  1-5: rewrite H; cbn; auto.
  destruct H as [[_ H]|[_ H]]; rewrite H; cbn; auto.
Qed.

Lemma WriteJSON_fresh (r : Gin.Response) (x : Chain.Exchange) :
  Chain.Written x = false ->
  Chain.Header x !! "Content-Type" = None ->
  Chain.bodyAllowedForStatus (Gin.status r) = true ->
  Chain.WriteJSON r x
  = Chain.mkExchange (Chain.Method x)
      (<["Content-Type" := ["application/json; charset=utf-8"]]> (Chain.Header x))
      (Gin.status r) true (Chain.Body x ++ [Chain.JSONText (Gin.body r)])%list
      (Chain.Aborted x) (Chain.Upstream x).
Proof.
  intros Hw Hc Hb. destruct x as [m h s wr b a u]. cbn in Hw, Hc. subst wr.
  unfold Chain.WriteJSON, Chain.SetStatus, Chain.SetHeader.
  cbn [Chain.Written Chain.Method Chain.Header Chain.Status Chain.Body Chain.Aborted
       Chain.Upstream].
  rewrite Hc, Hb. reflexivity.
Qed.

Lemma SetHeader_unwritten (key value : string) (x : Chain.Exchange) :
  Chain.Written x = false ->
  Chain.SetHeader key value x
  = Chain.mkExchange (Chain.Method x) (<[key := [value]]> (Chain.Header x)) (Chain.Status x)
      false (Chain.Body x) (Chain.Aborted x) (Chain.Upstream x).
Proof. intros Hw. unfold Chain.SetHeader. rewrite Hw. reflexivity. Qed.

(** The middleware on an exchange whose status line is not out yet. *)
Lemma corsMiddleware_unwritten (next : Chain.Exchange -> Chain.Exchange) (x : Chain.Exchange) :
  Chain.Written x = false ->
  corsMiddleware next x
  = (if String.eqb (Chain.Method x) "OPTIONS" then Chain.AbortWithStatus 204 else next)
      (Chain.mkExchange (Chain.Method x)
         (<["Access-Control-Allow-Methods" := ["POST, OPTIONS, GET, PUT, DELETE"]]>
            (<["Access-Control-Allow-Headers" :=
                 ["Content-Type, Content-Length, Accept-Encoding, X-CSRF-Token, Authorization, accept, origin, Cache-Control, X-Requested-With"]]>
               (<["Access-Control-Allow-Credentials" := ["true"]]>
                  (<["Access-Control-Allow-Origin" := ["*"]]> (Chain.Header x)))))
         (Chain.Status x) false (Chain.Body x) (Chain.Aborted x) (Chain.Upstream x)).
Proof.
  intros Hw. unfold corsMiddleware. cbv zeta.
  rewrite (SetHeader_unwritten "Access-Control-Allow-Origin" _ x Hw).
  rewrite (SetHeader_unwritten "Access-Control-Allow-Credentials") by reflexivity.
  rewrite (SetHeader_unwritten "Access-Control-Allow-Headers") by reflexivity.
  rewrite (SetHeader_unwritten "Access-Control-Allow-Methods") by reflexivity.
  cbn [Chain.Written Chain.Method Chain.Header Chain.Status Chain.Body Chain.Aborted
       Chain.Upstream].
  destruct (String.eqb (Chain.Method x) "OPTIONS"); reflexivity.
Qed.

Lemma corsMiddleware_passes (next : Chain.Exchange -> Chain.Exchange) (method : string)
    (status : Z) :
  String.eqb method "OPTIONS" = false ->
  corsMiddleware next (Chain.mkExchange method ∅ status false [] false [])
  = next (Chain.mkExchange method
            (<["Access-Control-Allow-Methods" := ["POST, OPTIONS, GET, PUT, DELETE"]]>
               (<["Access-Control-Allow-Headers" :=
                    ["Content-Type, Content-Length, Accept-Encoding, X-CSRF-Token, Authorization, accept, origin, Cache-Control, X-Requested-With"]]>
                  (<["Access-Control-Allow-Credentials" := ["true"]]>
                     (<["Access-Control-Allow-Origin" := ["*"]]> ∅))))
            status false [] false []).
Proof.
  intros Hm. rewrite corsMiddleware_unwritten by reflexivity.
  cbn [Chain.Written Chain.Method Chain.Header Chain.Status Chain.Body
       Chain.Aborted Chain.Upstream].
  rewrite Hm. reflexivity.
Qed.

(** X13.  A request with the method OPTIONS is answered by the
    middleware alone: status 204, written at once, the chain aborted,
    no body, no upstream request, the four CORS headers set and any
    content type left as it was; what the handlers that follow would do
    does not count, since they do not run. *)
Theorem corsMiddleware_preflight (next : Chain.Exchange -> Chain.Exchange) (x : Chain.Exchange) :
  Chain.Method x = "OPTIONS" ->
  Chain.Written x = false ->
  let y := corsMiddleware next x in
  Chain.Status y = 204
  /\ Chain.Written y = true
  /\ Chain.Aborted y = true
  /\ Chain.Body y = Chain.Body x
  /\ Chain.Upstream y = Chain.Upstream x
  /\ Chain.Header y !! "Access-Control-Allow-Origin" = Some ["*"]
  /\ Chain.Header y !! "Access-Control-Allow-Credentials" = Some ["true"]
  /\ Chain.Header y !! "Access-Control-Allow-Headers"
     = Some ["Content-Type, Content-Length, Accept-Encoding, X-CSRF-Token, Authorization, accept, origin, Cache-Control, X-Requested-With"]
  /\ Chain.Header y !! "Access-Control-Allow-Methods" = Some ["POST, OPTIONS, GET, PUT, DELETE"]
  /\ Chain.Header y !! "Content-Type" = Chain.Header x !! "Content-Type"
  /\ forall next', corsMiddleware next' x = y.
Proof.
  intros Hm Hw. cbv zeta.
  assert (Hall : forall next', corsMiddleware next' x
                 = Chain.mkExchange "OPTIONS"
                     (<["Access-Control-Allow-Methods" := ["POST, OPTIONS, GET, PUT, DELETE"]]>
                        (<["Access-Control-Allow-Headers" :=
                             ["Content-Type, Content-Length, Accept-Encoding, X-CSRF-Token, Authorization, accept, origin, Cache-Control, X-Requested-With"]]>
                           (<["Access-Control-Allow-Credentials" := ["true"]]>
                              (<["Access-Control-Allow-Origin" := ["*"]]> (Chain.Header x)))))
                     204 true (Chain.Body x) true (Chain.Upstream x)).
  { intros next'. rewrite (corsMiddleware_unwritten next' x Hw), Hm.
    change (String.eqb "OPTIONS" "OPTIONS") with true. cbv iota. reflexivity. }
  rewrite (Hall next).
  cbn [Chain.Written Chain.Method Chain.Header Chain.Status Chain.Body Chain.Aborted
       Chain.Upstream].
  split; [reflexivity|]. split; [reflexivity|]. split; [reflexivity|].
  split; [reflexivity|]. split; [reflexivity|].
  split; [rewrite !lookup_insert_ne by discriminate; apply lookup_insert_eq|].
  split; [rewrite !lookup_insert_ne by discriminate; apply lookup_insert_eq|].
  split; [rewrite !lookup_insert_ne by discriminate; apply lookup_insert_eq|].
  split; [apply lookup_insert_eq|].
  split; [rewrite !lookup_insert_ne by discriminate; reflexivity|].
  exact Hall.
Qed.

Lemma corsMiddleware_preflight_witness :
  Chain.Status (songRoute sampleConfig (sampleWorld 200 sampleBody)
                  (sampleContext [("id", ["42"])]) (Chain.start "OPTIONS")) = 204
  /\ Chain.Upstream (songRoute sampleConfig (sampleWorld 200 sampleBody)
                       (sampleContext [("id", ["42"])]) (Chain.start "OPTIONS")) = [].
Proof.
  destruct (corsMiddleware_preflight (fun x => x)
              (Chain.mkExchange "OPTIONS" ∅ 404 false [] false []) eq_refl eq_refl)
    as (Hstatus & Hwritten & _ & _ & Hup & _).
  unfold songRoute, Chain.handleHTTPRequest, Chain.serveError, noRoute, Chain.start.
  cbn [Chain.Method Chain.Header Chain.Written Chain.Body Chain.Aborted Chain.Upstream].
  change (String.eqb "OPTIONS" "GET") with false. cbv iota zeta.
  rewrite Hwritten. split; [exact Hstatus|exact Hup].
Defined.


Lemma songHandler_fresh (config : Config) (w : World) (c : Gin.Context) (x : Chain.Exchange) :
  Chain.Written x = false ->
  Chain.Header x !! "Content-Type" = None ->
  songHandler config w c x
  = Chain.mkExchange (Chain.Method x)
      (<["Content-Type" := ["application/json; charset=utf-8"]]> (Chain.Header x))
      (Gin.status (response (getSongURL config w c))) true
      (Chain.Body x ++ [Chain.JSONText (Gin.body (response (getSongURL config w c)))])%list
      (Chain.Aborted x)
      (Chain.Upstream x ++ requests (getSongURL config w c))%list.
Proof.
  intros Hw Hc. unfold songHandler. cbv zeta. rewrite WriteJSON_fresh; [reflexivity|assumption..|].
  destruct (getSongURL_status config w c) as [H|[H|H]]; cbv zeta in H; rewrite H; reflexivity.
Qed.

(** What the engine does with a request for which it has no route, on
    a fresh exchange: the middleware runs alone; OPTIONS is answered by
    it, any other method gets the 404 of the engine. *)
Lemma noRoute_served (method : string) :
  Chain.serveError 404 Chain.default404Body noRoute (Chain.start method)
  = if String.eqb method "OPTIONS" then
      Chain.mkExchange "OPTIONS"
        (<["Access-Control-Allow-Methods" := ["POST, OPTIONS, GET, PUT, DELETE"]]>
           (<["Access-Control-Allow-Headers" :=
                ["Content-Type, Content-Length, Accept-Encoding, X-CSRF-Token, Authorization, accept, origin, Cache-Control, X-Requested-With"]]>
              (<["Access-Control-Allow-Credentials" := ["true"]]>
                 (<["Access-Control-Allow-Origin" := ["*"]]> ∅))))
        204 true [] true []
    else
      Chain.mkExchange method
        (<["Content-Type" := ["text/plain"]]>
           (<["Access-Control-Allow-Methods" := ["POST, OPTIONS, GET, PUT, DELETE"]]>
              (<["Access-Control-Allow-Headers" :=
                   ["Content-Type, Content-Length, Accept-Encoding, X-CSRF-Token, Authorization, accept, origin, Cache-Control, X-Requested-With"]]>
                 (<["Access-Control-Allow-Credentials" := ["true"]]>
                    (<["Access-Control-Allow-Origin" := ["*"]]> ∅)))))
        404 true [Chain.PlainText "404 page not found"] false [].
Proof.
  unfold Chain.serveError, noRoute, Chain.start.
  cbn [Chain.Written Chain.Method Chain.Header Chain.Status Chain.Body Chain.Aborted
       Chain.Upstream].
  cbv zeta. rewrite corsMiddleware_unwritten by reflexivity.
  cbn [Chain.Written Chain.Method Chain.Header Chain.Status Chain.Body Chain.Aborted
       Chain.Upstream].
  destruct (String.eqb method "OPTIONS") eqn:Hm.
  - apply String.eqb_eq in Hm. subst method. reflexivity.
  - reflexivity.
Qed.

(** X14.  The two routes are for GET alone.  A GET request gets the
    handler's answer passed through the middleware: on a fresh exchange
    the song route ends with the status and the body that [getSongURL]
    answers and the one call of [http.Get] it makes, the health route
    with 200 and the health body, both under the four CORS headers and
    the JSON content type.  A request with any other method but OPTIONS
    has no route: it is answered 404 with the plain text "404 page not
    found" under the same four headers, no handler runs and [http.Get]
    is not called. *)
Theorem routes_pass_reply (config : Config) (w : World) (c : Gin.Context) (now : Time.t)
    (method : string) :
  method <> "OPTIONS" ->
  let cors : gmap string (list string) :=
    <["Access-Control-Allow-Methods" := ["POST, OPTIONS, GET, PUT, DELETE"]]>
      (<["Access-Control-Allow-Headers" :=
           ["Content-Type, Content-Length, Accept-Encoding, X-CSRF-Token, Authorization, accept, origin, Cache-Control, X-Requested-With"]]>
         (<["Access-Control-Allow-Credentials" := ["true"]]>
            (<["Access-Control-Allow-Origin" := ["*"]]> ∅))) in
  let json := <["Content-Type" := ["application/json; charset=utf-8"]]> cors in
  let notFound :=
    Chain.mkExchange method (<["Content-Type" := ["text/plain"]]> cors) 404 true
      [Chain.PlainText "404 page not found"] false [] in
  let o := getSongURL config w c in
  songRoute config w c (Chain.start method)
  = (if String.eqb method "GET" then
       Chain.mkExchange "GET" json (Gin.status (response o)) true
         [Chain.JSONText (Gin.body (response o))] false (requests o)
     else notFound)
  /\ healthRoute now (Chain.start method)
     = (if String.eqb method "GET" then
          Chain.mkExchange "GET" json 200 true [Chain.JSONText (Gin.body (health now))]
            false []
        else notFound).
Proof.
  intros Hm. cbv zeta. apply String.eqb_neq in Hm.
  unfold songRoute, healthRoute, Chain.handleHTTPRequest.
  cbn [Chain.start Chain.Method].
  destruct (String.eqb method "GET") eqn:Hg.
  - apply String.eqb_eq in Hg. subst method. unfold Chain.start.
    rewrite !corsMiddleware_passes by reflexivity. split.
    + rewrite songHandler_fresh by reflexivity. reflexivity.
    + unfold healthHandler. rewrite WriteJSON_fresh by reflexivity. reflexivity.
  - change (Chain.mkExchange method ∅ 200 false [] false []) with (Chain.start method).
    rewrite noRoute_served, Hm. split; reflexivity.
Qed.

Lemma routes_pass_reply_witness :
  (Chain.Status (songRoute sampleConfig (sampleWorld 200 sampleBody)
                   (sampleContext [("id", ["42"])]) (Chain.start "GET")) = 200
   /\ Chain.Upstream (songRoute sampleConfig (sampleWorld 200 sampleBody)
                        (sampleContext [("id", ["42"])]) (Chain.start "GET")) = [sampleURL])
  /\ (Chain.Status (songRoute sampleConfig (sampleWorld 200 sampleBody)
                      (sampleContext [("id", ["42"])]) (Chain.start "POST")) = 404
      /\ Chain.Upstream (songRoute sampleConfig (sampleWorld 200 sampleBody)
                           (sampleContext [("id", ["42"])]) (Chain.start "POST")) = []).
Proof.
  split.
  - destruct (routes_pass_reply sampleConfig (sampleWorld 200 sampleBody)
                (sampleContext [("id", ["42"])]) (Time.mk 1700000000 0) "GET")
      as [Hsong _]; [discriminate|].
    rewrite Hsong. split; vm_compute; reflexivity.
  - destruct (routes_pass_reply sampleConfig (sampleWorld 200 sampleBody)
                (sampleContext [("id", ["42"])]) (Time.mk 1700000000 0) "POST")
      as [Hsong _]; [discriminate|].
    rewrite Hsong. split; reflexivity.
Defined.

(** X15.  Every response to a request for [/song] or [/health] carries
    the four CORS headers with their fixed values, whatever the method
    of the request: the handler's answer to a GET, the 204 of the
    middleware to an OPTIONS, and the 404 that the engine serves for a
    method without a route. *)
Theorem routes_cors_headers (config : Config) (w : World) (c : Gin.Context) (now : Time.t)
    (method : string) :
  let cors :=
    [("Access-Control-Allow-Origin", "*");
     ("Access-Control-Allow-Credentials", "true");
     ("Access-Control-Allow-Headers",
      "Content-Type, Content-Length, Accept-Encoding, X-CSRF-Token, Authorization, accept, origin, Cache-Control, X-Requested-With");
     ("Access-Control-Allow-Methods", "POST, OPTIONS, GET, PUT, DELETE")] in
  Forall (fun kv => Chain.Header (songRoute config w c (Chain.start method)) !! kv.1
                    = Some [kv.2]) cors
  /\ Forall (fun kv => Chain.Header (healthRoute now (Chain.start method)) !! kv.1
                       = Some [kv.2]) cors.
Proof.
  cbv zeta. unfold songRoute, healthRoute, Chain.handleHTTPRequest.
  cbn [Chain.start Chain.Method].
  destruct (String.eqb method "GET") eqn:Hg.
  - apply String.eqb_eq in Hg. subst method. unfold Chain.start.
    rewrite !corsMiddleware_passes by reflexivity.
    rewrite songHandler_fresh by reflexivity.
    unfold healthHandler. rewrite WriteJSON_fresh by reflexivity.
    cbn [Chain.WriteHeaderNow Chain.Header].
    split; repeat constructor; vm_compute; reflexivity.
  - change (Chain.mkExchange method ∅ 200 false [] false []) with (Chain.start method).
    rewrite noRoute_served.
    destruct (String.eqb method "OPTIONS"); cbn [Chain.Header];
      split; repeat constructor; vm_compute; reflexivity.
Qed.

(** ** Start-up *)

(** X16.  The order in which a setting is looked for: a variable that
    the environment of the process has counts, even when it is empty (it
    then gives the default, and what the [.env] file says is not looked
    at); otherwise the value of the [.env] file counts, if there is a
    file, it has the variable and the value is not empty; otherwise the
    default. *)
Theorem getEnvOrDefault_precedence (dotenv : option Os.Env) (env : Os.Env) (key d : string) :
  let pick v := if String.eqb v EmptyString then d else v in
  getEnvOrDefault (Godotenv.Load dotenv env).1 key d
  = match env !! key, dotenv with
    | Some v, _ => pick v
    | None, Some vars =>
        match vars !! key with
        | Some v => pick v
        | None => d
        end
    | None, None => d
    end.
Proof.
  cbv zeta. rewrite getEnvOrDefault_spec. unfold Os.Getenv.
  destruct dotenv as [vars|]; cbn [Godotenv.Load fst].
  - rewrite lookup_union.
    destruct (env !! key) as [v|], (vars !! key) as [v'|]; reflexivity.
  - destruct (env !! key) as [v|]; reflexivity.
Qed.

Lemma getEnvOrDefault_nonempty (env : Os.Env) (key d : string) :
  d <> EmptyString -> getEnvOrDefault env key d <> EmptyString.
Proof.
  intros Hd. rewrite getEnvOrDefault_spec.
  destruct (String.eqb _ _) eqn:E; [exact Hd|]. apply String.eqb_neq. exact E.
Qed.

Lemma init_events_no_listen (dotenv : option Os.Env) (env : Os.Env) (addr : string) :
  Listen addr ∉ (init dotenv env).1.
Proof.
  unfold init. destruct (Godotenv.Load dotenv env) as [env' loaded].
  unfold checkConfig. destruct (String.eqb _ _), loaded; cbn [fst app];
    intros H; repeat (apply elem_of_cons in H as [H|H]; [discriminate|]);
    apply elem_of_nil in H; exact H.
Qed.

Lemma run_loaded (dotenv : option Os.Env) (env : Os.Env) (bind : string -> option string)
    (config : Config) :
  (init dotenv env).2 = Loaded config ->
  run dotenv env bind
  = (((init dotenv env).1 ++ (main config bind).1)%list, (main config bind).2).
Proof.
  intros H. unfold run. destruct (init dotenv env) as [events r]. cbn [snd fst] in *. subst r.
  destruct (main config bind). reflexivity.
Qed.

(** X17.  A process that serves has a configuration without an empty
    field, read from the environment as [godotenv.Load] left it; it
    listens on [":"] followed by the port, binding that address was the
    last thing it did, and it has not exited. *)
Theorem run_serving (dotenv : option Os.Env) (env : Os.Env) (bind : string -> option string)
    (addr : string) (config : Config) :
  (run dotenv env bind).2 = Serving addr config ->
  config = loadConfig (Godotenv.Load dotenv env).1
  /\ Cookie config <> EmptyString
  /\ Port config <> EmptyString
  /\ RealIP config <> EmptyString
  /\ Level config <> EmptyString
  /\ NeteaseMusicAPI config <> EmptyString
  /\ addr = ":" +:+ Port config
  /\ bind addr = None
  /\ last (run dotenv env bind).1 = Some (Listen addr)
  /\ forall code, Exit code ∉ (run dotenv env bind).1.
Proof.
  intros Hs.
  pose proof (init_spec dotenv env) as Hi.
  destruct (String.eqb _ _) eqn:Ec in Hi.
  { unfold run in Hs. destruct (init dotenv env) as [events r]. cbn [snd] in Hi. subst r.
    discriminate. }
  assert (Hev : forall code, Exit code ∉ (init dotenv env).1).
  { intros code. unfold init. destruct (Godotenv.Load dotenv env) as [env' loaded].
    cbn [fst] in Ec. unfold checkConfig.
    replace (String.eqb (Cookie (loadConfig env')) EmptyString) with false.
    - destruct loaded; cbn [fst app]; intros H;
        repeat (apply elem_of_cons in H as [H|H]; [discriminate|]);
        apply elem_of_nil in H; exact H.
    - symmetry. cbn [loadConfig Cookie]. rewrite getEnvOrDefault_spec, Ec. exact Ec. }
  rewrite (run_loaded _ _ _ _ Hi) in Hs |- *. cbn [fst snd] in *.
  unfold main in Hs |- *. cbv zeta in Hs |- *.
  destruct (bind (":" +:+ Port (loadConfig (Godotenv.Load dotenv env).1))) as [err|] eqn:Eb;
    cbn [fst snd] in Hs |- *; [discriminate|].
  injection Hs as <- <-.
  split; [reflexivity|]. split.
  { cbn [loadConfig Cookie]. rewrite getEnvOrDefault_spec, Ec. apply String.eqb_neq. exact Ec. }
  repeat split; try (apply getEnvOrDefault_nonempty; discriminate).
  - exact Eb.
  - rewrite !app_assoc. apply last_snoc.
  - intros code H. apply elem_of_app in H as [H|H]; [exact (Hev code H)|].
    cbn [app] in H. repeat (apply elem_of_cons in H as [H|H]; [discriminate|]).
    apply elem_of_nil in H; exact H.
Qed.

Lemma run_serving_witness :
  last (run None {["NETEASE_COOKIE" := "abc"]} (fun _ => None)).1 = Some (Listen ":8080").
Proof.
  assert (H := run_serving None {["NETEASE_COOKIE" := "abc"]} (fun _ => None) ":8080"
                 (mkConfig "8080" "abc" "116.25.146.177" "exhigh" "https://example.com")).
  destruct H as (_ & _ & _ & _ & _ & _ & _ & _ & Hlast & _).
  - vm_compute. reflexivity.
  - exact Hlast.
Defined.


(** X18.  When the cookie is set but the address cannot be bound, the
    process logs "Failed to start server:" followed by the error and
    ends with exit status 1; it has not listened and handles no
    request. *)
Theorem run_bind_failure (dotenv : option Os.Env) (env : Os.Env)
    (bind : string -> option string) (err : string) :
  let env' := (Godotenv.Load dotenv env).1 in
  Os.Getenv env' "NETEASE_COOKIE" <> EmptyString ->
  bind (":" +:+ getEnvOrDefault env' "PORT" "8080") = Some err ->
  (run dotenv env bind).2 = Exited 1
  /\ last (run dotenv env bind).1 = Some (Exit 1)
  /\ Log ("Failed to start server:" +:+ err) ∈ (run dotenv env bind).1
  /\ (forall addr, Listen addr ∉ (run dotenv env bind).1)
  /\ (forall w c, serveSong (run dotenv env bind).2 w c = None)
  /\ (forall now, serveHealth (run dotenv env bind).2 now = None).
Proof.
  cbv zeta. intros Hc Hb.
  pose proof (init_spec dotenv env) as Hi.
  apply String.eqb_neq in Hc. rewrite Hc in Hi.
  rewrite (run_loaded _ _ _ _ Hi). cbn [fst snd].
  unfold main. cbv zeta. cbn [loadConfig Port]. rewrite Hb. cbn [fst snd].
  split; [reflexivity|]. split; [|split; [|split; [|split; reflexivity]]].
  - rewrite app_assoc. change [?a; ?b] with ([a] ++ [b])%list. rewrite app_assoc.
    apply last_snoc.
  - apply elem_of_app. right. apply elem_of_app. right. apply elem_of_cons. left. reflexivity.
  - intros addr H. apply elem_of_app in H as [H|H]; [exact (init_events_no_listen _ _ _ H)|].
    cbn [app] in H. repeat (apply elem_of_cons in H as [H|H]; [discriminate|]).
    apply elem_of_nil in H; exact H.
Qed.

Lemma run_bind_failure_witness :
  (run None {["NETEASE_COOKIE" := "abc"]} (fun _ => Some "address already in use")).2
  = Exited 1.
Proof.
  assert (H := run_bind_failure None {["NETEASE_COOKIE" := "abc"]}
                 (fun _ => Some "address already in use") "address already in use").
  cbv zeta in H. destruct H as [H _].
  - vm_compute. discriminate.
  - reflexivity.
  - exact H.
Defined.


(** ** Decoding the upstream reply *)

Lemma decodeMembers_key {F T : Type} (fields : list (string * F))
    (store : F -> Json.value -> T -> result Json.DecodeError T)
    (before after : list (string * Json.value)) (k k' : string) (x : Json.value) (old : T) :
  Json.findField fields k = Json.findField fields k' ->
  Json.decodeMembers fields store (before ++ (k, x) :: after)%list old
  = Json.decodeMembers fields store (before ++ (k', x) :: after)%list old.
Proof.
  intros Hk. revert old. induction before as [|[k0 x0] before IH]; intros old.
  - cbn [app Json.decodeMembers]. rewrite Hk. reflexivity.
  - cbn [app Json.decodeMembers].
    destruct (match Json.findField fields k0 with
              | Some f => store f x0 old
              | None => Ok old
              end) as [cur|e]; cbn [bind]; [apply IH|reflexivity].
Qed.

(** X19.  The name of a member is matched without regard to case: two
    names that fold to the same text are interchangeable, in an entry as
    at the top level of the reply. *)
Theorem decode_key_case (key key' : string) (x : Json.value)
    (before after : list (string * Json.value)) (e : Entry.t) (r : SongURLResponse.t) :
  Json.foldName key = Json.foldName key' ->
  Entry.decode (Json.Object (before ++ (key, x) :: after)) e
  = Entry.decode (Json.Object (before ++ (key', x) :: after)) e
  /\ SongURLResponse.decode (Json.Object (before ++ (key, x) :: after)) r
     = SongURLResponse.decode (Json.Object (before ++ (key', x) :: after)) r.
Proof.
  intros Hf. split; cbn [Entry.decode SongURLResponse.decode Json.decodeStruct];
    apply decodeMembers_key.
  - rewrite !(findField_folded _ _ Entry_fields_NoDup), Hf. reflexivity.
  - rewrite !(findField_folded _ _ SongURLResponse_fields_NoDup), Hf. reflexivity.
Qed.

Lemma decode_key_case_witness :
  Entry.decode (Json.Object [("URL", Json.Str "http://m/1.mp3")]) Entry.zero
  = Entry.decode (Json.Object [("url", Json.Str "http://m/1.mp3")]) Entry.zero.
Proof.
  destruct (decode_key_case "URL" "url" (Json.Str "http://m/1.mp3") [] [] Entry.zero
              SongURLResponse.zero) as [H _].
  - vm_compute. reflexivity.
  - exact H.
Defined.

(** X20.  A member whose name folds to none of the declared names is
    skipped, whatever its value: the reply decodes as it does without
    that member, in an entry as at the top level. *)
Theorem decode_unknown_member (key : string) (x : Json.value)
    (before after : list (string * Json.value)) (e : Entry.t) (r : SongURLResponse.t) :
  Json.foldName key ∉ "DATA" :: map (fun p => Json.foldName (fst p)) Entry.fields ->
  Entry.decode (Json.Object (before ++ (key, x) :: after)) e
  = Entry.decode (Json.Object (before ++ after)) e
  /\ SongURLResponse.decode (Json.Object (before ++ (key, x) :: after)) r
     = SongURLResponse.decode (Json.Object (before ++ after)) r.
Proof.
  intros Hk. split; cbn [Entry.decode SongURLResponse.decode Json.decodeStruct];
    apply decodeMembers_unknown, findField_unknown; intros H; apply Hk.
  - apply elem_of_cons. right. exact H.
  - cbn in H. apply elem_of_cons in H as [H|H]; [|apply elem_of_cons in H as [H|H]].
    + rewrite H. apply (bool_decide_unpack _). vm_compute. exact I.
    + rewrite H. apply elem_of_cons. left. reflexivity.
    + apply elem_of_nil in H. destruct H.
Qed.

Lemma decode_unknown_member_witness :
  Entry.decode (Json.Object [("id", Json.Number "1"); ("time", Json.Str "soon")]) Entry.zero
  = Entry.decode (Json.Object [("id", Json.Number "1")]) Entry.zero.
Proof.
  destruct (decode_unknown_member "time" (Json.Str "soon") [("id", Json.Number "1")] []
              Entry.zero SongURLResponse.zero) as [H _].
  - apply (bool_decide_unpack _). vm_compute. exact I.
  - exact H.
Defined.


(** *** The entries *)

(** X21.  When the reply has one [data] member and that is an array,
    the decoded [Data] has one entry for each element, in the order of
    the array, and each entry is its element decoded on its own into the
    zero entry: no entry takes anything from another, and an element
    that does not decode makes the whole reply fail. *)
Theorem Unmarshal_entries (body : string) (before after : list (string * Json.value))
    (js : list Json.value) (r : SongURLResponse.t) :
  Json.parse body = Some (Json.Object (before ++ ("data", Json.Array js) :: after)) ->
  Forall (fun p => Json.findField SongURLResponse.fields (fst p)
                   <> Some SongURLResponse.fData) (before ++ after) ->
  SongURLResponse.Unmarshal body = Ok r ->
  Forall2 (fun j e => Entry.decode j Entry.zero = Ok e) js
    (Json.elements (SongURLResponse.Data r))
  /\ length (Json.elements (SongURLResponse.Data r)) = length js
  /\ SongURLResponse.Data r <> Json.SliceNil.
Proof.
  intros Hp Hm. apply Forall_app in Hm as [Hb Ha].
  unfold SongURLResponse.Unmarshal. rewrite Hp.
  cbn [SongURLResponse.decode Json.decodeStruct].
  assert (Hsplit : forall ms1 ms2 old res,
             Json.decodeMembers SongURLResponse.fields SongURLResponse.store
               (ms1 ++ ms2)%list old = Ok res ->
             exists mid,
               Json.decodeMembers SongURLResponse.fields SongURLResponse.store ms1 old = Ok mid
               /\ Json.decodeMembers SongURLResponse.fields SongURLResponse.store ms2 mid
                  = Ok res).
  { induction ms1 as [|[k x] ms1 IH]; intros ms2 old res; cbn [app Json.decodeMembers].
    - intros H. exists old. split; [reflexivity|exact H].
    - destruct (match Json.findField SongURLResponse.fields k with
                | Some f => SongURLResponse.store f x old
                | None => Ok old
                end) as [cur|]; cbn [bind]; [apply IH|discriminate]. }
  intros H. apply Hsplit in H as (mid & H1 & H2).
  apply (decodeMembers_keeps_Data _ _ _ Hb) in H1. cbn [SongURLResponse.zero SongURLResponse.Data] in H1.
  cbn [Json.decodeMembers] in H2.
  change (Json.findField SongURLResponse.fields "data") with (Some SongURLResponse.fData) in H2.
  cbn [SongURLResponse.store] in H2. rewrite H1 in H2.
  destruct js as [|j js].
  - cbn [Json.decodeSlice bind] in H2.
    apply (decodeMembers_keeps_Data _ _ _ Ha) in H2. cbn [SongURLResponse.Data] in H2.
    rewrite H2. cbn. split; [constructor|split; [reflexivity|discriminate]].
  - cbn [Json.decodeSlice Json.backing] in H2.
    destruct (Json.decodeElems Entry.zero Entry.decode (j :: js) []) as [es|] eqn:Ees;
      cbn [bind] in H2; [|discriminate].
    apply (decodeMembers_keeps_Data _ _ _ Ha) in H2. cbn [SongURLResponse.Data] in H2.
    rewrite H2. apply decodeElems_fresh in Ees.
    pose proof (Forall2_length _ _ _ Ees) as Hl.
    cbn [Json.elements]. rewrite Hl, firstn_all.
    split; [exact Ees|split; [congruence|discriminate]].
Qed.

Lemma Unmarshal_entries_witness :
  Forall2 (fun j e => Entry.decode j Entry.zero = Ok e)
    [Json.Object [("id", Json.Number "1"); ("url", Json.Str "http://m/1.mp3");
                  ("br", Json.Number "320000"); ("code", Json.Number "200");
                  ("level", Json.Str "exhigh")]]
    [sampleEntry].
Proof.
  destruct (Unmarshal_entries sampleBody [("code", Json.Number "200")] []
              [Json.Object [("id", Json.Number "1"); ("url", Json.Str "http://m/1.mp3");
                            ("br", Json.Number "320000"); ("code", Json.Number "200");
                            ("level", Json.Str "exhigh")]]
              (SongURLResponse.mk 200 (Json.Slice [sampleEntry] 1))) as [H _].
  - vm_compute. reflexivity.
  - repeat constructor. vm_compute. discriminate.
  - vm_compute. reflexivity.
  - exact H.
Defined.


(** *** The integers stay in the range of [int] *)

Lemma ParseInt_range (lit : string) (n : Z) :
  Strconv.ParseInt lit 64 = Ok n -> - 2 ^ 63 <= n < 2 ^ 63.
Proof.
  unfold Strconv.ParseInt. destruct lit as [|c rest]; [discriminate|].
  destruct (Strconv.ParseUint _ 64) as [un|] eqn:Eu; [|discriminate].
  cbn [bind]. change (if 64 =? 0 then Strconv.intSize else 64) with 64.
  change (2 ^ (64 - 1)) with (2 ^ 63).
  assert (Hun : 0 <= un).
  { unfold Strconv.ParseUint in Eu.
    destruct (if (byte c =? 43) || (byte c =? 45) then rest else String c rest);
      [discriminate|].
    apply parseUintLoop_nonneg in Eu; [exact Eu|lia]. }
  destruct (byte c =? 45); cbn [negb andb].
  - destruct (Z.gtb_spec un (2 ^ 63)) as [Hc|Hc]; [discriminate|].
    intros Hr. injection Hr as <-. lia.
  - destruct (Z.geb_spec un (2 ^ 63)) as [Hc|Hc]; [discriminate|].
    intros Hr. injection Hr as <-. lia.
Qed.

Lemma decodeInt_range (j : Json.value) (old n : Z) :
  - 2 ^ 63 <= old < 2 ^ 63 -> Json.decodeInt j old = Ok n -> - 2 ^ 63 <= n < 2 ^ 63.
Proof.
  intros Ho. destruct j; cbn [Json.decodeInt]; try discriminate.
  - intros H. injection H as <-. exact Ho.
  - destruct (Strconv.ParseInt lit 64) as [m|] eqn:E; [|discriminate].
    intros H. injection H as <-. exact (ParseInt_range _ _ E).
Qed.

Lemma Entry_store_range (f : Entry.field) (j : Json.value) (e e' : Entry.t) :
  Forall (fun n => - 2 ^ 63 <= n < 2 ^ 63)
    [Entry.ID e; Entry.Br e; Entry.Size e; Entry.Code e; Entry.Expi e; Entry.Fee e;
     Entry.Payed e; Entry.Flag e] ->
  Entry.store f j e = Ok e' ->
  Forall (fun n => - 2 ^ 63 <= n < 2 ^ 63)
    [Entry.ID e'; Entry.Br e'; Entry.Size e'; Entry.Code e'; Entry.Expi e'; Entry.Fee e';
     Entry.Payed e'; Entry.Flag e'].
Proof.
  intros Hok H. repeat (apply Forall_cons in Hok as [? Hok]).
  destruct f; cbn [Entry.store] in H;
    match type of H with
    | context [bind ?d _] => destruct d as [v|] eqn:E; cbn [bind] in H; [|discriminate]
    end;
    injection H as <-;
    cbn [Entry.ID Entry.Br Entry.Size Entry.Code Entry.Expi Entry.Fee Entry.Payed Entry.Flag];
    repeat (apply Forall_cons; split;
            [first [assumption | eapply decodeInt_range; [|exact E]; assumption]|]);
    constructor.
Qed.

Lemma Entry_decode_range (j : Json.value) (e e' : Entry.t) :
  Forall (fun n => - 2 ^ 63 <= n < 2 ^ 63)
    [Entry.ID e; Entry.Br e; Entry.Size e; Entry.Code e; Entry.Expi e; Entry.Fee e;
     Entry.Payed e; Entry.Flag e] ->
  Entry.decode j e = Ok e' ->
  Forall (fun n => - 2 ^ 63 <= n < 2 ^ 63)
    [Entry.ID e'; Entry.Br e'; Entry.Size e'; Entry.Code e'; Entry.Expi e'; Entry.Fee e';
     Entry.Payed e'; Entry.Flag e'].
Proof.
  intros Hok. unfold Entry.decode, Json.decodeStruct. destruct j; try discriminate.
  - intros H. injection H as <-. exact Hok.
  - revert e Hok. induction members as [|[k x] members IH]; intros e Hok;
      cbn [Json.decodeMembers].
    + intros H. injection H as <-. exact Hok.
    + destruct (Json.findField Entry.fields k) as [f|].
      * destruct (Entry.store f x e) as [cur|] eqn:Es; cbn [bind]; [|discriminate].
        apply IH. exact (Entry_store_range _ _ _ _ Hok Es).
      * cbn [bind]. apply IH. exact Hok.
Qed.

Lemma decodeElems_range (js : list Json.value) (b es : list Entry.t) :
  Forall (fun e => Forall (fun n => - 2 ^ 63 <= n < 2 ^ 63)
                     [Entry.ID e; Entry.Br e; Entry.Size e; Entry.Code e; Entry.Expi e;
                      Entry.Fee e; Entry.Payed e; Entry.Flag e]) b ->
  Json.decodeElems Entry.zero Entry.decode js b = Ok es ->
  Forall (fun e => Forall (fun n => - 2 ^ 63 <= n < 2 ^ 63)
                     [Entry.ID e; Entry.Br e; Entry.Size e; Entry.Code e; Entry.Expi e;
                      Entry.Fee e; Entry.Payed e; Entry.Flag e]) es.
Proof.
  revert b es. induction js as [|j js IH]; intros b es Hb; cbn [Json.decodeElems].
  - intros H. injection H as <-. exact Hb.
  - destruct (Entry.decode j (hd Entry.zero b)) as [e|] eqn:Ee; cbn [bind]; [|discriminate].
    destruct (Json.decodeElems Entry.zero Entry.decode js (tl b)) as [r|] eqn:Er;
      cbn [bind]; [|discriminate].
    intros H. injection H as <-. constructor.
    + apply (Entry_decode_range _ _ _) in Ee; [exact Ee|].
      destruct Hb as [|e0 b He0 Hb]; [|exact He0].
      repeat (apply Forall_cons; split; [cbn; lia|]). constructor.
    + apply (IH (tl b)); [|exact Er]. destruct Hb; [constructor|assumption].
Qed.

(** X22.  Every integer of a decoded reply is in the range of a 64-bit
    [int]: the [code] of the reply and the eight integer fields of each
    entry. *)
Theorem Unmarshal_int_range (body : string) (r : SongURLResponse.t) :
  SongURLResponse.Unmarshal body = Ok r ->
  - 2 ^ 63 <= SongURLResponse.Code r < 2 ^ 63
  /\ Forall (fun e => Forall (fun n => - 2 ^ 63 <= n < 2 ^ 63)
                        [Entry.ID e; Entry.Br e; Entry.Size e; Entry.Code e; Entry.Expi e;
                         Entry.Fee e; Entry.Payed e; Entry.Flag e])
       (Json.elements (SongURLResponse.Data r)).
Proof.
  unfold SongURLResponse.Unmarshal. destruct (Json.parse body) as [j|]; [|discriminate].
  intros H.
  assert (Hinv : - 2 ^ 63 <= SongURLResponse.Code r < 2 ^ 63
                 /\ Forall (fun e => Forall (fun n => - 2 ^ 63 <= n < 2 ^ 63)
                                       [Entry.ID e; Entry.Br e; Entry.Size e; Entry.Code e;
                                        Entry.Expi e; Entry.Fee e; Entry.Payed e; Entry.Flag e])
                      (Json.backing (SongURLResponse.Data r))).
  { assert (H0 : - 2 ^ 63 <= SongURLResponse.Code SongURLResponse.zero < 2 ^ 63
                 /\ Forall (fun e => Forall (fun n => - 2 ^ 63 <= n < 2 ^ 63)
                                       [Entry.ID e; Entry.Br e; Entry.Size e; Entry.Code e;
                                        Entry.Expi e; Entry.Fee e; Entry.Payed e; Entry.Flag e])
                      (Json.backing (SongURLResponse.Data SongURLResponse.zero)))
      by (cbn; split; [lia|constructor]).
    revert H H0. generalize SongURLResponse.zero as old.
    unfold SongURLResponse.decode, Json.decodeStruct. destruct j; try discriminate.
    - intros old H. injection H as <-. trivial.
    - induction members as [|[k x] members IH]; intros old; cbn [Json.decodeMembers].
      + intros H. injection H as <-. trivial.
      + destruct (Json.findField SongURLResponse.fields k) as [[]|];
          cbn [SongURLResponse.store bind].
        * destruct (Json.decodeInt x (SongURLResponse.Code old)) as [n|] eqn:En;
            cbn [bind]; [|discriminate].
          intros H [Hc Hd]. apply (IH _ H). cbn. split; [|exact Hd].
          exact (decodeInt_range _ _ _ Hc En).
        * destruct (Json.decodeSlice Entry.zero Entry.decode x (SongURLResponse.Data old))
            as [s|] eqn:Es; cbn [bind]; [|discriminate].
          intros H [Hc Hd]. apply (IH _ H). cbn [SongURLResponse.Code SongURLResponse.Data].
          split; [exact Hc|].
          unfold Json.decodeSlice in Es. destruct x; try discriminate.
          -- injection Es as <-. constructor.
          -- destruct elems as [|j0 js]; [injection Es as <-; constructor|].
             destruct (Json.decodeElems Entry.zero Entry.decode (j0 :: js)
                         (Json.backing (SongURLResponse.Data old))) as [b|] eqn:Eb;
               cbn [bind] in Es; [|discriminate].
             injection Es as <-. cbn [Json.backing].
             exact (decodeElems_range _ _ _ Hd Eb).
        * apply IH. }
  destruct Hinv as [Hc Hd]. split; [exact Hc|].
  destruct (SongURLResponse.Data r) as [|b n]; cbn [Json.elements Json.backing] in *.
  - constructor.
  - apply Forall_take. exact Hd.
Qed.

Lemma Unmarshal_int_range_witness :
  - 2 ^ 63 <= 200 < 2 ^ 63
  /\ Forall (fun e => Forall (fun n => - 2 ^ 63 <= n < 2 ^ 63)
                        [Entry.ID e; Entry.Br e; Entry.Size e; Entry.Code e; Entry.Expi e;
                         Entry.Fee e; Entry.Payed e; Entry.Flag e])
       [sampleEntry].
Proof.
  apply (Unmarshal_int_range sampleBody (SongURLResponse.mk 200 (Json.Slice [sampleEntry] 1))).
  vm_compute. reflexivity.
Defined.


(** ** What [Atoi] accepts *)

Lemma atoiFast_digits (s : string) (a m : Z) :
  Strconv.atoiFast s a = Ok m ->
  forallb is_digit (list_ascii_of_string s) = true
  /\ m = fold_left (fun acc c => acc * 10 + (byte c - 48)) (list_ascii_of_string s) a.
Proof.
  revert a. induction s as [|c s IH]; intros a; cbn [Strconv.atoiFast list_ascii_of_string
                                                      forallb fold_left].
  - intros H. injection H as <-. split; reflexivity.
  - assert (Hb : 0 <= byte c < 256).
    { unfold byte. pose proof (N_ascii_bounded c). lia. }
    destruct (Z.gtb_spec ((byte c - 48) mod 256) 9) as [Hg|Hg]; [discriminate|].
    assert (Hd : 48 <= byte c <= 57).
    { destruct (Z_lt_le_dec (byte c) 48) as [Hlt|Hge].
      - replace ((byte c - 48) mod 256) with (byte c - 48 + 256) in Hg; [lia|].
        apply Z.mod_unique_pos with (q := -1); lia.
      - rewrite Z.mod_small in Hg by lia. lia. }
    rewrite Z.mod_small by lia. intros H. apply IH in H as [Hall Hm].
    split; [|exact Hm].
    unfold is_digit at 1. rewrite Hall.
    destruct (Z.leb_spec 48 (byte c)), (Z.leb_spec (byte c) 57); try lia; reflexivity.
Qed.

Lemma parseUintLoop_digits (maxVal : Z) (s : string) (a m : Z) :
  Strconv.parseUintLoop maxVal s a = Ok m ->
  forallb is_digit (list_ascii_of_string s) = true
  /\ m = fold_left (fun acc c => acc * 10 + (byte c - 48)) (list_ascii_of_string s) a.
Proof.
  revert a. induction s as [|c s IH]; intros a;
    cbn [Strconv.parseUintLoop list_ascii_of_string forallb fold_left].
  - intros H. injection H as <-. split; reflexivity.
  - destruct (is_digit c); cbn [negb]; [|discriminate].
    destruct (a >=? Strconv.maxUint64 / 10 + 1); [discriminate|].
    destruct (_ || _); [discriminate|].
    intros H. apply IH in H as [Hall Hm]. split; [exact Hall|exact Hm].
Qed.

(** X23.  An [id] that [Atoi] reads, and so every [id] for which the
    handler asks the upstream service, is an optional sign [+] or [-]
    followed by one or more decimal digits and by nothing else; the
    number read is the value of the digits in base ten, negated under
    [-]. *)
Theorem getSongURL_id_syntax (config : Config) (w : World) (c : Gin.Context) (n : Z) :
  Strconv.Atoi (Gin.Query c "id") = Ok n ->
  exists (sign : string) (digits : list ascii),
    Gin.Query c "id" = sign +:+ string_of_list_ascii digits
    /\ (sign = EmptyString \/ sign = "+" \/ sign = "-")
    /\ digits <> []
    /\ forallb is_digit digits = true
    /\ n = (if String.eqb sign "-" then -1 else 1)
           * fold_left (fun acc c => acc * 10 + (byte c - 48)) digits 0.
Proof.
  generalize (Gin.Query c "id"). intros s. unfold Strconv.Atoi.
  assert (Hsign : forall ch : ascii,
             ((byte ch =? 45) || (byte ch =? 43) = true ->
              str1 ch = "+" \/ str1 ch = "-")
             /\ ((byte ch =? 45) = String.eqb (str1 ch) "-")).
  { intros ch. destruct ch as [[] [] [] [] [] [] [] []];
      (split; [vm_compute; intros H; first [discriminate H | auto] | vm_compute; reflexivity]). }
  destruct ((0 <? slen s) && (slen s <? 19)) eqn:Ep.
  - destruct s as [|ch rest]; [discriminate|].
    destruct (Hsign ch) as [Hs Hneg].
    destruct ((byte ch =? 45) || (byte ch =? 43)) eqn:Esign.
    + destruct (slen rest <? 1) eqn:El; cbn [andb]; [discriminate|].
      destruct (Strconv.atoiFast rest 0) as [m|] eqn:Em; [|discriminate].
      cbn [bind]. intros H. injection H as <-.
      apply atoiFast_digits in Em as [Hall Hm].
      exists (str1 ch), (list_ascii_of_string rest).
      rewrite string_of_list_ascii_of_string.
      split; [reflexivity|]. split; [destruct (Hs eq_refl); auto|].
      split.
      { destruct rest; [|discriminate]. discriminate El. }
      split; [exact Hall|].
      rewrite <- Hneg, <- Hm. destruct (byte ch =? 45); lia.
    + cbn [andb].
      destruct (Strconv.atoiFast (String ch rest) 0) as [m|] eqn:Em; [|discriminate].
      cbn [bind]. intros H. injection H as <-.
      apply atoiFast_digits in Em as [Hall Hm].
      exists EmptyString, (list_ascii_of_string (String ch rest)).
      rewrite string_of_list_ascii_of_string.
      split; [reflexivity|]. split; [auto|]. split; [discriminate|].
      split; [exact Hall|].
      apply orb_false_iff in Esign as [-> _].
      change (String.eqb EmptyString "-") with false. cbv iota. lia.
  - unfold Strconv.ParseInt. destruct s as [|ch rest]; [discriminate|].
    destruct (Hsign ch) as [Hs Hneg].
    destruct (Strconv.ParseUint _ 0) as [un|] eqn:Eu; [|discriminate].
    cbn [bind]. unfold Strconv.ParseUint in Eu.
    destruct ((byte ch =? 43) || (byte ch =? 45)) eqn:Esign.
    + destruct rest as [|c1 rest1]; [discriminate|].
      apply parseUintLoop_digits in Eu as [Hall Hm].
      intros H.
      assert (Hn : n = if byte ch =? 45 then - un else un).
      { cbv zeta in H. destruct (negb (byte ch =? 45) && _); [discriminate|].
        destruct ((byte ch =? 45) && _); [discriminate|].
        injection H as <-. reflexivity. }
      exists (str1 ch), (list_ascii_of_string (String c1 rest1)).
      rewrite string_of_list_ascii_of_string.
      split; [reflexivity|].
      split; [rewrite orb_comm in Esign; destruct (Hs Esign); auto|].
      split; [discriminate|]. split; [exact Hall|].
      rewrite <- Hneg, <- Hm, Hn. destruct (byte ch =? 45); lia.
    + apply parseUintLoop_digits in Eu as [Hall Hm].
      intros H.
      assert (Hn : n = if byte ch =? 45 then - un else un).
      { cbv zeta in H. destruct (negb (byte ch =? 45) && _); [discriminate|].
        destruct ((byte ch =? 45) && _); [discriminate|].
        injection H as <-. reflexivity. }
      exists EmptyString, (list_ascii_of_string (String ch rest)).
      rewrite string_of_list_ascii_of_string.
      split; [reflexivity|]. split; [auto|]. split; [discriminate|].
      split; [exact Hall|].
      apply orb_false_iff in Esign as [_ E45]. rewrite E45 in Hn.
      change (String.eqb EmptyString "-") with false. cbv iota. lia.
Qed.

Lemma getSongURL_id_syntax_witness :
  exists (sign : string) (digits : list ascii),
    Gin.Query (sampleContext [("id", ["+0042"])]) "id" = sign +:+ string_of_list_ascii digits
    /\ (sign = EmptyString \/ sign = "+" \/ sign = "-")
    /\ digits <> []
    /\ forallb is_digit digits = true
    /\ 42 = (if String.eqb sign "-" then -1 else 1)
            * fold_left (fun acc c => acc * 10 + (byte c - 48)) digits 0.
Proof.
  apply (getSongURL_id_syntax sampleConfig (sampleWorld 200 sampleBody)
           (sampleContext [("id", ["+0042"])]) 42).
  vm_compute. reflexivity.
Defined.


Lemma atoiFast_complete (digits : list ascii) (a : Z) :
  forallb is_digit digits = true ->
  Strconv.atoiFast (string_of_list_ascii digits) a
  = Ok (fold_left (fun acc c => acc * 10 + (byte c - 48)) digits a).
Proof.
  revert a. induction digits as [|c digits IH]; intros a Hall;
    cbn [string_of_list_ascii Strconv.atoiFast fold_left]; [reflexivity|].
  cbn [forallb] in Hall. apply andb_true_iff in Hall as [Hc Hall].
  unfold is_digit in Hc. apply andb_true_iff in Hc as [H1 H2].
  apply Z.leb_le in H1, H2. rewrite Z.mod_small by lia.
  destruct (Z.gtb_spec (byte c - 48) 9); [lia|]. apply IH. exact Hall.
Qed.

(** X24.  Conversely an [id] made of an optional sign and one to
    seventeen decimal digits is always read, as the value of its digits,
    and the handler asks the upstream service for that number. *)
Theorem getSongURL_accepts_digits (config : Config) (w : World) (c : Gin.Context)
    (sign : string) (digits : list ascii) :
  Gin.Query c "id" = sign +:+ string_of_list_ascii digits ->
  sign = EmptyString \/ sign = "+" \/ sign = "-" ->
  digits <> [] ->
  (length digits <= 17)%nat ->
  forallb is_digit digits = true ->
  let n := (if String.eqb sign "-" then -1 else 1)
           * fold_left (fun acc c => acc * 10 + (byte c - 48)) digits 0 in
  Strconv.Atoi (Gin.Query c "id") = Ok n
  /\ requests (getSongURL config w c)
     = [(NeteaseMusicAPI config +:+ "/song/url/v1") +:+ "?"
        +:+ Url.Encode
              (buildParams config n
                 (Gin.DefaultQuery c "level" (Level config))
                 (Gin.DefaultQuery c "realip" (RealIP config))
                 (Z.quot (Time.UnixNano (now w)) 1000000))].
Proof.
  intros Hq Hsign Hne Hlen Hall. cbv zeta.
  assert (Hatoi : Strconv.Atoi (Gin.Query c "id")
                  = Ok ((if String.eqb sign "-" then -1 else 1)
                        * fold_left (fun acc c => acc * 10 + (byte c - 48)) digits 0)).
  { rewrite Hq. unfold Strconv.Atoi.
    assert (Hl : slen (string_of_list_ascii digits) = Z.of_nat (length digits)).
    { unfold slen. f_equal. clear. induction digits; cbn; [reflexivity|]. f_equal.
      assumption. }
    destruct digits as [|d digits]; [contradiction|].
    destruct Hsign as [->|[->| ->]].
    - change (EmptyString +:+ ?x) with x. rewrite Hl.
      replace ((0 <? Z.of_nat (length (d :: digits)))
               && (Z.of_nat (length (d :: digits)) <? 19)) with true
        by (symmetry; apply andb_true_iff; split; apply Z.ltb_lt; cbn [length] in *; lia).
      cbn [string_of_list_ascii].
      assert (Hd : (byte d =? 45) || (byte d =? 43) = false /\ (byte d =? 45) = false).
      { cbn [forallb] in Hall. apply andb_true_iff in Hall as [Hc _].
        unfold is_digit in Hc. apply andb_true_iff in Hc as [H1 H2].
        apply Z.leb_le in H1, H2.
        destruct (Z.eqb_spec (byte d) 45), (Z.eqb_spec (byte d) 43); try lia;
          split; reflexivity. }
      destruct Hd as [Hd1 Hd2]. rewrite Hd1, Hd2. cbn [andb].
      change (String d (string_of_list_ascii digits))
        with (string_of_list_ascii (d :: digits)).
      rewrite (atoiFast_complete _ _ Hall). cbn [bind].
      change (String.eqb EmptyString "-") with false. cbv iota. f_equal; lia.
    - change ("+" +:+ ?x) with (String "+" x).
      replace (slen (String "+" (string_of_list_ascii (d :: digits))))
        with (Z.of_nat (length (d :: digits)) + 1)
        by (rewrite <- Hl; unfold slen; cbn [String.length]; lia).
      replace ((0 <? Z.of_nat (length (d :: digits)) + 1)
               && (Z.of_nat (length (d :: digits)) + 1 <? 19)) with true
        by (symmetry; apply andb_true_iff; split; apply Z.ltb_lt; cbn [length] in *; lia).
      change ((byte "+" =? 45) || (byte "+" =? 43)) with true.
      change (byte "+" =? 45) with false. cbv iota. rewrite Hl.
      replace (Z.of_nat (length (d :: digits)) <? 1) with false
        by (symmetry; apply Z.ltb_ge; cbn [length]; lia).
      cbn [andb]. rewrite (atoiFast_complete _ _ Hall). cbn [bind].
      change (String.eqb "+" "-") with false. cbv iota. f_equal; lia.
    - change ("-" +:+ ?x) with (String "-" x).
      replace (slen (String "-" (string_of_list_ascii (d :: digits))))
        with (Z.of_nat (length (d :: digits)) + 1)
        by (rewrite <- Hl; unfold slen; cbn [String.length]; lia).
      replace ((0 <? Z.of_nat (length (d :: digits)) + 1)
               && (Z.of_nat (length (d :: digits)) + 1 <? 19)) with true
        by (symmetry; apply andb_true_iff; split; apply Z.ltb_lt; cbn [length] in *; lia).
      change ((byte "-" =? 45) || (byte "-" =? 43)) with true.
      change (byte "-" =? 45) with true. cbv iota. rewrite Hl.
      replace (Z.of_nat (length (d :: digits)) <? 1) with false
        by (symmetry; apply Z.ltb_ge; cbn [length]; lia).
      cbn [andb]. rewrite (atoiFast_complete _ _ Hall). cbn [bind].
      change (String.eqb "-" "-") with true. cbv iota. f_equal; lia. }
  split; [exact Hatoi|]. exact (getSongURL_requests _ _ _ _ Hatoi).
Qed.

Lemma getSongURL_accepts_digits_witness :
  Strconv.Atoi (Gin.Query (sampleContext [("id", ["-0042"])]) "id") = Ok (-42).
Proof.
  destruct (getSongURL_accepts_digits sampleConfig (sampleWorld 200 sampleBody)
              (sampleContext [("id", ["-0042"])]) "-"
              (list_ascii_of_string "0042")) as [H _].
  - vm_compute. reflexivity.
  - right. right. reflexivity.
  - discriminate.
  - cbn. lia.
  - vm_compute. reflexivity.
  - exact H.
Defined.

